(** * BayesianHypernet: the hypernetwork models of [BHNs.py] and the
      weight-vector utilities of [toy_examples/mlp_hmc.py]

    A shallow embedding of the two Python modules.

    - Python integers are [Z]; counts that index a list are [nat].
    - numpy's [int] is the 64-bit integer: products and sums of numpy
      integers wrap around ([wrap64]).
    - A Theano tensor of [floatX] values is a list (vector) or a list of
      rows (matrix) of real numbers: the arithmetic is the exact arithmetic
      of [R], so rounding and overflow are outside the model. The one
      division of the modules by an input, by [dataset_size], is the
      division of [floatX]: by zero it gives an infinity or nan, which is
      no real number ([fdiv]).
    - A symbolic Theano variable is the function of the run-time inputs
      that it denotes.
    - Python exceptions are values of [exn]; a computation that can raise
      returns a [result].
    - Functions of Theano, Lasagne and numpy that the modules call but do
      not define are fields of the class [Lasagne] or, where their
      behaviour is elementary (slicing, [T.clip], [mean]), small
      definitions of the prelude. *)

From Stdlib Require Import String Ascii List Bool Arith ZArith Lia.
From Stdlib Require Import DecimalString.
From Stdlib Require Import Reals Lra.
Import ListNotations.

Set Implicit Arguments.

(* ===================================================================== *)
(** * Python prelude *)
(* ===================================================================== *)

Module Py.

(** The exceptions the two modules can raise, with [str(e)]. *)
Inductive exn : Type :=
| AssertionError (msg : string)
| AttributeError (msg : string)
| ValueError (msg : string)
| IndexError (msg : string)
| NotImplementedError (msg : string)
| MissingInputError (msg : string).


Inductive result (A : Type) : Type :=
| Ok (a : A)
| Raise (e : exn).
Arguments Ok {A} a.
Arguments Raise {A} e.

Definition bind {A B} (c : result A) (k : A -> result B) : result B :=
  match c with
  | Ok a => k a
  | Raise e => Raise e
  end.

Definition raises {A} (c : result A) : Prop :=
  exists e, c = Raise e.

(** [assert cond]: a bare assertion carries no message. *)
Definition assert (cond : bool) : result unit :=
  if cond then Ok tt else Raise (AssertionError "").

(** ["%d" % n] *)
Definition str_of_nat (n : nat) : string :=
  NilEmpty.string_of_uint (Nat.to_uint n).

(** [range(lo, hi)] and [range(n)] *)
Definition range2 (lo hi : Z) : list Z :=
  map (fun i => (lo + Z.of_nat i)%Z) (seq 0 (Z.to_nat (hi - lo))).

Definition range (n : Z) : list Z := range2 0 n.

(** [v[lo:hi]] for [0 <= lo <= hi]: numpy clamps the stop to [len(v)]. *)
Definition slice {A} (v : list A) (lo hi : nat) : list A :=
  firstn (hi - lo) (skipn lo v).

(** The position that an index of a slice of a sequence of [n] entries
    denotes: a negative index counts from the end, and the result is
    clamped to [[0, n]]. *)
Definition clamp_index (n : nat) (a : Z) : nat :=
  Z.to_nat (Z.min (Z.of_nat n)
                  (if (a <? 0)%Z then Z.max 0 (a + Z.of_nat n) else a)).

(** [v[a:b]] for integers [a] and [b]; it is empty when the stop is not
    after the start. *)
Definition slice_int {A} (v : list A) (a b : Z) : list A :=
  slice v (clamp_index (length v) a) (clamp_index (length v) b).

End Py.

Import Py.

Declare Scope py_scope.
Notation "x <- c1 ;; c2" := (bind c1 (fun x => c2))
  (at level 61, c1 at next level, right associativity) : py_scope.
Notation "' pat <- c1 ;; c2" := (bind c1 (fun x => match x with pat => c2 end))
  (at level 61, pat pattern, c1 at next level, right associativity) : py_scope.
Open Scope py_scope.
Open Scope string_scope.
Open Scope list_scope.

(* ===================================================================== *)
(** * numpy arrays and ordered dictionaries *)
(* ===================================================================== *)

Module Np.

(** ** 64-bit integers *)

(** The largest [int64], and the value in [[-2^63, 2^63)] that a result
    of integer arithmetic wraps around to. *)
Definition int64_max : Z := 9223372036854775807.

Definition wrap64 (z : Z) : Z :=
  ((z + 9223372036854775808) mod 18446744073709551616
   - 9223372036854775808)%Z.

(** ** Shapes *)

(** The number of elements of an array of shape [ws], as an integer and as
    a count. *)
Definition numel (ws : list nat) : Z :=
  fold_left (fun acc d => (acc * Z.of_nat d)%Z) ws 1%Z.

Definition size (ws : list nat) : nat := fold_left Nat.mul ws 1%nat.

(** The product of the dimensions of [ws] that are not zero. *)
Definition extent (ws : list nat) : Z :=
  fold_left (fun acc d => (acc * Z.max 1 (Z.of_nat d))%Z) ws 1%Z.

(** The elements of the arrays of the two modules have 8 bytes
    ([float64], [int64]). *)
Definition itemsize : Z := 8.

(** numpy creates no array of a shape whose dimensions other than zero
    multiply, with the size of an element, to more than the largest
    index, and none of more than 32 dimensions. *)
Definition too_big (ws : list nat) : bool :=
  (int64_max <? itemsize * extent ws)%Z.

Definition max_ndim : nat := 32.

Definition array_shape (ws : list nat) : bool :=
  (length ws <=? max_ndim)%nat && negb (too_big ws).

(** [np.prod(ws, dtype=int)]: the product of the dimensions in [int64],
    which wraps around. A shape is a tuple of array dimensions, each an
    [int64] value. *)
Definition prod (ws : list nat) : Z :=
  fold_left (fun acc d => wrap64 (acc * Z.of_nat d)) ws 1%Z.

Section Arrays.
Context {A : Type}.

(** A numpy array: its shape (a tuple of non-negative integers) and its
    elements in row-major order. *)
Record ndarray : Type := mk_ndarray { shape : list nat; data : list A }.

(** [a.reshape(ws)] of a 1-dimensional [a]: numpy refuses a shape of
    more than 32 dimensions, a shape whose number of elements is not that
    of [a], and a shape that is too big for an array. *)
Definition reshape (a : list A) (ws : list nat) : result ndarray :=
  if (max_ndim <? length ws)%nat then
    Raise (ValueError "sequence too large; cannot be greater than 32")
  else if negb (Z.of_nat (length a) =? numel ws)%Z then
    Raise (ValueError "total size of new array must be unchanged")
  else if too_big ws then
    Raise (ValueError "array is too big.")
  else Ok {| shape := ws; data := a |}.

End Arrays.

Arguments ndarray A : clear implicits.

Definition shape_eqb (s1 s2 : list nat) : bool :=
  if list_eq_dec Nat.eq_dec s1 s2 then true else false.

(** [repr] of a shape tuple: [()], [(3,)], [(3, 4)]. *)
Definition repr_shape (s : list nat) : string :=
  match s with
  | [] => "()"
  | [n] => ("(" ++ str_of_nat n ++ ",)")%string
  | n :: s' =>
      ("(" ++ fold_left (fun acc k => acc ++ ", " ++ str_of_nat k) s'
                (str_of_nat n) ++ ")")%string
  end.

End Np.

Module OD.

(** An [OrderedDict]: the items in insertion order, keys unique.
    [D[k] = x] replaces the value of a key that is present and appends
    the item otherwise. *)
Definition OrderedDict (V : Type) : Type := list (string * V).

Definition keys {V} (D : OrderedDict V) : list string := map fst D.
Definition itervalues {V} (D : OrderedDict V) : list V := map snd D.

Fixpoint setitem {V} (D : OrderedDict V) (k : string) (x : V)
  : OrderedDict V :=
  match D with
  | [] => [(k, x)]
  | (k', x') :: D' =>
      if String.eqb k' k then (k', x) :: D' else (k', x') :: setitem D' k x
  end.

Definition keys_eqb (a b : list string) : bool :=
  if list_eq_dec string_dec a b then true else false.

End OD.

(* ===================================================================== *)
(** * toy_examples/mlp_hmc.py: [unpack] and [get_num_params] *)
(* ===================================================================== *)

Module mlp_hmc.
Import Np OD.

Section Unpack.
Context {A : Type}.

(** The body of the [for varname, ws in weight_shapes.iteritems()] loop
    of [unpack], with the loop state [(D, t)] ([t] is the source's
    [tt], the position in [v]). [num_param] is an [int64] of numpy, so
    [tt + num_param] wraps around, and a negative [tt] or stop counts
    from the end of [v]. *)
Fixpoint unpack_loop (v : list A) (items : list (string * list nat))
    (D : OrderedDict (ndarray A)) (t : Z)
  : result (OrderedDict (ndarray A) * Z) :=
  match items with
  | [] => Ok (D, t)
  | (varname, ws) :: items' =>
      let num_param := prod ws in
      x <- reshape (slice_int v t (wrap64 (t + num_param))) ws ;;
      unpack_loop v items' (setitem D varname x) (wrap64 (t + num_param))
  end.

(** [unpack(v, weight_shapes, skip_chk=True)]; [v] is 1-dimensional by
    its type, which is the first assertion of the source. *)
Definition unpack (v : list A) (weight_shapes : OrderedDict (list nat))
    (skip_chk : bool) : result (OrderedDict (ndarray A)) :=
  ' (D, t) <- unpack_loop v weight_shapes [] 0%Z ;;
  _ <- assert (skip_chk || (t =? Z.of_nat (length v))%Z) ;;
  _ <- assert (keys_eqb (keys D) (keys weight_shapes)) ;;
  Ok D.

End Unpack.

(** [get_num_params(weight_shapes)]: Python's [sum] adds the [int64]
    products from 0, left to right, and every sum wraps around. *)
Definition get_num_params (weight_shapes : OrderedDict (list nat)) : Z :=
  fold_left (fun cnt num_param => wrap64 (cnt + num_param))
            (map prod (itervalues weight_shapes)) 0%Z.

(** ** Vocabulary of the properties *)

(** The number of entries that the shapes take together, as a count
    without bound. *)
Definition total_size (weight_shapes : OrderedDict (list nat)) : nat :=
  fold_left Nat.add (map size (itervalues weight_shapes)) 0%nat.

(** Every shape is one of which numpy creates arrays. *)
Definition array_shapes (weight_shapes : OrderedDict (list nat)) : Prop :=
  Forall (fun ws => array_shape ws = true) (itervalues weight_shapes).

(** The dictionary that lays the shapes end to end over [v] from
    position [t]. *)
Fixpoint layout {A} (v : list A) (items : OrderedDict (list nat)) (t : nat)
  : OrderedDict (ndarray A) :=
  match items with
  | [] => []
  | (k, ws) :: items' =>
      (k, {| shape := ws; data := slice v t (t + size ws) |})
        :: layout v items' (t + size ws)
  end.

(** The weight shapes of a one-layer regression net, and a vector of as
    many entries. *)
Definition toy_weight_shapes : OrderedDict (list nat) :=
  [("W_0", [2; 2]); ("b_0", [2]); ("log_prec", [])]%nat.

Definition toy_vector : list nat := [10; 11; 12; 13; 14; 15; 16]%nat.

(** Where the slice of the [i]-th variable starts: right after the slices
    of the variables before it. *)
Definition offset (weight_shapes : OrderedDict (list nat)) (i : nat) : nat :=
  total_size (firstn i weight_shapes).

(** One variable of sixteen dimensions of 16 each: [16 ** 16] is
    [2 ** 64], which is 0 in [int64]. *)
Definition overflowing_shapes : OrderedDict (list nat) :=
  [("w", [16; 16; 16; 16; 16; 16; 16; 16;
          16; 16; 16; 16; 16; 16; 16; 16])]%nat.

End mlp_hmc.

(* ===================================================================== *)
(** * Theano tensors *)
(* ===================================================================== *)

Module Tensor.
Open Scope R_scope.

Definition vector : Type := list R.
Definition matrix : Type := list (list R).

(** [v.sum()] and [v.mean()] *)
Definition vsum (v : vector) : R := fold_right Rplus 0 v.
Definition mean (v : vector) : R := vsum v / INR (length v).

(** [m.sum(1)]: one sum per row; [m.mean()]: the mean of all entries. *)
Definition sum1 (m : matrix) : vector := map vsum m.
Definition mmean (m : matrix) : R := mean (concat m).

(** Elementwise operations on tensors of equal shape. *)
Definition vzip (f : R -> R -> R) (a b : vector) : vector :=
  map (fun p => f (fst p) (snd p)) (combine a b).
Definition mzip (f : R -> R -> R) (a b : matrix) : matrix :=
  map (fun p => vzip f (fst p) (snd p)) (combine a b).

Definition vneg (v : vector) : vector := map Ropp v.
Definition vsub : vector -> vector -> vector := vzip Rminus.
Definition vadd : vector -> vector -> vector := vzip Rplus.

(** [T.clip(x, lo, hi)]: [x < lo ? lo : (x > hi ? hi : x)]. *)
Definition clip (x lo hi : R) : R :=
  if Rlt_dec x lo then lo else if Rlt_dec hi x then hi else x.
Definition vclip (v : vector) (lo hi : R) : vector :=
  map (fun x => clip x lo hi) v.
Definition mclip (m : matrix) (lo hi : R) : matrix :=
  map (fun row => vclip row lo hi) m.

(** Python's [sum(vs)] over a non-empty list of vectors: it starts from
    the integer [0], which broadcasts against the first vector. *)
Definition py_sum (vs : list vector) : vector :=
  match vs with
  | [] => []
  | v :: vs' => fold_left vadd vs' (map (Rplus 0) v)
  end.

(** A [floatX] scalar: a real number, or [None] for nan and the
    infinities. *)
Definition floatX : Type := option R.

(** [x / y] in [floatX]: a division by zero gives nan or an infinity. *)
Definition fdiv (x y : R) : floatX :=
  if Req_dec_T y 0 then None else Some (x / y).

(** The L2 norm of a list of tensors taken as one long vector. *)
Definition sqnorm (gs : list vector) : R :=
  vsum (map (fun g => vsum (map (fun x => x * x) g)) gs).
Definition global_norm (gs : list vector) : R := sqrt (sqnorm gs).

End Tensor.

(* ===================================================================== *)
(** * BHNs.py *)
(* ===================================================================== *)

Module BHNs.
Import Tensor Np.
Open Scope R_scope.

(** ** The layer graph *)

(** [self.wd1]: [1], or [input_var.shape[0]] when [perdatapoint]. *)
Inductive dim : Type := One | BatchSize.

(** The symbolic tensor
    [self.weights[:, start:stop].reshape((wd1, width))]. *)
Record weight_expr : Type :=
  mk_weight { w_start : Z; w_stop : Z; w_shape : dim * Z }.

(** The layers of [modules] and of Lasagne that [MLPWeightNorm_BHN]
    builds; each holds its incoming layer. *)
Inductive layer : Type :=
| InputLayer (shape : list (option Z))
| LinearFlowLayer (incoming : layer)
| IndexLayer (incoming : layer) (index : nat)
| CoupledDenseLayer (incoming : layer) (num_units : Z)
| PermuteLayer (incoming : layer) (num_units : Z)
| IAFDenseLayer (incoming : layer) (num_units num_hids L : Z)
                (cond_bias : bool)
| DenseLayer (incoming : layer) (num_units : Z)
| stochastic_weight_norm (incoming : layer) (weight : weight_expr).

Inductive nonlinearity : Type := softmax | linear.

(** ** Run-time inputs *)

(** The inputs of a compiled function: the five Theano variables of
    [_get_theano_variables] and the draws of [srng] for this call. *)
Record inputs : Type := mk_inputs {
  input_var : matrix;
  target_var : matrix;
  dataset_size : R;
  learning_rate : R;
  weight : R;
  srng_normal : matrix;
  srng_binomial : matrix
}.

(** A symbolic variable denotes a function of the inputs. *)
Definition sym (A : Type) : Type := inputs -> A.

(** ** What Theano and Lasagne provide *)

Class Lasagne : Type := {
  (** shared variables, and the update dictionary of an update rule *)
  shared : Type;
  updates_t : Type;
  is_RSSV : shared -> bool;
  get_all_params : list layer -> list shared;
  (** [get_output] of a flow layer, of a log-determinant layer, and of
      the primary net (whose last layer has the given nonlinearity) on
      [input_var] with the weight slices taken from [weights] *)
  get_output : layer -> matrix -> matrix;
  get_output_logdet : layer -> matrix -> vector;
  get_output_p : layer -> nonlinearity -> matrix -> matrix -> matrix;
  (** [lasagne.objectives] *)
  categorical_crossentropy : matrix -> matrix -> vector;
  squared_error : matrix -> matrix -> matrix;
  (** [T.grad(loss, params)] *)
  T_grad : sym floatX -> list shared -> sym (list vector);
  (** the text of Theano's [MissingInputError] for a function that is
      compiled without [input_var] and needs it *)
  missing_input : string;
  (** [lasagne.updates] *)
  total_norm_constraint : list vector -> R -> list vector;
  adam : list vector -> list shared -> R -> updates_t;
  nesterov_momentum : list vector -> list shared -> R -> updates_t;
  sgd : list vector -> list shared -> R -> updates_t
}.

(** ** Constructor arguments of [MLPWeightNorm_BHN] *)

(** [srng], [test_values] and [init_batch] (default [None]) are left out.
    The defaults are [flow='RealNVP'], [opt='adam'],
    [output_type='categorical'], [coupling=True] (the integer 1),
    [noise_distribution='spherical_gaussian']. *)
Record config : Type := mk_config {
  flow : string;
  lbda : R;
  perdatapoint : bool;
  opt : string;
  prior : matrix -> R -> R -> matrix;
  output_type : string;
  coupling : Z;
  n_hiddens : Z;
  n_units : Z;
  n_inputs : Z;
  n_classes : Z;
  noise_distribution : string
}.

Definition max_norm : R := 10.
Definition clip_grad : R := 5.

(** [MLPWeightNorm_BHN.__init__], lines 310-315 *)
Definition weight_shapes (cfg : config) : list (Z * Z) :=
  let ws := [(n_inputs cfg, n_units cfg)] in
  let ws := fold_left (fun ws _ => ws ++ [(n_units cfg, n_units cfg)])
                      (range2 1 (n_hiddens cfg)) ws in
  ws ++ [(n_units cfg, n_classes cfg)].

Definition num_params (cfg : config) : Z :=
  fold_left Z.add (map snd (weight_shapes cfg)) 0%Z.

Definition wd1 (cfg : config) : dim :=
  if perdatapoint cfg then BatchSize else One.

Section Model.
Context {L : Lasagne}.

(** ** [_get_hyper_net] *)

Record hyper_net : Type := mk_hyper {
  h_net : layer;
  logdets_layers : list layer;
  weights : sym matrix;
  logdets : sym vector
}.

(** One coupling stage: the three lines
    [layer_temp = CoupledDenseLayer(h_net,200)],
    [h_net = IndexLayer(layer_temp,0)],
    [logdets_layers.append(IndexLayer(layer_temp,1))]. *)
Definition couple (st : layer * list layer) : layer * list layer :=
  let layer_temp := CoupledDenseLayer (fst st) 200 in
  (IndexLayer layer_temp 0, snd st ++ [IndexLayer layer_temp 1]).

(** The noise [self.ep]; the attribute is not set for another
    [noise_distribution]. *)
Definition noise (cfg : config) : option (sym matrix) :=
  if noise_distribution cfg =? "spherical_gaussian" then
    Some srng_normal
  else if noise_distribution cfg =? "exponential_MoG" then
    Some (fun i => mzip (fun e b => e + (2 * b - 1))
                        (srng_normal i) (srng_binomial i))
  else None.

(** The layers of the flow: [(h_net, logdets_layers)]. The layers are
    those that the source constructs; Lasagne's own validation of their
    arguments (it refuses an input layer of a width that is not
    positive) is not part of the layer graph. *)
Definition flow_layers (cfg : config) : result (layer * list layer) :=
  let h_net := InputLayer [None; Some (num_params cfg)] in
  let layer_temp := LinearFlowLayer h_net in
  let st := (IndexLayer layer_temp 0, [IndexLayer layer_temp 1]) in
  if flow cfg =? "RealNVP" then
    if negb (coupling cfg =? 0)%Z then
      Ok (fold_left
            (fun st _ =>
               couple (PermuteLayer (fst st) (num_params cfg), snd st))
            (range (coupling cfg - 1))
            (couple st))
    else Ok st
  else if flow cfg =? "IAF" then
    let layer_temp := IAFDenseLayer (fst st) 200 1 (coupling cfg) false in
    Ok (IndexLayer layer_temp 0, snd st ++ [IndexLayer layer_temp 1])
  else Raise (AssertionError "").

Definition _get_hyper_net (cfg : config) : result hyper_net :=
  let ep := noise cfg in
  st <- flow_layers cfg ;;
  match ep with
  | None =>
      Raise (AttributeError
               "'MLPWeightNorm_BHN' object has no attribute 'ep'")
  | Some ep =>
      Ok {| h_net := fst st;
            logdets_layers := snd st;
            weights := fun i => get_output (fst st) (ep i);
            logdets := fun i =>
              py_sum (map (fun ld => get_output_logdet ld (ep i))
                          (snd st)) |}
  end.

(** ** [_get_primary_net] *)

Record primary_net : Type := mk_primary {
  p_net : layer;
  p_nonlinearity : nonlinearity;
  y : sym matrix;
  y_unclipped : sym matrix
}.

(** The body of the loop over [self.weight_shapes], on the loop state
    [(t, p_net)]. *)
Definition primary_step (cfg : config) (st : Z * layer) (ws : Z * Z)
  : Z * layer :=
  let t := fst st in
  let num_param := snd ws in
  let weight := {| w_start := t; w_stop := (t + num_param)%Z;
                   w_shape := (wd1 cfg, snd ws) |} in
  let p_net := DenseLayer (snd st) (snd ws) in
  let p_net := stochastic_weight_norm p_net weight in
  ((t + num_param)%Z, p_net).

Definition primary_layers (cfg : config) : Z * layer :=
  fold_left (primary_step cfg) (weight_shapes cfg)
            (0%Z, InputLayer [None; Some (n_inputs cfg)]).

Definition _get_primary_net (cfg : config) (weights : sym matrix)
  : result primary_net :=
  let p_net := snd (primary_layers cfg) in
  if output_type cfg =? "categorical" then
    let out := fun i =>
      get_output_p p_net softmax (input_var i) (weights i) in
    Ok {| p_net := p_net; p_nonlinearity := softmax;
          y := fun i => mclip (out i) (1 / 1000) (999 / 1000);
          y_unclipped := out |}
  else if output_type cfg =? "real" then
    let out := fun i =>
      get_output_p p_net linear (input_var i) (weights i) in
    Ok {| p_net := p_net; p_nonlinearity := linear;
          y := out;
          y_unclipped := out |}
  else Raise (AssertionError "").


(** The flow stages between the noise and a layer of the hypernet, in
    the order in which they are applied. *)
Inductive stage : Type := Linear | Coupling | Permutation | IAF.

Fixpoint pipeline (l : layer) : list stage :=
  match l with
  | InputLayer _ => []
  | LinearFlowLayer l' => pipeline l' ++ [Linear]
  | CoupledDenseLayer l' _ => pipeline l' ++ [Coupling]
  | PermuteLayer l' _ => pipeline l' ++ [Permutation]
  | IAFDenseLayer l' _ _ _ _ => pipeline l' ++ [IAF]
  | IndexLayer l' _ | DenseLayer l' _ | stochastic_weight_norm l' _ =>
      pipeline l'
  end.

(** ** [_get_params] *)

Definition _get_params (h_net p_net : layer) : list shared :=
  filter (fun param => negb (is_RSSV param))
         (get_all_params [h_net; p_net]).

(** ** [_get_elbo] *)

(** The attributes of [self] that [Base_BHN._get_elbo] reads. *)
Record elbo_self : Type := mk_elbo_self {
  self_logdets : sym vector;
  self_weights : sym matrix;
  self_y : sym matrix;
  self_prior : matrix -> R -> R -> matrix;
  self_lbda : R;
  self_output_type : string
}.

Record elbo : Type := mk_elbo {
  logqw : sym vector;
  logpw : sym vector;
  kl : sym R;
  logpyx : sym R;
  loss : sym floatX
}.

(** The gradient norms of lines 174-181 are monitoring values that do
    not enter [loss]; they are left out. *)
Definition _get_elbo (self : elbo_self) : result elbo :=
  let logqw := fun i => vneg (self_logdets self i) in
  let logpw := fun i =>
    sum1 (self_prior self (self_weights self i) 0
                     (- ln (self_lbda self))) in
  let kl := fun i => mean (vsub (logqw i) (logpw i)) in
  logpyx <-
    (if self_output_type self =? "categorical" then
       Ok (fun i =>
             - mean (categorical_crossentropy (self_y self i)
                                              (target_var i)))
     else if self_output_type self =? "real" then
       Ok (fun i =>
             - mmean (squared_error (self_y self i) (target_var i)))
     else Raise (AssertionError "")) ;;
  Ok {| logqw := logqw; logpw := logpw; kl := kl; logpyx := logpyx;
        loss := fun i =>
          option_map (fun penalty => - (logpyx i - penalty))
                     (fdiv (weight i * kl i) (dataset_size i)) |}.

(** ** [_get_grads] *)

Definition mgrads (grads : list vector) : list vector :=
  total_norm_constraint grads max_norm.

Definition cgrads (grads : list vector) : list vector :=
  map (fun g => vclip g (- clip_grad) clip_grad) (mgrads grads).

(** [self.updates]; the attribute is not set for another [opt]. *)
Definition _get_grads (opt : string) (loss : sym floatX)
    (params : list shared) : option (sym updates_t) :=
  let grads := T_grad loss params in
  if opt =? "adam" then
    Some (fun i => adam (cgrads (grads i)) params (learning_rate i))
  else if opt =? "momentum" then
    Some (fun i =>
            nesterov_momentum (cgrads (grads i)) params (learning_rate i))
  else if opt =? "sgd" then
    Some (fun i => sgd (cgrads (grads i)) params (learning_rate i))
  else None.

(** ** [_get_train_func] *)

(** [train_func_] returns the loss and applies the updates; the monitoring
    function compiled next to it is left out. *)

Definition _get_train_func (loss : sym floatX)
    (updates : option (sym updates_t))
  : result (sym (floatX * updates_t)) :=
  match updates with
  | None =>
      Raise (AttributeError
               "'MLPWeightNorm_BHN' object has no attribute 'updates'")
  | Some updates => Ok (fun i => (loss i, updates i))
  end.

(** ** [_get_useful_funcs] *)

(** [MLPWeightNorm_BHN._get_useful_funcs] compiles [predict_proba] with
    the input [input_var] and, last, [sample_weights] with no input.
    With [perdatapoint] the noise has [input_var.shape[0]] rows, so
    [self.weights] needs [input_var] and Theano refuses to compile
    [sample_weights]. *)
Definition _get_useful_funcs (cfg : config) (y weights : sym matrix)
  : result (sym matrix * sym matrix) :=
  let predict_proba := y in
  if perdatapoint cfg then Raise (MissingInputError missing_input)
  else Ok (predict_proba, weights).

(** ** The constructor *)

Record BHN : Type := mk_BHN {
  bhn_config : config;
  bhn_hyper : hyper_net;
  bhn_primary : primary_net;
  bhn_params : list shared;
  bhn_elbo : elbo;
  train_func_ : sym (floatX * updates_t);
  predict_proba : sym matrix;
  sample_weights : sym matrix
}.

(** [MLPWeightNorm_BHN(...)]: [Base_BHN.__init__] runs the build steps
    in this order; the first exception ends the construction. Of
    [_get_useful_funcs], [predict_proba] and [sample_weights] are kept. *)
Definition MLPWeightNorm_BHN (cfg : config) : result BHN :=
  hyper <- _get_hyper_net cfg ;;
  primary <- _get_primary_net cfg (weights hyper) ;;
  let params := _get_params (h_net hyper) (p_net primary) in
  e <- _get_elbo {| self_logdets := logdets hyper;
                    self_weights := weights hyper;
                    self_y := y primary;
                    self_prior := prior cfg;
                    self_lbda := lbda cfg;
                    self_output_type := output_type cfg |} ;;
  let updates := _get_grads (opt cfg) (loss e) params in
  train <- _get_train_func (loss e) updates ;;
  funcs <- _get_useful_funcs cfg (y primary) (weights hyper) ;;
  Ok {| bhn_config := cfg;
        bhn_hyper := hyper;
        bhn_primary := primary;
        bhn_params := params;
        bhn_elbo := e;
        train_func_ := train;
        predict_proba := fst funcs;
        sample_weights := snd funcs |}.

End Model.

(** ** [save] and [load] *)

(** The objects of a saved archive: parameter values, and the notes. *)
Inductive pyobj : Type :=
| PyArray (a : ndarray R)
| PyStr (s : string).

(** [save(save_path, notes=[])]: the list that [np.save] writes, from the
    values [p.get_value()] of [self.params]. *)
Definition save (params : list (ndarray R)) (notes : list pyobj)
  : list pyobj :=
  map PyArray params ++ notes.

(** The loop [for p, v in zip(self.params, values)]: the values of the
    parameters after it, and how it ended. *)
Fixpoint load_loop (params : list (ndarray R)) (values : list pyobj)
  : list (ndarray R) * result unit :=
  match params, values with
  | p :: params', v :: values' =>
      match v with
      | PyArray a =>
          if shape_eqb (shape p) (shape a) then
            let r := load_loop params' values' in
            (a :: fst r, snd r)
          else
            (params,
             Raise (ValueError
                      ("mismatch: parameter has shape "
                         ++ repr_shape (shape p)
                         ++ " but value to set has shape "
                         ++ repr_shape (shape a))%string))
      | PyStr _ =>
          (params,
           Raise (AttributeError "'str' object has no attribute 'shape'"))
      end
  | _, _ => (params, Ok tt)
  end.

(** [load(save_path)] on the list that [np.load] returns: the values of
    the parameters after the call, and the notes or the exception. *)
Definition load (params : list (ndarray R)) (archive : list pyobj)
  : list (ndarray R) * result pyobj :=
  match archive with
  | [] =>
      (params,
       Raise (IndexError
                "index -1 is out of bounds for axis 0 with size 0"))
  | first :: _ =>
      let notes := last archive first in
      let values := removelast archive in
      if negb (length params =? length values)%nat then
        (params,
         Raise (ValueError
                  ("mismatch: got " ++ str_of_nat (length values)
                     ++ " values to set " ++ str_of_nat (length params)
                     ++ " parameters")%string))
      else
        let r := load_loop params values in
        (fst r, _ <- snd r ;; Ok notes)
  end.

(** ** Vocabulary of the properties *)

(** Column [j] lies in the range [(start, stop)]. *)
Definition in_slice (s : Z * Z) (j : Z) : Prop := (fst s <= j < snd s)%Z.

(** Each range starts where the one before it stops, the first at [t]. *)
Fixpoint contiguous (t : Z) (slices : list (Z * Z)) : Prop :=
  match slices with
  | [] => True
  | s :: slices' => fst s = t /\ contiguous (snd s) slices'
  end.

(** The ranges of the given widths laid end to end from [t]. *)
Fixpoint slices_from (t : Z) (widths : list Z) : list (Z * Z) :=
  match widths with
  | [] => []
  | d :: widths' => (t, (t + d)%Z) :: slices_from (t + d)%Z widths'
  end.

Definition zsum (l : list Z) : Z := fold_right Z.add 0%Z l.

(** [v.shape], for the objects that have one. *)
Definition value_shape (v : pyobj) : option (list nat) :=
  match v with
  | PyArray a => Some (shape a)
  | PyStr _ => None
  end.


(** The layer widths are positive, as Lasagne asks of the layers it
    creates. *)
Definition positive_widths (cfg : config) : Prop :=
  (0 < n_inputs cfg)%Z /\ (0 < n_units cfg)%Z /\ (0 < n_classes cfg)%Z.

Definition supported_flow (cfg : config) : Prop :=
  flow cfg = "RealNVP" \/ flow cfg = "IAF".
Definition supported_noise (cfg : config) : Prop :=
  noise_distribution cfg = "spherical_gaussian"
  \/ noise_distribution cfg = "exponential_MoG".
Definition supported_output_type (cfg : config) : Prop :=
  output_type cfg = "categorical" \/ output_type cfg = "real".


Section Terms.
Context {L : Lasagne}.

(** The per-example data log-likelihood: minus the cross-entropy of each
    example, or minus each squared error. *)
Definition loglik (self : elbo_self) (i : inputs) : vector :=
  if self_output_type self =? "categorical" then
    vneg (categorical_crossentropy (self_y self i) (target_var i))
  else
    vneg (concat (squared_error (self_y self i) (target_var i))).

(** The per-row log-prior density of the sampled weights. *)
Definition logprior (self : elbo_self) (i : inputs) : vector :=
  sum1 (self_prior self (self_weights self i) 0 (- ln (self_lbda self))).

(** The loss as the data model of the specification writes it, with
    [logdet - logprior] under the mean. *)
Definition loss_as_specified (self : elbo_self) (i : inputs) : floatX :=
  option_map
    (fun penalty => - (mean (loglik self i) - penalty))
    (fdiv (weight i * mean (vsub (self_logdets self i) (logprior self i)))
          (dataset_size i)).

(** The same with [log q(w) = - logdet] in the place of [logdet]. *)
Definition loss_with_logq (self : elbo_self) (i : inputs) : floatX :=
  option_map
    (fun penalty => - (mean (loglik self i) - penalty))
    (fdiv (weight i
           * mean (vsub (vneg (self_logdets self i)) (logprior self i)))
          (dataset_size i)).

End Terms.

(** ** Lasagne's formulas, for closed examples *)

Module Reference.

(** [lasagne.objectives.categorical_crossentropy] on one-hot or soft
    targets: [-sum(t * log(y), axis=1)]. *)
Definition categorical_crossentropy (y t : matrix) : vector :=
  map (fun p => - vsum (vzip (fun a b => b * ln a) (fst p) (snd p)))
      (combine y t).

(** [lasagne.objectives.squared_error]: [(a - b)**2]. *)
Definition squared_error : matrix -> matrix -> matrix :=
  mzip (fun a b => (a - b) * (a - b)).

(** [lasagne.updates.total_norm_constraint] with its default
    [epsilon=1e-7]. *)
Definition epsilon : R := 1 / 10000000.

Definition total_norm_constraint (tensor_vars : list vector) (max_norm : R)
  : list vector :=
  let norm := global_norm tensor_vars in
  let target_norm := clip norm 0 max_norm in
  let multiplier := target_norm / (epsilon + norm) in
  map (fun step => map (fun x => x * multiplier) step) tensor_vars.

(** [lasagne.updates.sgd]: [param - learning_rate * grad]. *)
Definition sgd (grads params : list vector) (learning_rate : R)
  : list vector :=
  map (fun pg => vzip (fun p g => p - learning_rate * g) (fst pg) (snd pg))
      (combine params grads).

(** A backend for closed examples: a shared variable is its value, the
    flow and the primary net are the identity on the noise and on the
    input, the gradient of every parameter is constantly one, and all
    three update rules are the plain gradient step. *)
Definition backend : Lasagne := {|
  shared := vector;
  updates_t := list vector;
  is_RSSV := fun _ => false;
  get_all_params := fun _ => [];
  get_output := fun _ ep => ep;
  get_output_logdet := fun _ ep => map (fun _ => 0) ep;
  get_output_p := fun _ _ x _ => x;
  BHNs.categorical_crossentropy := categorical_crossentropy;
  BHNs.squared_error := squared_error;
  T_grad := fun _ params _ => map (map (fun _ => 1)) params;
  missing_input := "An input of the graph was not provided";
  BHNs.total_norm_constraint := total_norm_constraint;
  adam := fun grads params lr => sgd grads params lr;
  nesterov_momentum := fun grads params lr => sgd grads params lr;
  BHNs.sgd := fun grads params lr => sgd grads params lr
|}.

Definition flat_prior (x : matrix) (mean log_var : R) : matrix :=
  map (map (fun _ => 0)) x.

Definition default_config : config := {|
  flow := "RealNVP";
  lbda := 1;
  perdatapoint := false;
  opt := "adam";
  prior := flat_prior;
  output_type := "categorical";
  coupling := 1;
  n_hiddens := 1;
  n_units := 200;
  n_inputs := 784;
  n_classes := 10;
  noise_distribution := "spherical_gaussian"
|}.

Definition with_flow (cfg : config) (f : string) : config :=
  mk_config f (lbda cfg) (perdatapoint cfg) (opt cfg) (prior cfg)
            (output_type cfg) (coupling cfg) (n_hiddens cfg) (n_units cfg)
            (n_inputs cfg) (n_classes cfg) (noise_distribution cfg).

Definition with_coupling (cfg : config) (c : Z) : config :=
  mk_config (flow cfg) (lbda cfg) (perdatapoint cfg) (opt cfg) (prior cfg)
            (output_type cfg) c (n_hiddens cfg) (n_units cfg)
            (n_inputs cfg) (n_classes cfg) (noise_distribution cfg).

Definition with_perdatapoint (cfg : config) (b : bool) : config :=
  mk_config (flow cfg) (lbda cfg) b (opt cfg) (prior cfg)
            (output_type cfg) (coupling cfg) (n_hiddens cfg) (n_units cfg)
            (n_inputs cfg) (n_classes cfg) (noise_distribution cfg).


(** A model state whose flow has log-determinant 1 on its single row. *)
Definition some_self : elbo_self := {|
  self_logdets := fun _ => [1];
  self_weights := fun _ => [[0]];
  self_y := input_var;
  self_prior := flat_prior;
  self_lbda := 1;
  self_output_type := "real"
|}.

Definition some_inputs : inputs := {|
  input_var := [[0; 1]];
  target_var := [[0; 1]];
  dataset_size := 1;
  learning_rate := 1 / 1000;
  weight := 1;
  srng_normal := [[0]];
  srng_binomial := [[0]]
|}.



(** Parameter values of a model with two parameters, and of a fresh model
    of the same architecture. *)
Definition saved_params : list (ndarray R) :=
  [ {| shape := [2%nat]; data := [1; 2] |};
    {| shape := [1%nat; 1%nat]; data := [3] |} ].

Definition fresh_params : list (ndarray R) :=
  [ {| shape := [2%nat]; data := [0; 0] |};
    {| shape := [1%nat; 1%nat]; data := [0] |} ].

(** An archive whose first value has the shape [(3,)]. *)
Definition other_archive : list pyobj :=
  [ PyArray {| shape := [3%nat]; data := [1; 2; 3] |};
    PyArray {| shape := [1%nat; 1%nat]; data := [3] |};
    PyStr "notes" ].

End Reference.

End BHNs.

(* ===================================================================== *)
(** * More of Python and numpy *)
(* ===================================================================== *)

Module PyMore.

(** The exceptions of [Py.exn] and two more. *)
Inductive error : Type :=
| Builtin (e : exn)
| KeyError (key : string)
| ZeroDivisionError (msg : string).

(** How a call ends: with a value, with an exception, or outside the part
    of numpy that is modelled here (arrays of other ranks, broadcasting
    that stretches an axis). *)
Inductive outcome (A : Type) : Type :=
| Return (a : A)
| Throw (e : error)
| Outside.
Arguments Return {A} a.
Arguments Throw {A} e.
Arguments Outside {A}.

Definition obind {A B} (c : outcome A) (k : A -> outcome B) : outcome B :=
  match c with
  | Return a => k a
  | Throw e => Throw e
  | Outside => Outside
  end.

Definition lift {A} (c : result A) : outcome A :=
  match c with
  | Ok a => Return a
  | Raise e => Throw (Builtin e)
  end.

Definition throws {A} (c : outcome A) : Prop := exists e, c = Throw e.

Definition check (cond : bool) : outcome unit := lift (assert cond).

(** [D[k]] of a dictionary. *)
Fixpoint lookup {V} (D : OD.OrderedDict V) (k : string) : option V :=
  match D with
  | [] => None
  | (k', x) :: D' => if String.eqb k' k then Some x else lookup D' k
  end.

Definition getitem {V} (D : OD.OrderedDict V) (k : string) : outcome V :=
  match lookup D k with
  | Some x => Return x
  | None => Throw (KeyError k)
  end.

End PyMore.

Import PyMore.

Notation "x <~ c1 ;; c2" := (obind c1 (fun x => c2))
  (at level 61, c1 at next level, right associativity) : py_scope.
Notation "' pat <~ c1 ;; c2" :=
  (obind c1 (fun x => match x with pat => c2 end))
  (at level 61, pat pattern, c1 at next level, right associativity) : py_scope.

Module NpMore.
Import Np Tensor.
Open Scope R_scope.

Definition ndim (a : ndarray R) : nat := length (shape a).

(** The entries of the product of an [n x k] and a [k x m] matrix, both in
    row-major order. *)
Definition matmul (n k m : nat) (a b : list R) : list R :=
  flat_map
    (fun i =>
       map (fun j =>
              vsum (map (fun l => nth (i * k + l) a 0 * nth (l * m + j) b 0)
                        (seq 0 k)))
           (seq 0 m))
    (seq 0 n).

(** [np.dot(a, b)] of two 2-dimensional arrays. *)
Definition dot (a b : ndarray R) : outcome (ndarray R) :=
  match shape a, shape b with
  | [n; k], [k'; m] =>
      if (k =? k')%nat then
        Return {| shape := [n; m]; data := matmul n k m (data a) (data b) |}
      else Throw (Builtin (ValueError "shapes not aligned"))
  | _, _ => Outside
  end.

(** [act + b[None, :]] of a 2-dimensional [act] and a 1-dimensional [b] of
    as many entries as [act] has columns. *)
Definition add_row (act b : ndarray R) : outcome (ndarray R) :=
  match shape act, shape b with
  | [n; m], [k] =>
      if (m =? k)%nat then
        Return {| shape := [n; m];
                  data := flat_map
                            (fun i =>
                               map (fun j =>
                                      nth (i * m + j) (data act) 0
                                      + nth j (data b) 0)
                                   (seq 0 m))
                            (seq 0 n) |}
      else if ((m =? 1) || (k =? 1))%nat then Outside
      else Throw (Builtin
                    (ValueError "operands could not be broadcast together"))
  | _, _ => Outside
  end.

(** [lib.maximum(0.0, a)] and [lib.exp(a)], elementwise. *)
Definition maximum0 (a : ndarray R) : ndarray R :=
  {| shape := shape a; data := map (Rmax 0) (data a) |}.

Definition exp_arr (a : ndarray R) : ndarray R :=
  {| shape := shape a; data := map exp (data a) |}.

(** The value of a 0-dimensional array. *)
Definition item (a : ndarray R) : outcome R :=
  match shape a, data a with
  | [], [x] => Return x
  | _, _ => Outside
  end.

(** [a - b] of two 2-dimensional arrays of one shape. *)
Definition sub2 (a b : ndarray R) : outcome (ndarray R) :=
  match shape a with
  | [n; m] =>
      if shape_eqb (shape a) (shape b) then
        Return {| shape := shape a; data := vzip Rminus (data a) (data b) |}
      else Outside
  | _ => Outside
  end.

(** The rows of a row-major list with [m] entries per row. *)
Fixpoint rows (n m : nat) (l : list R) : list (list R) :=
  match n with
  | O => []
  | S n' => firstn m l :: rows n' m (skipn m l)
  end.

(** [T.sum(a ** 2, axis=1)] of a 2-dimensional array. *)
Definition sum_sq_axis1 (a : ndarray R) : outcome (list R) :=
  match shape a with
  | [n; m] =>
      Return (map (fun row => vsum (map (fun x => x * x) row))
                  (rows n m (data a)))
  | _ => Outside
  end.

(** [scipy.stats.norm.logpdf(x, loc, scale)] for [scale > 0]:
    [-((x - loc) / scale)**2 / 2 - log(sqrt(2 pi)) - log(scale)]. *)
Definition norm_logpdf (x loc scale : R) : R :=
  - (((x - loc) / scale) * ((x - loc) / scale)) / 2
  - ln (sqrt (2 * PI)) - ln scale.

End NpMore.

(* ===================================================================== *)
(** * toy_examples/mlp_hmc.py: the MLP, its likelihood and its prior *)
(* ===================================================================== *)

Module mlp_hmc_net.
Import Np OD Tensor NpMore.
Open Scope R_scope.

(** [summarize(X, p)]; [np.percentile(X, q, axis=0)] is numpy's, [p] is
    1-dimensional by its type. *)
Definition summarize (percentile : ndarray R -> list R -> ndarray R)
    (X : ndarray R) (p : list R) : outcome (ndarray R * ndarray R) :=
  _ <~ check (2 <=? ndim X)%nat ;;
  _ <~ check (forallb (fun x => if Rle_dec 0 x then true else false) p
              && forallb (fun x => if Rle_dec x 1 then true else false) p) ;;
  let LB_p := map (fun x => 0.5 * (1 - x)) p in
  let UB_p := map (fun x => 0.5 * (1 + x)) p in
  let LB := percentile X (map (fun q => 100 * q) LB_p) in
  let UB := percentile X (map (fun q => 100 * q) UB_p) in
  Return (LB, UB).

(** [get_n_layers(theta_dict)]: Python's [divmod] is the floor division of
    [Z]. *)
Definition get_n_layers {V} (theta_dict : OrderedDict V) : outcome Z :=
  let len := Z.of_nat (length theta_dict) in
  let n_layers := ((len - 1) / 2)%Z in
  let rem := ((len - 1) mod 2)%Z in
  _ <~ check (rem =? 0)%Z ;;
  Return n_layers.

(** The loop [for nn in xrange(n_layers)] of [mlp_pred], on the loop
    variable [yp]; [lib=T] and [lib=np] denote the same operations. *)
Fixpoint mlp_layers (n_layers : Z) (theta : OrderedDict (ndarray R))
    (nns : list nat) (yp : ndarray R) : outcome (ndarray R) :=
  match nns with
  | [] => Return yp
  | nn :: nns' =>
      W <~ getitem theta ("W_" ++ str_of_nat nn)%string ;;
      b <~ getitem theta ("b_" ++ str_of_nat nn)%string ;;
      d <~ dot yp W ;;
      act <~ add_row d b ;;
      let yp := if (Z.of_nat nn =? n_layers - 1)%Z then act
                else maximum0 act in
      mlp_layers n_layers theta nns' yp
  end.

(** [mlp_pred(X, theta, lib)] *)
Definition mlp_pred (X : ndarray R) (theta : OrderedDict (ndarray R))
  : outcome (ndarray R * ndarray R) :=
  n_layers <~ get_n_layers theta ;;
  yp <~ mlp_layers n_layers theta (seq 0 (Z.to_nat n_layers)) X ;;
  log_prec <~ getitem theta "log_prec" ;;
  _ <~ check (ndim log_prec =? 0)%nat ;;
  let y_prec := exp_arr log_prec in
  Return (yp, y_prec).

(** [mlp_loglik_np(X, y, theta)] *)
Definition mlp_loglik_np (X y : ndarray R) (theta : OrderedDict (ndarray R))
  : outcome R :=
  ' (yp, y_prec) <~ mlp_pred X theta ;;
  let std_dev := {| shape := shape y_prec;
                    data := map (fun t => sqrt (1 / t)) (data y_prec) |} in
  _ <~ check (ndim std_dev =? 0)%nat ;;
  _ <~ check (shape_eqb (shape yp) (shape y)) ;;
  s <~ item std_dev ;;
  let loglik := {| shape := shape y;
                   data := vzip (fun yi ypi => norm_logpdf yi ypi s)
                                (data y) (data yp) |} in
  _ <~ check (shape_eqb (shape loglik) (shape y)) ;;
  Return (vsum (data loglik)).

(** [logprior_np(theta)]: Python's [sum] adds from 0, left to right. *)
Definition logprior_np (theta : OrderedDict (ndarray R)) : R :=
  fold_left Rplus
    (map (fun th => vsum (map (fun x => norm_logpdf x 0 1) (data th)))
         (itervalues theta))
    0.

(** [mlp_logprior_flat_tt(theta)]; [theta] is 1-dimensional by its type. *)
Definition mlp_logprior_flat_tt (theta : list R) : R :=
  - 0.5 * vsum (map (fun x => x * x) theta).

(** [mlp_pred_flat_tt(X, theta, weight_shapes)] *)
Definition mlp_pred_flat_tt (X : ndarray R) (theta : list R)
    (weight_shapes : OrderedDict (list nat))
  : outcome (ndarray R * ndarray R) :=
  theta_dict <~ lift (mlp_hmc.unpack theta weight_shapes true) ;;
  mlp_pred X theta_dict.

(** [mlp_loglik_flat_tt(X, y, theta, weight_shapes)]: one value per row. *)
Definition mlp_loglik_flat_tt (X y : ndarray R) (theta : list R)
    (weight_shapes : OrderedDict (list nat)) : outcome (list R) :=
  ' (yp, y_prec) <~ mlp_pred_flat_tt X theta weight_shapes ;;
  err <~ sub2 yp y ;;
  let loglik_c := - 0.5 * ln (2 * PI) in
  t <~ item y_prec ;;
  let loglik_cmp := 0.5 * ln t in
  sq <~ sum_sq_axis1 err ;;
  let loglik_fit := map (fun s => - 0.5 * t * s) sq in
  Return (map (fun f => loglik_c + loglik_cmp + f) loglik_fit).

(** ** The product network *)

Section Pymc.

(** Theano tensors and pymc3 models, with what [prod_net_pm] needs of
    them. *)
Variables (tensor model : Type).
Variable pm_Normal : string -> R -> R -> list nat -> tensor.
Variable shared_tensor : ndarray R -> tensor.
Variables (mul : tensor -> tensor -> tensor) (neg texp : tensor -> tensor).
Variable tensor_ndim : tensor -> nat.
Variable pm_observe :
  OrderedDict tensor -> tensor -> tensor -> tensor -> model.

(** [make_normal_vars_pm(weight_shapes)] *)
Definition make_normal_vars_pm (weight_shapes : OrderedDict (list nat))
  : outcome (OrderedDict tensor) :=
  let D := fold_left
             (fun D kv => setitem D (fst kv) (pm_Normal (fst kv) 0 1 (snd kv)))
             weight_shapes [] in
  _ <~ check (keys_eqb (keys D) (keys weight_shapes)) ;;
  Return D.

(** [prod_net_pred(X, theta_dict, lib)] *)
Definition prod_net_pred (X : tensor) (theta_dict : OrderedDict tensor)
  : outcome (tensor * tensor) :=
  a <~ getitem theta_dict "a" ;;
  b <~ getitem theta_dict "b" ;;
  c <~ getitem theta_dict "c" ;;
  let yp := mul (mul a b) X in
  let log_var := mul (mul a c) X in
  let y_prec := texp (neg log_var) in
  Return (yp, y_prec).

(** [N, D = shape] *)
Definition unpack2 (s : list nat) : outcome (nat * nat) :=
  match s with
  | [N; D] => Return (N, D)
  | [] | [_] =>
      Throw (Builtin
               (ValueError
                  ("need more than " ++ str_of_nat (length s)
                     ++ (if (length s =? 1)%nat then " value" else " values")
                     ++ " to unpack")%string))
  | _ => Throw (Builtin (ValueError "too many values to unpack"))
  end.

(** [weight_shapes == {'a': (), 'b': ()}]: equal as dictionaries, in any
    order. *)
Definition is_a_b (weight_shapes : OrderedDict (list nat)) : bool :=
  (length weight_shapes =? 2)%nat
  && match lookup weight_shapes "a", lookup weight_shapes "b" with
     | Some [], Some [] => true
     | _, _ => false
     end.

(** [prod_net_pm(X_train, Y_train, weight_shapes)] with the default
    [build_priors=make_normal_vars_pm]. *)
Definition prod_net_pm (X_train Y_train : ndarray R)
    (weight_shapes : OrderedDict (list nat)) : outcome model :=
  ' (N, D) <~ unpack2 (shape X_train) ;;
  _ <~ check (shape_eqb (shape Y_train) [N; D]) ;;
  _ <~ check (is_a_b weight_shapes) ;;
  theta_dict <~ make_normal_vars_pm weight_shapes ;;
  ' (yp_train, y_prec) <~ prod_net_pred (shared_tensor X_train) theta_dict ;;
  _ <~ check (tensor_ndim y_prec =? 0)%nat ;;
  _ <~ check (tensor_ndim yp_train =? 2)%nat ;;
  _ <~ check (ndim Y_train =? 2)%nat ;;
  Return (pm_observe theta_dict yp_train y_prec (shared_tensor Y_train)).

End Pymc.

End mlp_hmc_net.

(* ===================================================================== *)
(** * BHNs.py: the other two models *)
(* ===================================================================== *)

Module BHNsMore.
Import Tensor Np BHNs.

(** The layers of a flow that have a log-determinant output, as they lie
    on the chain that ends in a given layer. *)
Fixpoint stage_nodes (l : layer) : list layer :=
  match l with
  | InputLayer _ => []
  | LinearFlowLayer l' | CoupledDenseLayer l' _ | IAFDenseLayer l' _ _ _ _ =>
      stage_nodes l' ++ [l]
  | PermuteLayer l' _ | IndexLayer l' _ | DenseLayer l' _
  | stochastic_weight_norm l' _ => stage_nodes l'
  end.

Definition is_permutation (s : stage) : bool :=
  match s with Permutation => true | _ => false end.

(** [h] is output 0 of the last layer with a log-determinant output on
    its chain. *)
Definition ends_in_stage (h : layer) : Prop :=
  exists nodes node,
    stage_nodes h = nodes ++ [node] /\ h = IndexLayer node 0.

End BHNsMore.

Module MNF_MLP_BHN.
Import Tensor Np BHNs.

(** [MNF_MLP_BHN.__init__]: the weight shapes are those of
    [MLPWeightNorm_BHN] (lines 447-451 repeat lines 310-314), and the flow
    has one dimension per input unit of each layer.
    [noise_distribution] is no argument of this class. *)
Definition num_params (cfg : config) : Z :=
  fold_left Z.add (map fst (weight_shapes cfg)) 0%Z.

(** The two assertions that open [__init__]. *)
Definition init_asserts (cfg : config) : result unit :=
  _ <- assert (perdatapoint cfg) ;;
  assert (if Req_dec_T (lbda cfg) 1 then true else false).

(** [_get_flow_r]: the layers [(flow_r, logdets_layers)] of the flow that
    maps the sample back. *)
Definition flow_r_layers (cfg : config) : layer * list layer :=
  let st := (InputLayer [None; Some (num_params cfg)], @nil layer) in
  if negb (coupling cfg =? 0)%Z then
    fold_left
      (fun st _ => couple (PermuteLayer (fst st) (num_params cfg), snd st))
      (range (coupling cfg - 1))
      (couple st)
  else st.

(** [_get_flow_r]: the loop that splits [z_T_b], on the state
    [(t, z_T_bs)]; a piece [z_T_b[:, start:stop]] is its column range. *)
Definition z_T_bs (cfg : config) : Z * list (Z * Z) :=
  fold_left
    (fun st ws =>
       let t := fst st in
       ((t + fst ws)%Z, snd st ++ [(t, (t + fst ws)%Z)]))
    (weight_shapes cfg)
    (0%Z, []).

(** The primary net: [MNFLayer([p_net, w_layer], ws[1], ws[0])] takes the
    layer before it and an input layer fed with the weight. *)
Inductive mnf_net : Type :=
| MNFInputLayer (shape : list (option Z))
| MNFLayer (incoming : mnf_net) (w_layer : list (option Z))
           (weight : weight_expr) (num_units num_inputs : Z).

(** The state of the loop of [_get_primary_net]: [t], [p_net], the list
    [z_T_fs], and the lengths of the vectors appended to [cs], [b_mus] and
    [b_logsigs]. *)
Record primary_state : Type := mk_primary_state {
  st_t : Z;
  st_p_net : mnf_net;
  st_z_T_fs : list weight_expr;
  st_cs : list Z;
  st_b_mus : list Z;
  st_b_logsigs : list Z
}.

Definition primary_step (cfg : config) (st : primary_state) (ws : Z * Z)
  : primary_state :=
  let t := st_t st in
  let num_param := fst ws in
  let w_layer := [None; Some num_param] in
  let weight := {| w_start := t; w_stop := (t + num_param)%Z;
                   w_shape := (wd1 cfg, num_param) |} in
  {| st_t := (t + num_param)%Z;
     st_p_net := MNFLayer (st_p_net st) w_layer weight (snd ws) (fst ws);
     st_z_T_fs := st_z_T_fs st ++ [weight];
     st_cs := st_cs st ++ [num_param];
     st_b_mus := st_b_mus st ++ [num_param];
     st_b_logsigs := st_b_logsigs st ++ [num_param] |}.

Definition primary_layers (cfg : config) : primary_state :=
  fold_left (primary_step cfg) (weight_shapes cfg)
            {| st_t := 0%Z;
               st_p_net := MNFInputLayer [None; Some (n_inputs cfg)];
               st_z_T_fs := []; st_cs := []; st_b_mus := [];
               st_b_logsigs := [] |}.

Definition range_of (w : weight_expr) : Z * Z := (w_start w, w_stop w).

End MNF_MLP_BHN.

Module HyperWN_CNN.
Import Tensor Np BHNs.

(** The arguments of [HyperWN_CNN.__init__] that shape the net; [lbda],
    [perdatapoint], [srng], [prior] and [nonl] go to the layers and to
    [Base_BHN] unread. [n_channels] is an integer or a list. *)
Record cnn_args : Type := mk_cnn_args {
  perdatapoint : bool;
  coupling : Z;
  input_channels : Z;
  input_shape : list Z;
  n_classes : Z;
  n_convlayers : Z;
  n_channels : Z + list Z;
  kernel_size : Z;
  n_mlplayers : Z;
  n_units : Z;
  stride : Z;
  pad : string;
  pool_per : Z;
  n_units_h : Z
}.

(** A 4-tuple [(out_chan, in_chan, kernel_size, kernel_size)]. *)
Record filter_shape : Type := mk_filter {
  out_chan : Z; in_chan : Z; kernel_h : Z; kernel_w : Z
}.

(** The tuple [(num_filters, filter_size, stride, pad, nonl, pool)], with
    [pool = 'max'] as [true] and [None] as [false]. *)
Record conv_arg : Type := mk_conv_arg {
  num_filters : Z; filter_size : Z; arg_stride : Z; arg_pad : string;
  pool : bool
}.

(** [n_channels if isinstance(n_channels, list) else
     [n_channels for i in range(n_convlayers)]] *)
Definition channel_list (a : cnn_args) : list Z :=
  match n_channels a with
  | inl c => map (fun _ => c) (range (n_convlayers a))
  | inr l => l
  end.

(** The loop [for i in range(n_convlayers)] of [__init__], on the state
    [(in_chan, weight_shapes, args)]. *)
Fixpoint conv_loop (a : cnn_args) (channels : list Z) (indices : list Z)
    (st : Z * list filter_shape * list conv_arg)
  : outcome (Z * list filter_shape * list conv_arg) :=
  match indices with
  | [] => Return st
  | i :: indices' =>
      let '(in_chan, weight_shapes, args) := st in
      match nth_error channels (Z.to_nat i) with
      | None => Throw (Builtin (IndexError "list index out of range"))
      | Some out_chan =>
          let weight_shape :=
            mk_filter out_chan in_chan (kernel_size a) (kernel_size a) in
          if (pool_per a =? 0)%Z then
            Throw (ZeroDivisionError "integer division or modulo by zero")
          else
            let pool := (((i + 1) mod pool_per a) =? 0)%Z in
            let arg := mk_conv_arg out_chan (kernel_size a) (stride a)
                                   (pad a) pool in
            conv_loop a channels indices'
                      (out_chan, weight_shapes ++ [weight_shape],
                       args ++ [arg])
      end
  end.

(** The values of [int64]. *)
Definition fits64 (z : Z) : bool :=
  ((- 9223372036854775808 <=? z) && (z <=? int64_max))%Z.

(** [np.array] of a list of 4-tuples of integers is an array of [int64]
    when every entry is an [int64] value. For other entries numpy chooses
    another type of element ([uint64], [float64], [object]); what it
    computes then is outside the model. *)
Definition int64_tuple (w : filter_shape) : bool :=
  fits64 (out_chan w) && fits64 (in_chan w)
  && fits64 (kernel_h w) && fits64 (kernel_w w).

Definition int64_array (weight_shapes : list filter_shape) : bool :=
  forallb int64_tuple weight_shapes.

(** [np.sum] and [np.prod] of [int64] values: they wrap around. *)
Definition sum64 (l : list Z) : Z := wrap64 (fold_left Z.add l 0%Z).

Definition prod64 (l : list Z) : Z :=
  fold_left (fun acc d => wrap64 (acc * d)) l 1%Z.

(** What [__init__] stores before it calls [Base_BHN.__init__]. The
    attributes that numpy computes are [None] where numpy does not
    compute in [int64]. *)
Record cnn_shapes : Type := mk_cnn_shapes {
  weight_shapes : list filter_shape;
  args : list conv_arg;
  n_kernels : option Z;
  kernel_shape : Z * Z * Z;
  kernel_size_attr : option Z;
  num_mlp_params : Z;
  num_cnn_params : option Z;
  num_params : option Z
}.

(** [HyperWN_CNN.__init__], lines 679-720. [np.array(weight_shapes)[:,1]]
    of an empty list indexes a 1-dimensional array with two indices.
    [num_mlp_params] is an integer of Python, without bound; added to the
    [int64] of numpy it is converted to [int64] when it is such a
    value. *)
Definition init_shapes (a : cnn_args) : outcome cnn_shapes :=
  ' (_, weight_shapes, args) <~
    conv_loop a (channel_list a) (range (n_convlayers a))
              (input_channels a, [], []) ;;
  match weight_shapes with
  | [] => Throw (Builtin (IndexError "too many indices for array"))
  | ws0 :: _ =>
      let n_kernels :=
        if int64_array weight_shapes
        then Some (sum64 (map in_chan weight_shapes)) else None in
      let kernel_shape := (out_chan ws0, kernel_h ws0, kernel_w ws0) in
      let kernel_size :=
        if int64_tuple ws0
        then Some (prod64 [out_chan ws0; in_chan ws0;
                           kernel_h ws0; kernel_w ws0])
        else None in
      let num_mlp_params := (n_classes a + n_units a * n_mlplayers a)%Z in
      let num_cnn_params :=
        if int64_array weight_shapes
        then Some (sum64 (map out_chan weight_shapes)) else None in
      let num_params :=
        match num_cnn_params with
        | Some cnn =>
            if fits64 num_mlp_params
            then Some (wrap64 (num_mlp_params + cnn)) else None
        | None => None
        end in
      Return {| weight_shapes := weight_shapes;
                args := args;
                n_kernels := n_kernels;
                kernel_shape := kernel_shape;
                kernel_size_attr := kernel_size;
                num_mlp_params := num_mlp_params;
                num_cnn_params := num_cnn_params;
                num_params := num_params |}
  end.

(** The weight of a layer: [self.weights[0, start:stop]] of the first
    sample alone, or [self.weights[:, start:stop].reshape((wd1, width))]. *)
Inductive cnn_weight : Type :=
| FirstRow (start stop : Z)
| AllRows (start stop : Z) (shape : dim * Z).

Inductive activation : Type := rectify | softmax.

Inductive cnn_net : Type :=
| InputLayer (shape : list (option Z))
| Conv2DLayer (incoming : cnn_net) (num_filters filter_size stride : Z)
              (pad : string)
| MaxPool2DLayer (incoming : cnn_net) (pool_size : Z)
| DenseLayer (incoming : cnn_net) (num_units : Z) (nonl : activation)
| stochastic_weight_norm (incoming : cnn_net) (weight : cnn_weight).

Definition wd1 (a : cnn_args) : dim :=
  if perdatapoint a then BatchSize else One.

(** [_get_primary_net]: the loop over [zip(weight_shapes, args)], on the
    state [(t, p_net)]. *)
Definition conv_step (st : Z * cnn_net) (wa : filter_shape * conv_arg)
  : Z * cnn_net :=
  let t := fst st in
  let num_filters0 := out_chan (fst wa) in
  let weight := FirstRow t (t + num_filters0)%Z in
  let arg := snd wa in
  let p_net := Conv2DLayer (snd st) (num_filters arg) (filter_size arg)
                           (arg_stride arg) (arg_pad arg) in
  let p_net := stochastic_weight_norm p_net weight in
  let p_net := if pool arg then MaxPool2DLayer p_net 2 else p_net in
  ((t + num_filters arg)%Z, p_net).

(** The loop [for layer in range(self.num_mlp_layers)]. *)
Definition mlp_step (a : cnn_args) (st : Z * cnn_net) (layer : Z)
  : Z * cnn_net :=
  let t := fst st in
  let weight := AllRows t (t + n_units a)%Z (wd1 a, n_units a) in
  let p_net := DenseLayer (snd st) (n_units a) rectify in
  let p_net := stochastic_weight_norm p_net weight in
  ((t + n_units a)%Z, p_net).

(** [_get_primary_net]: [self.p_net], and the column at which the last
    slice stops. *)
Definition primary_layers (a : cnn_args) (s : cnn_shapes) : Z * cnn_net :=
  let st := (0%Z,
             InputLayer (None :: map (@Some Z) (input_shape a))) in
  let st := fold_left conv_step (combine (weight_shapes s) (args s)) st in
  let st := fold_left (mlp_step a) (range (n_mlplayers a)) st in
  let t := fst st in
  let weight := AllRows t (t + n_classes a)%Z (wd1 a, n_classes a) in
  let p_net := DenseLayer (snd st) (n_classes a) softmax in
  let p_net := stochastic_weight_norm p_net weight in
  ((t + n_classes a)%Z, p_net).

(** The weights of the layers of a net, first layer first. *)
Fixpoint weights_of (l : cnn_net) : list cnn_weight :=
  match l with
  | InputLayer _ => []
  | stochastic_weight_norm l' w => weights_of l' ++ [w]
  | Conv2DLayer l' _ _ _ _ | MaxPool2DLayer l' _ | DenseLayer l' _ _ =>
      weights_of l'
  end.

Definition range_of (w : cnn_weight) : Z * Z :=
  match w with
  | FirstRow start stop | AllRows start stop _ => (start, stop)
  end.

Definition is_first_row (w : cnn_weight) : bool :=
  match w with FirstRow _ _ => true | AllRows _ _ _ => false end.

End HyperWN_CNN.
(* ===================================================================== *)
(** * Concrete inputs *)
(* ===================================================================== *)

Module Examples.
Import Np OD Tensor BHNs.
Open Scope R_scope.

(** A regression net with one layer of two inputs and one output, as flat
    vector and as input batch of two rows. *)
Definition net_shapes : OrderedDict (list nat) :=
  [("W_0", [2; 1]); ("b_0", [1]); ("log_prec", [])]%nat.

Definition net_vector : list R := [1; 2; 3; 0].

Definition net_widths (k : nat) : nat :=
  match k with O => 2%nat | S _ => 1%nat end.

Definition batch_X : ndarray R :=
  {| shape := [2; 2]%nat; data := [1; 0; 0; 1] |}.

Definition batch_y : ndarray R :=
  {| shape := [2; 1]%nat; data := [4; 5] |}.

(** A vector that is too short for [mlp_hmc.toy_weight_shapes] and one
    that is too long. *)
Definition short_vector : list nat := [10; 11]%nat.

Definition long_vector : list nat := (mlp_hmc.toy_vector ++ [17])%nat.

(** The weight shapes that [prod_net_pm] asserts. *)
Definition a_b_shapes : OrderedDict (list nat) := [("a", []); ("b", [])].

Definition coverages : list R := [1 / 2; 1].

(** An archive for [Reference.fresh_params] whose second value has the
    shape [(3,)]. *)
Definition second_value_off : list pyobj :=
  [ PyArray {| shape := [2%nat]; data := [1; 2] |};
    PyArray {| shape := [3%nat]; data := [1; 2; 3] |};
    PyStr "notes" ].

Definition with_noise (cfg : config) (s : string) : config :=
  mk_config (flow cfg) (lbda cfg) (BHNs.perdatapoint cfg) (opt cfg)
            (prior cfg) (output_type cfg) (BHNs.coupling cfg)
            (n_hiddens cfg) (BHNs.n_units cfg) (n_inputs cfg)
            (BHNs.n_classes cfg) s.

(** The default arguments of [HyperWN_CNN.__init__]. *)
Definition default_cnn_args : HyperWN_CNN.cnn_args := {|
  HyperWN_CNN.perdatapoint := false;
  HyperWN_CNN.coupling := 4;
  HyperWN_CNN.input_channels := 3;
  HyperWN_CNN.input_shape := [3; 32; 32]%Z;
  HyperWN_CNN.n_classes := 5;
  HyperWN_CNN.n_convlayers := 2;
  HyperWN_CNN.n_channels := inl 128%Z;
  HyperWN_CNN.kernel_size := 3;
  HyperWN_CNN.n_mlplayers := 1;
  HyperWN_CNN.n_units := 1000;
  HyperWN_CNN.stride := 1;
  HyperWN_CNN.pad := "valid";
  HyperWN_CNN.pool_per := 1;
  HyperWN_CNN.n_units_h := 200
|}.

Definition with_pool_per (a : HyperWN_CNN.cnn_args) (p : Z)
  : HyperWN_CNN.cnn_args :=
  HyperWN_CNN.mk_cnn_args
    (HyperWN_CNN.perdatapoint a) (HyperWN_CNN.coupling a)
    (HyperWN_CNN.input_channels a) (HyperWN_CNN.input_shape a)
    (HyperWN_CNN.n_classes a) (HyperWN_CNN.n_convlayers a)
    (HyperWN_CNN.n_channels a) (HyperWN_CNN.kernel_size a)
    (HyperWN_CNN.n_mlplayers a) (HyperWN_CNN.n_units a)
    (HyperWN_CNN.stride a) (HyperWN_CNN.pad a) p
    (HyperWN_CNN.n_units_h a).

Definition with_channels (a : HyperWN_CNN.cnn_args) (l : list Z)
  : HyperWN_CNN.cnn_args :=
  HyperWN_CNN.mk_cnn_args
    (HyperWN_CNN.perdatapoint a) (HyperWN_CNN.coupling a)
    (HyperWN_CNN.input_channels a) (HyperWN_CNN.input_shape a)
    (HyperWN_CNN.n_classes a) (HyperWN_CNN.n_convlayers a)
    (inr l) (HyperWN_CNN.kernel_size a)
    (HyperWN_CNN.n_mlplayers a) (HyperWN_CNN.n_units a)
    (HyperWN_CNN.stride a) (HyperWN_CNN.pad a) (HyperWN_CNN.pool_per a)
    (HyperWN_CNN.n_units_h a).

Definition with_convlayers (a : HyperWN_CNN.cnn_args) (n : Z)
  : HyperWN_CNN.cnn_args :=
  HyperWN_CNN.mk_cnn_args
    (HyperWN_CNN.perdatapoint a) (HyperWN_CNN.coupling a)
    (HyperWN_CNN.input_channels a) (HyperWN_CNN.input_shape a)
    (HyperWN_CNN.n_classes a) n
    (HyperWN_CNN.n_channels a) (HyperWN_CNN.kernel_size a)
    (HyperWN_CNN.n_mlplayers a) (HyperWN_CNN.n_units a)
    (HyperWN_CNN.stride a) (HyperWN_CNN.pad a) (HyperWN_CNN.pool_per a)
    (HyperWN_CNN.n_units_h a).

End Examples.
(* ===================================================================== *)
(** * 64-bit integers, shapes and slices *)
(* ===================================================================== *)

Import Np OD Tensor.

Section Int64Facts.
Open Scope Z_scope.

(** A value of [int64] is not changed by the wrap-around. *)
Lemma wrap64_small (z : Z) :
  - 9223372036854775808 <= z <= int64_max -> wrap64 z = z.
Proof.
  unfold wrap64, int64_max. intros H.
  rewrite Z.mod_small by lia. lia.
Qed.

(** A sum of two values of [int64] beyond the largest wraps to the
    negative numbers. *)
Lemma wrap64_over (z : Z) :
  int64_max < z <= 2 * int64_max + 1 ->
  wrap64 z = z - 18446744073709551616.
Proof.
  unfold wrap64, int64_max. intros H.
  replace (z + 9223372036854775808)
    with (z - 9223372036854775808 + 1 * 18446744073709551616) by lia.
  rewrite Z.mod_add by lia. rewrite Z.mod_small by lia. lia.
Qed.

Lemma wrap64_eq (z : Z) :
  wrap64 z
  = z - 18446744073709551616
        * ((z + 9223372036854775808) / 18446744073709551616).
Proof.
  unfold wrap64. rewrite Z.mod_eq by lia. lia.
Qed.

(** The wrap-around is compatible with products and sums. *)
Lemma wrap64_mul_l (a b : Z) : wrap64 (wrap64 a * b) = wrap64 (a * b).
Proof.
  rewrite (wrap64_eq a). unfold wrap64. f_equal.
  set (q := (a + 9223372036854775808) / 18446744073709551616).
  replace ((a - 18446744073709551616 * q) * b + 9223372036854775808)
    with (a * b + 9223372036854775808
          + (- (q * b)) * 18446744073709551616) by ring.
  apply Z.mod_add. lia.
Qed.

Lemma wrap64_add_r (a b : Z) : wrap64 (a + wrap64 b) = wrap64 (a + b).
Proof.
  rewrite (wrap64_eq b). unfold wrap64. f_equal.
  set (q := (b + 9223372036854775808) / 18446744073709551616).
  replace (a + (b - 18446744073709551616 * q) + 9223372036854775808)
    with (a + b + 9223372036854775808 + (- q) * 18446744073709551616)
    by ring.
  apply Z.mod_add. lia.
Qed.

Lemma numel_acc (ws : list nat) : forall a,
  fold_left (fun acc d => acc * Z.of_nat d) ws a = a * numel ws.
Proof.
  unfold numel. induction ws as [|d ws IH]; intros a;
    cbn [fold_left]; [lia|].
  rewrite (IH (a * Z.of_nat d)), (IH (1 * Z.of_nat d)). ring.
Qed.

Lemma size_acc (ws : list nat) : forall a,
  fold_left Nat.mul ws a = (a * size ws)%nat.
Proof.
  unfold size. induction ws as [|d ws IH]; intros a;
    cbn [fold_left]; [lia|].
  rewrite (IH (a * d)%nat), (IH (1 * d)%nat). ring.
Qed.

(** The two readings of the number of elements agree. *)
Lemma numel_size (ws : list nat) : numel ws = Z.of_nat (size ws).
Proof.
  induction ws as [|d ws IH]; [reflexivity|].
  unfold numel, size. cbn [fold_left].
  rewrite numel_acc, size_acc, IH. lia.
Qed.

Lemma extent_acc (ws : list nat) : forall a,
  fold_left (fun acc d => acc * Z.max 1 (Z.of_nat d)) ws a = a * extent ws.
Proof.
  unfold extent. induction ws as [|d ws IH]; intros a;
    cbn [fold_left]; [lia|].
  rewrite (IH (a * Z.max 1 (Z.of_nat d))), (IH (1 * Z.max 1 (Z.of_nat d))).
  ring.
Qed.

Lemma numel_le_extent (ws : list nat) :
  0 <= numel ws <= extent ws /\ 1 <= extent ws.
Proof.
  induction ws as [|d ws IH]; [unfold numel, extent; simpl; lia|].
  unfold numel, extent. cbn [fold_left].
  rewrite numel_acc, extent_acc. nia.
Qed.

(** [np.prod] is the number of elements, wrapped around. *)
Lemma prod_wrap (ws : list nat) : prod ws = wrap64 (numel ws).
Proof.
  unfold prod, numel.
  assert (H : forall a,
             fold_left (fun acc d => wrap64 (acc * Z.of_nat d)) ws (wrap64 a)
             = wrap64 (fold_left (fun acc d => acc * Z.of_nat d) ws a)).
  { induction ws as [|d ws IH]; intros a; cbn [fold_left];
      [reflexivity|].
    rewrite wrap64_mul_l. apply IH. }
  rewrite <- (H 1). reflexivity.
Qed.

Lemma prod_exact (ws : list nat) :
  Z.of_nat (size ws) <= int64_max -> prod ws = Z.of_nat (size ws).
Proof.
  intros H. rewrite prod_wrap, numel_size. apply wrap64_small. lia.
Qed.

End Int64Facts.

Section ArrayFacts.
Context {A : Type}.
Implicit Types (v : list A).

Lemma clamp_index_nat (n k : nat) :
  clamp_index n (Z.of_nat k) = Nat.min n k.
Proof.
  unfold clamp_index.
  destruct (Z.ltb_spec (Z.of_nat k) 0); lia.
Qed.

Lemma length_slice v (lo hi : nat) :
  length (slice v lo hi) = Nat.min (hi - lo) (length v - lo).
Proof. unfold slice. now rewrite length_firstn, length_skipn. Qed.

Lemma slice_length v t n :
  (t + n <= length v)%nat -> length (slice v t (t + n)) = n.
Proof. intros H. rewrite length_slice. lia. Qed.

(** A slice between two positions inside [v]. *)
Lemma slice_int_inside v (t n : nat) :
  (t + n <= length v)%nat ->
  slice_int v (Z.of_nat t) (Z.of_nat (t + n)) = slice v t (t + n).
Proof.
  intros H. unfold slice_int. rewrite !clamp_index_nat.
  now rewrite !Nat.min_r by lia.
Qed.

Lemma length_slice_int_nat v (t n : nat) :
  (t <= length v)%nat ->
  length (slice_int v (Z.of_nat t) (Z.of_nat (t + n)))
  = Nat.min n (length v - t).
Proof.
  intros H. unfold slice_int. rewrite !clamp_index_nat, length_slice. lia.
Qed.

Lemma length_slice_int_le v (a b : Z) :
  (length (slice_int v a b) <= length v)%nat.
Proof. unfold slice_int. rewrite length_slice. lia. Qed.

(** A slice whose stop has wrapped around is empty. *)
Lemma slice_int_wrapped v (t : nat) (z : Z) :
  (t <= length v)%nat ->
  (Z.of_nat (length v) <= int64_max)%Z ->
  (int64_max < z <= Z.of_nat t + int64_max)%Z ->
  length (slice_int v (Z.of_nat t) (wrap64 z)) = 0%nat.
Proof.
  intros Ht Hv Hz. rewrite wrap64_over by lia.
  unfold slice_int. rewrite clamp_index_nat, length_slice.
  unfold clamp_index, int64_max in *.
  destruct (Z.ltb_spec (z - 18446744073709551616) 0); lia.
Qed.

Lemma array_shape_spec (ws : list nat) :
  array_shape ws = true ->
  (max_ndim <? length ws)%nat = false /\ too_big ws = false.
Proof.
  unfold array_shape. intros H. apply andb_true_iff in H as [H1 H2].
  apply Nat.leb_le in H1. apply negb_true_iff in H2.
  split; [apply Nat.ltb_ge; exact H1|exact H2].
Qed.

Lemma reshape_ok (a : list A) (ws : list nat) :
  length a = size ws -> array_shape ws = true ->
  reshape a ws = Ok {| shape := ws; data := a |}.
Proof.
  intros Hl Hb. apply array_shape_spec in Hb as [Hd Hb]. unfold reshape.
  rewrite Hd, numel_size, Hl, Z.eqb_refl, Hb. reflexivity.
Qed.

Lemma reshape_mismatch (a : list A) (ws : list nat) :
  length a <> size ws -> array_shape ws = true ->
  reshape a ws
  = Raise (ValueError "total size of new array must be unchanged").
Proof.
  intros Hl Hb. apply array_shape_spec in Hb as [Hd Hb]. unfold reshape.
  rewrite Hd, numel_size.
  destruct (Z.eqb_spec (Z.of_nat (length a)) (Z.of_nat (size ws)));
    [lia|reflexivity].
Qed.

Lemma reshape_inv (a : list A) (ws : list nat) (x : ndarray A) :
  reshape a ws = Ok x ->
  x = {| shape := ws; data := a |}
  /\ length a = size ws /\ array_shape ws = true.
Proof.
  unfold reshape, array_shape. rewrite numel_size.
  destruct (Nat.ltb_spec max_ndim (length ws)) as [Hd|Hd];
    [discriminate|].
  destruct (Z.eqb_spec (Z.of_nat (length a)) (Z.of_nat (size ws)));
    simpl; [|discriminate].
  destruct (too_big ws); [discriminate|].
  intros H. inversion H. repeat split; [lia|].
  apply andb_true_iff. split; [now apply Nat.leb_le|reflexivity].
Qed.

End ArrayFacts.

(* ===================================================================== *)
(** * Properties of [unpack] *)
(* ===================================================================== *)

Section UnpackFacts.
Import mlp_hmc.
Context {A : Type}.
Implicit Types (v : list A) (items : OrderedDict (list nat)).

Lemma fold_add_acc (l : list nat) (a : nat) :
  fold_left Nat.add l a = (a + fold_left Nat.add l 0)%nat.
Proof.
  revert a; induction l as [|x l IH]; intros a; simpl; [lia|].
  rewrite (IH (a + x)%nat), (IH x); lia.
Qed.

Lemma total_size_cons k ws items :
  total_size ((k, ws) :: items) = (size ws + total_size items)%nat.
Proof. unfold total_size; simpl. now rewrite fold_add_acc. Qed.

Lemma array_shapes_cons k ws items :
  array_shapes ((k, ws) :: items) ->
  array_shape ws = true /\ array_shapes items.
Proof. unfold array_shapes. simpl. intros H. now inversion H. Qed.

(** Without overflow the running count of the code is the count without
    bound. *)
Lemma count_exact items : forall a : nat,
  (Z.of_nat (a + total_size items) <= int64_max)%Z ->
  fold_left (fun cnt num_param => wrap64 (cnt + num_param))
            (map prod (itervalues items)) (Z.of_nat a)
  = Z.of_nat (a + total_size items).
Proof.
  induction items as [|[k ws] items IH]; intros a Ha.
  - unfold total_size. simpl. now rewrite Nat.add_0_r.
  - rewrite total_size_cons in *. cbn [itervalues map fold_left snd].
    fold (itervalues items).
    rewrite prod_exact by lia.
    rewrite wrap64_small by (unfold int64_max in *; lia).
    rewrite <- Nat2Z.inj_add, IH by lia. f_equal. lia.
Qed.

Lemma get_num_params_exact items :
  (Z.of_nat (total_size items) <= int64_max)%Z ->
  get_num_params items = Z.of_nat (total_size items).
Proof. intros H. apply (count_exact items 0%nat). exact H. Qed.

Lemma setitem_fresh {V} (D : OrderedDict V) k (x : V) :
  ~ In k (keys D) -> setitem D k x = D ++ [(k, x)].
Proof.
  induction D as [|[k' x'] D IH]; simpl; intros Hn; [reflexivity|].
  destruct (String.eqb_spec k' k) as [->|Hne].
  - exfalso; apply Hn; now left.
  - rewrite IH; [reflexivity|]. intros Hin; apply Hn; now right.
Qed.

(** One step of the loop whose slice lies inside [v]. *)
Lemma unpack_step v ws (t : nat) :
  (Z.of_nat (t + size ws) <= int64_max)%Z ->
  prod ws = Z.of_nat (size ws)
  /\ wrap64 (Z.of_nat t + prod ws) = Z.of_nat (t + size ws).
Proof.
  intros H. rewrite prod_exact by lia. split; [reflexivity|].
  rewrite <- Nat2Z.inj_add. apply wrap64_small.
  unfold int64_max in *. lia.
Qed.

(** With fresh keys, shapes of arrays and enough entries left in [v],
    the loop appends the layout of the remaining items. *)
Lemma unpack_loop_ok v items : forall D t,
  NoDup (keys D ++ keys items) ->
  array_shapes items ->
  (t + total_size items <= length v)%nat ->
  (Z.of_nat (t + total_size items) <= int64_max)%Z ->
  unpack_loop v items D (Z.of_nat t)
  = Ok (D ++ layout v items t, Z.of_nat (t + total_size items)).
Proof.
  induction items as [|[k ws] items IH]; intros D t Hnd Harr Hlen Hmax.
  - simpl. rewrite app_nil_r. unfold total_size; simpl.
    now rewrite Nat.add_0_r.
  - rewrite total_size_cons in *.
    apply array_shapes_cons in Harr as [Hb Harr].
    cbn [unpack_loop].
    destruct (@unpack_step v ws t) as [Hp Hw]; [lia|].
    cbv zeta. rewrite Hw.
    rewrite slice_int_inside by lia.
    rewrite reshape_ok; [|apply slice_length; lia|exact Hb].
    cbn [bind]. rewrite setitem_fresh.
    + rewrite IH.
      * rewrite <- app_assoc. simpl. now rewrite Nat.add_assoc.
      * unfold keys in *. rewrite map_app, <- app_assoc. exact Hnd.
      * exact Harr.
      * lia.
      * lia.
    + unfold keys in *. simpl in Hnd.
      apply NoDup_remove_2 in Hnd. intros Hin; apply Hnd.
      apply in_or_app; now left.
Qed.

(** Whenever the loop ends normally, its position is the count that
    [get_num_params] computes, started from the position before. *)
Lemma unpack_loop_pos v items : forall D t D' t',
  unpack_loop v items D t = Ok (D', t') ->
  t' = fold_left (fun cnt num_param => wrap64 (cnt + num_param))
                 (map prod (itervalues items)) t.
Proof.
  induction items as [|[k ws] items IH]; intros D t D' t' H;
    cbn [unpack_loop] in H.
  - inversion H; subst. reflexivity.
  - cbv zeta in H.
    destruct (reshape (slice_int v t (wrap64 (t + prod ws))) ws) as [x|e];
      cbn [bind] in H; [|discriminate].
    apply IH in H. exact H.
Qed.

(** Whenever the loop ends normally on an array [v], the slices it took
    lie inside [v], one after the other, and no count has wrapped
    around. *)
Lemma unpack_loop_inv v items : forall D (t : nat) D' t',
  (Z.of_nat (length v) <= int64_max)%Z ->
  (t <= length v)%nat ->
  unpack_loop v items D (Z.of_nat t) = Ok (D', t') ->
  (t + total_size items <= length v)%nat
  /\ t' = Z.of_nat (t + total_size items).
Proof.
  induction items as [|[k ws] items IH]; intros D t D' t' Hv Ht H;
    cbn [unpack_loop] in H.
  - inversion H; subst. unfold total_size; simpl.
    rewrite Nat.add_0_r. split; [exact Ht|reflexivity].
  - cbv zeta in H. rewrite total_size_cons.
    destruct (reshape (slice_int v (Z.of_nat t)
                                 (wrap64 (Z.of_nat t + prod ws))) ws)
      as [x|e] eqn:E; cbn [bind] in H; [|discriminate].
    apply reshape_inv in E as (_ & Hl & _).
    pose proof (length_slice_int_le v (Z.of_nat t)
                  (wrap64 (Z.of_nat t + prod ws))) as Hle.
    rewrite Hl in Hle.
    assert (Hp : prod ws = Z.of_nat (size ws)) by (apply prod_exact; lia).
    rewrite Hp in *.
    assert (Hin : (t + size ws <= length v)%nat).
    { destruct (Z_le_gt_dec (Z.of_nat t + Z.of_nat (size ws)) int64_max)
        as [Hs|Hs].
      - rewrite wrap64_small in Hl by (unfold int64_max in *; lia).
        rewrite <- Nat2Z.inj_add, length_slice_int_nat in Hl by exact Ht.
        lia.
      - rewrite slice_int_wrapped in Hl; [lia|exact Ht|exact Hv|lia]. }
    rewrite wrap64_small in H by (unfold int64_max in *; lia).
    rewrite <- Nat2Z.inj_add in H.
    apply IH in H; [|exact Hv|lia].
    destruct H as [H1 H2]. split; [lia|]. rewrite H2. f_equal. lia.
Qed.

Lemma keys_layout v items t : keys (layout v items t) = keys items.
Proof.
  revert t; induction items as [|[k ws] items IH]; intros t; simpl;
    [reflexivity|]. now rewrite IH.
Qed.

Lemma offset_S items i k ws :
  nth_error items i = Some (k, ws) ->
  offset items (S i) = (offset items i + size ws)%nat.
Proof.
  revert i; induction items as [|[k' ws'] items IH]; intros [|i] H;
    simpl in H; try discriminate.
  - inversion H; subst. unfold offset; simpl.
    rewrite total_size_cons. unfold total_size; simpl; lia.
  - unfold offset in *. rewrite !firstn_cons, !total_size_cons.
    rewrite (IH i H). lia.
Qed.

Lemma offset_le items (i : nat) :
  (offset items i <= total_size items)%nat.
Proof.
  unfold offset. revert items.
  induction i as [|i IH]; intros [|[k w] l]; simpl;
    try (unfold total_size; simpl; lia).
  rewrite !total_size_cons. specialize (IH l). lia.
Qed.

Lemma layout_nth v items : forall t i k ws,
  nth_error items i = Some (k, ws) ->
  nth_error (layout v items t) i
  = Some (k, {| shape := ws;
                data := slice v (t + offset items i)
                                (t + offset items i + size ws) |}).
Proof.
  induction items as [|[k' ws'] items IH]; intros t [|i] k ws H;
    simpl in H; try discriminate.
  - inversion H; subst. simpl. unfold offset, total_size; simpl.
    now rewrite Nat.add_0_r.
  - simpl. rewrite (IH _ _ _ _ H). unfold offset.
    rewrite firstn_cons, total_size_cons. now rewrite !Nat.add_assoc.
Qed.

Lemma firstn_plus v (a b : nat) :
  firstn (a + b) v = firstn a v ++ firstn b (skipn a v).
Proof.
  revert v; induction a as [|a IH]; intros [|x v]; simpl;
    try reflexivity.
  - now rewrite firstn_nil.
  - now rewrite IH.
Qed.

Lemma slice_split v (t a b : nat) :
  slice v t (t + (a + b))
  = slice v t (t + a) ++ slice v (t + a) (t + a + b).
Proof.
  unfold slice.
  replace (t + (a + b) - t)%nat with (a + b)%nat by lia.
  replace (t + a - t)%nat with a by lia.
  replace (t + a + b - (t + a))%nat with b by lia.
  rewrite firstn_plus. f_equal. rewrite skipn_skipn.
  now rewrite (Nat.add_comm a t).
Qed.

Lemma concat_layout v items : forall t,
  concat (map (fun kv => data (snd kv)) (layout v items t))
  = slice v t (t + total_size items).
Proof.
  induction items as [|[k ws] items IH]; intros t; simpl.
  - unfold total_size, slice; simpl.
    now rewrite Nat.add_0_r, Nat.sub_diag.
  - rewrite total_size_cons, slice_split, IH. reflexivity.
Qed.

Lemma slice_all v : slice v 0 (0 + length v) = v.
Proof. unfold slice; simpl. rewrite Nat.sub_0_r. apply firstn_all. Qed.

(** With distinct keys, shapes of arrays and as many entries as the
    shapes take, [unpack] returns the layout. *)
Lemma unpack_ok_layout v items (skip_chk : bool) :
  NoDup (keys items) ->
  array_shapes items ->
  (Z.of_nat (length v) <= int64_max)%Z ->
  length v = total_size items ->
  unpack v items skip_chk = Ok (layout v items 0).
Proof.
  intros Hnd Harr Hmax Hlen. unfold unpack.
  pose proof (@unpack_loop_ok v items [] 0%nat Hnd Harr) as Hloop.
  cbn [Z.of_nat Nat.add app] in Hloop.
  rewrite Hloop by lia.
  cbn [bind]. rewrite <- Hlen, Z.eqb_refl, orb_true_r.
  cbn [assert bind].
  rewrite keys_layout. unfold keys_eqb.
  destruct (list_eq_dec string_dec _ _) as [_|Hne]; [|congruence].
  reflexivity.
Qed.

(** C10, amended. For an ordered mapping [weight_shapes] (its keys are
    distinct) of shapes of arrays and an array [v] with as many entries
    as the shapes take together, counted without overflow:
    [get_num_params] is [len(v)], and [unpack] returns, for either value
    of [skip_chk], a dictionary with the same keys in the same order; the
    slice of the first variable starts at 0 and that of each next
    variable right after the slice before it; the [i]-th variable holds
    the slice of [v] of the size of its shape from its offset, with its
    declared shape; and the values concatenated in key order are [v].
    With [skip_chk=False], [unpack] returns only when the slices consume
    [v] entirely and [get_num_params] is [len(v)]. *)
Theorem unpack_spec (weight_shapes : OrderedDict (list nat)) (v : list A) :
  NoDup (keys weight_shapes) ->
  array_shapes weight_shapes ->
  (Z.of_nat (length v) <= int64_max)%Z ->
  (length v = total_size weight_shapes ->
   get_num_params weight_shapes = Z.of_nat (length v)
   /\ forall skip_chk, exists D,
        unpack v weight_shapes skip_chk = Ok D
        /\ keys D = keys weight_shapes
        /\ offset weight_shapes 0 = 0%nat
        /\ (forall i varname ws,
              nth_error weight_shapes i = Some (varname, ws) ->
              offset weight_shapes (S i)
              = (offset weight_shapes i + size ws)%nat
              /\ prod ws = Z.of_nat (size ws)
              /\ exists x,
                   nth_error D i = Some (varname, x)
                   /\ shape x = ws
                   /\ data x = slice v (offset weight_shapes i)
                                       (offset weight_shapes i + size ws)
                   /\ length (data x) = size ws)
        /\ concat (map (fun kv => data (snd kv)) D) = v)
  /\ (forall D, unpack v weight_shapes false = Ok D ->
                length v = total_size weight_shapes
                /\ get_num_params weight_shapes = Z.of_nat (length v)).
Proof.
  intros Hnd Harr Hmax. split.
  - intros Hlen. split.
    { rewrite Hlen. apply get_num_params_exact. now rewrite <- Hlen. }
    intros skip_chk. exists (layout v weight_shapes 0).
    split; [now apply unpack_ok_layout|].
    split; [apply keys_layout|].
    split; [reflexivity|]. split.
    + intros i varname ws Hi.
      pose proof (@offset_S _ _ _ _ Hi) as HS.
      pose proof (offset_le weight_shapes (S i)) as Hle.
      split; [exact HS|]. split; [apply prod_exact; lia|].
      eexists. rewrite (@layout_nth v _ 0%nat _ _ _ Hi). simpl.
      split; [reflexivity|]. split; [reflexivity|].
      split; [reflexivity|].
      apply slice_length. lia.
    + rewrite concat_layout, <- Hlen. apply slice_all.
  - intros D H. unfold unpack in H.
    destruct (unpack_loop v weight_shapes [] 0%Z) as [[D' t]|e] eqn:E;
      cbn [bind] in H; [|discriminate].
    pose proof (@unpack_loop_pos v weight_shapes _ _ _ _ E) as Hcount.
    apply (@unpack_loop_inv v weight_shapes [] 0%nat) in E;
      [|exact Hmax|lia].
    destruct E as [Hle Ht]. simpl in Hle, Ht.
    destruct (Z.eqb_spec t (Z.of_nat (length v))) as [Et|Et];
      cbn [orb assert bind] in H; [|discriminate].
    split; [lia|]. unfold get_num_params. now rewrite <- Hcount.
Qed.

End UnpackFacts.

(* ===================================================================== *)
(** * Properties of the tensor operations *)
(* ===================================================================== *)

Section TensorFacts.
Open Scope R_scope.

Lemma clip_bounds (x lo hi : R) : lo <= hi -> lo <= clip x lo hi <= hi.
Proof.
  intros H. unfold clip.
  destruct (Rlt_dec x lo); [lra|]. destruct (Rlt_dec hi x); lra.
Qed.

Lemma vclip_bounds (v : vector) (lo hi : R) :
  lo <= hi -> Forall (fun x => lo <= x <= hi) (vclip v lo hi).
Proof.
  intros H. unfold vclip. apply Forall_forall. intros x Hx.
  apply in_map_iff in Hx as (x0 & <- & _). now apply clip_bounds.
Qed.

Lemma mclip_bounds (m : matrix) (lo hi : R) :
  lo <= hi -> Forall (Forall (fun x => lo <= x <= hi)) (mclip m lo hi).
Proof.
  intros H. unfold mclip. apply Forall_forall. intros row Hrow.
  apply in_map_iff in Hrow as (r0 & <- & _). now apply vclip_bounds.
Qed.

Lemma vsum_vneg (v : vector) : vsum (vneg v) = - vsum v.
Proof. induction v as [|x v IH]; simpl; [lra|]. rewrite IH. lra. Qed.

Lemma mean_vneg (v : vector) : mean (vneg v) = - mean v.
Proof.
  unfold mean. rewrite vsum_vneg. unfold vneg. rewrite length_map.
  unfold Rdiv. ring.
Qed.

Lemma vsum_squares_scale (g : vector) (c : R) :
  vsum (map (fun x => x * x) (map (fun x => x * c) g))
  = c * c * vsum (map (fun x => x * x) g).
Proof. induction g as [|x g IH]; simpl; [lra|]. rewrite IH. ring. Qed.

Lemma vsum_squares_nonneg (g : vector) : 0 <= vsum (map (fun x => x * x) g).
Proof. induction g as [|x g IH]; simpl; [lra|]. nra. Qed.

Lemma sqnorm_scale (gs : list vector) (c : R) :
  sqnorm (map (fun step => map (fun x => x * c) step) gs)
  = c * c * sqnorm gs.
Proof.
  unfold sqnorm. induction gs as [|g gs IH]; simpl; [lra|].
  rewrite IH, vsum_squares_scale. ring.
Qed.

Lemma sqnorm_nonneg (gs : list vector) : 0 <= sqnorm gs.
Proof.
  unfold sqnorm. induction gs as [|g gs IH]; simpl; [lra|].
  pose proof (vsum_squares_nonneg g). lra.
Qed.

(** Lasagne's norm constraint does what its name says: the rescaled
    tensors have global norm at most [max_norm]. *)
Lemma reference_total_norm_constraint_bound (gs : list vector) (m : R) :
  0 <= m ->
  global_norm (BHNs.Reference.total_norm_constraint gs m) <= m.
Proof.
  intros Hm. unfold BHNs.Reference.total_norm_constraint.
  set (eps := BHNs.Reference.epsilon).
  set (norm := global_norm gs).
  set (target := clip norm 0 m).
  set (k := target / (eps + norm)).
  assert (Hnorm : 0 <= norm) by apply sqrt_pos.
  assert (Heps : 0 < eps) by (unfold eps, BHNs.Reference.epsilon; lra).
  assert (Ht : 0 <= target <= m) by (apply clip_bounds; exact Hm).
  assert (Hinv : 0 < / (eps + norm)) by (apply Rinv_0_lt_compat; lra).
  assert (Hk : 0 <= k) by (unfold k, Rdiv; nra).
  unfold global_norm at 1. rewrite sqnorm_scale.
  rewrite sqrt_mult_alt by nra. rewrite sqrt_square by exact Hk.
  fold (global_norm gs). fold norm.
  assert (Hfrac : norm * / (eps + norm) <= 1).
  { apply (Rmult_le_reg_r (eps + norm)); [lra|].
    rewrite Rmult_assoc, Rinv_l by lra. lra. }
  unfold k, Rdiv.
  replace (target * / (eps + norm) * norm)
    with (target * (norm * / (eps + norm))) by ring.
  nra.
Qed.

End TensorFacts.

(* ===================================================================== *)
(** * Properties of [MLPWeightNorm_BHN] *)
(* ===================================================================== *)

Import BHNs.

Section SliceFacts.
Open Scope Z_scope.

Lemma fold_left_Zadd (l : list Z) (a : Z) :
  fold_left Z.add l a = a + zsum l.
Proof.
  revert a; induction l as [|x l IH]; intros a; simpl; [lia|].
  rewrite IH; lia.
Qed.

Lemma zsum_nonneg (l : list Z) : Forall (fun d => 0 <= d) l -> 0 <= zsum l.
Proof. induction 1; simpl; lia. Qed.

Lemma slices_from_widths (t : Z) (ds : list Z) :
  map (fun s => snd s - fst s) (slices_from t ds) = ds.
Proof.
  revert t; induction ds as [|d ds IH]; intros t; simpl; [reflexivity|].
  rewrite IH. f_equal. lia.
Qed.

Lemma slices_from_contiguous (t : Z) (ds : list Z) :
  contiguous t (slices_from t ds).
Proof.
  revert t; induction ds as [|d ds IH]; intros t; simpl; auto.
Qed.

Lemma slices_from_bounds (ds : list Z) : forall t k s,
  Forall (fun d => 0 <= d) ds ->
  nth_error (slices_from t ds) k = Some s ->
  t <= fst s /\ fst s <= snd s /\ snd s <= t + zsum ds.
Proof.
  induction ds as [|d ds IH]; intros t k s Hpos Hk.
  - destruct k; discriminate.
  - inversion Hpos as [|? ? Hd Hds]; subst.
    pose proof (zsum_nonneg Hds) as Hz.
    destruct k as [|k]; simpl in *.
    + inversion Hk; subst; simpl. lia.
    + apply IH in Hk; auto. lia.
Qed.

Lemma slices_from_cover (ds : list Z) : forall t j,
  Forall (fun d => 0 <= d) ds ->
  t <= j < t + zsum ds ->
  exists k s, nth_error (slices_from t ds) k = Some s /\ in_slice s j.
Proof.
  induction ds as [|d ds IH]; intros t j Hpos Hj; simpl in *; [lia|].
  inversion Hpos as [|? ? Hd Hds]; subst.
  destruct (Z_lt_dec j (t + d)) as [Hlt|Hge].
  - exists 0%nat, (t, t + d). split; [reflexivity|].
    unfold in_slice; simpl; lia.
  - destruct (IH (t + d) j Hds) as (k & s & Hk & Hin); [lia|].
    exists (S k), s. auto.
Qed.

Lemma slices_from_unique (ds : list Z) : forall t j k1 k2 s1 s2,
  Forall (fun d => 0 <= d) ds ->
  nth_error (slices_from t ds) k1 = Some s1 ->
  nth_error (slices_from t ds) k2 = Some s2 ->
  in_slice s1 j -> in_slice s2 j -> k1 = k2.
Proof.
  induction ds as [|d ds IH]; intros t j k1 k2 s1 s2 Hpos H1 H2 I1 I2.
  - destruct k1; discriminate.
  - inversion Hpos as [|? ? Hd Hds]; subst. unfold in_slice in *.
    destruct k1 as [|k1], k2 as [|k2]; simpl in *.
    + reflexivity.
    + inversion H1; subst; simpl in *.
      apply slices_from_bounds in H2; auto. lia.
    + inversion H2; subst; simpl in *.
      apply slices_from_bounds in H1; auto. lia.
    + f_equal. eapply IH; eauto.
Qed.


Lemma fold_left_append {X Y} (x : X) (l : list Y) (init : list X) :
  fold_left (fun ws _ => ws ++ [x]) l init = init ++ repeat x (length l).
Proof.
  revert init; induction l as [|b l IH]; intros init; simpl.
  - now rewrite app_nil_r.
  - rewrite IH, <- app_assoc. reflexivity.
Qed.

Lemma weight_shapes_widths (cfg : config) :
  map snd (weight_shapes cfg)
  = n_units cfg :: repeat (n_units cfg) (Z.to_nat (n_hiddens cfg - 1))
      ++ [n_classes cfg].
Proof.
  unfold weight_shapes. rewrite fold_left_append.
  unfold range2. rewrite length_map, length_seq.
  rewrite !map_app. simpl. f_equal. f_equal.
  induction (Z.to_nat (n_hiddens cfg - 1)); simpl; congruence.
Qed.




End SliceFacts.

Section HyperNetFacts.
Context {L : Lasagne}.

Lemma pipeline_loop (np : Z) (cs : list Z) : forall st,
  pipeline
    (fst (fold_left (fun st _ => couple (PermuteLayer (fst st) np, snd st))
                    cs st))
  = pipeline (fst st)
      ++ concat (repeat [Permutation; Coupling] (length cs)).
Proof.
  induction cs as [|c cs IH]; intros st; simpl.
  - now rewrite app_nil_r.
  - rewrite IH. simpl. now rewrite <- !app_assoc.
Qed.

Lemma length_range (n : Z) : length (range n) = Z.to_nat n.
Proof.
  unfold range, range2. rewrite length_map, length_seq.
  now rewrite Z.sub_0_r.
Qed.

Lemma noise_supported (cfg : config) :
  noise_distribution cfg = "spherical_gaussian"
  \/ noise_distribution cfg = "exponential_MoG" ->
  exists ep, noise cfg = Some ep.
Proof.
  unfold noise. intros [H|H]; rewrite H; simpl; eauto.
Qed.

End HyperNetFacts.

Section ModelFacts.
Context {L : Lasagne}.
Open Scope R_scope.

(** The next build step of a construction that ended normally. *)
Ltac build_step H :=
  match type of H with
  | context [bind ?c _] =>
      let E := fresh "E" in
      destruct c eqn:E; simpl in H; [|discriminate]
  end.

(** A model that was built went through every build step. *)
Lemma MLPWeightNorm_BHN_ok (cfg : config) (m : BHN) :
  MLPWeightNorm_BHN cfg = Ok m ->
  exists hyper primary e,
    _get_hyper_net cfg = Ok hyper
    /\ _get_primary_net cfg (weights hyper) = Ok primary
    /\ _get_elbo {| self_logdets := logdets hyper;
                    self_weights := weights hyper;
                    self_y := y primary;
                    self_prior := prior cfg;
                    self_lbda := lbda cfg;
                    self_output_type := output_type cfg |} = Ok e
    /\ bhn_hyper m = hyper /\ bhn_primary m = primary /\ bhn_elbo m = e
    /\ predict_proba m = y primary
    /\ sample_weights m = weights hyper
    /\ perdatapoint cfg = false.
Proof.
  unfold MLPWeightNorm_BHN. intros H.
  do 5 build_step H. inversion H; subst; simpl.
  unfold _get_useful_funcs in E3.
  destruct (perdatapoint cfg); [discriminate|].
  inversion E3; subst; simpl.
  do 3 eexists. repeat split; eassumption.
Qed.

Lemma get_primary_net_categorical (cfg : config) (w : sym matrix)
    (primary : primary_net) :
  output_type cfg = "categorical" ->
  _get_primary_net cfg w = Ok primary ->
  forall i, y primary i
            = mclip (y_unclipped primary i) (1 / 1000) (999 / 1000).
Proof.
  unfold _get_primary_net. intros -> H. simpl in H.
  inversion H; subst; reflexivity.
Qed.

(** The terms of the loss that [_get_elbo] builds. *)
Lemma get_elbo_ok (self : elbo_self) (e : elbo) :
  _get_elbo self = Ok e ->
  forall i,
    logpyx e i = mean (loglik self i)
    /\ kl e i = mean (vsub (vneg (self_logdets self i)) (logprior self i))
    /\ loss e i
       = option_map (fun penalty => - (logpyx e i - penalty))
                    (fdiv (weight i * kl e i) (dataset_size i)).
Proof.
  unfold _get_elbo, loglik, logprior. intros H.
  destruct (String.eqb_spec (self_output_type self) "categorical") as [Hc|Hc].
  - simpl in H. inversion H; subst; simpl.
    intros i. rewrite mean_vneg. repeat split.
  - destruct (String.eqb_spec (self_output_type self) "real") as [Hr|Hr].
    + simpl in H. inversion H; subst; simpl.
      intros i. rewrite mean_vneg. repeat split.
    + discriminate.
Qed.

(** C1, amended. For every model state on which [Base_BHN._get_elbo]
    succeeds and all inputs, the loss is
    [-(mean(loglik) - weight * mean(-logdet - logprior) / dataset_size)]:
    the log-determinant enters with the sign of [log q(w) = -logdet]. *)
Theorem elbo_loss_formula (self : elbo_self) (e : elbo) (i : inputs) :
  _get_elbo self = Ok e ->
  loss e i = loss_with_logq self i.
Proof.
  intros H. destruct (@get_elbo_ok self e H i) as (Hl & Hk & Hloss).
  rewrite Hloss, Hl, Hk. reflexivity.
Qed.



(** C7. For a categorical model, every entry of the tensor that
    [predict_proba] returns lies in [[0.001, 0.999]], and that tensor is the
    one inside the cross-entropy term of the loss. *)
Theorem predicted_probabilities_clipped (cfg : config) (m : BHN)
    (i : inputs) :
  MLPWeightNorm_BHN cfg = Ok m ->
  output_type cfg = "categorical" ->
  Forall (Forall (fun p => 1 / 1000 <= p <= 999 / 1000)) (predict_proba m i)
  /\ logpyx (bhn_elbo m) i
     = - mean (categorical_crossentropy (predict_proba m i) (target_var i)).
Proof.
  intros Hm Hcat.
  destruct (@MLPWeightNorm_BHN_ok cfg m Hm)
    as (hyper & primary & e & _ & Hp & He & _ & _ & Hbe & Hpp & _).
  rewrite Hpp, Hbe. split.
  - rewrite (@get_primary_net_categorical cfg _ primary Hcat Hp).
    apply mclip_bounds. lra.
  - destruct (@get_elbo_ok _ e He i) as (Hl & _).
    rewrite Hl. unfold loglik. simpl. rewrite Hcat. simpl.
    apply mean_vneg.
Qed.

(** A configuration with supported values and without [perdatapoint]
    constructs. *)
Lemma supported_config_constructs (cfg : config) :
  flow cfg = "RealNVP" \/ flow cfg = "IAF" ->
  noise_distribution cfg = "spherical_gaussian"
  \/ noise_distribution cfg = "exponential_MoG" ->
  output_type cfg = "categorical" \/ output_type cfg = "real" ->
  opt cfg = "adam" \/ opt cfg = "momentum" \/ opt cfg = "sgd" ->
  perdatapoint cfg = false ->
  exists m, MLPWeightNorm_BHN cfg = Ok m.
Proof.
  intros Hflow Hnoise Hout Hopt Hper.
  destruct (noise_supported cfg Hnoise) as [ep Hep].
  unfold MLPWeightNorm_BHN, _get_hyper_net, flow_layers, _get_primary_net,
    _get_elbo, _get_grads, _get_useful_funcs.
  rewrite Hep, Hper. cbn [self_output_type].
  destruct Hflow as [-> | ->], Hout as [-> | ->], Hopt as [-> | [-> | ->]];
    cbn [String.eqb Ascii.eqb Bool.eqb bind];
    destruct (negb (coupling cfg =? 0)%Z); cbn [bind];
    eexists; reflexivity.
Qed.

(** C3. With [flow='RealNVP'], one of the two noise distributions and
    positive layer widths, [_get_hyper_net] returns normally;
    [self.weights] is the output of
    [h_net] on the noise [self.ep] and [self.logdets] the sum of the
    outputs of the log-determinant layers on it; and the stages of [h_net]
    between the noise and the weights are: for [coupling >= 1], the linear
    stage, a coupling stage, and [coupling - 1] times a permutation
    followed by a coupling stage; for [coupling == 0], the linear stage
    alone. With a supported output type and optimizer, and without
    [perdatapoint], the whole model constructs around this hypernet, and
    its [sample_weights] is that output. *)
Theorem realnvp_pipeline (cfg : config) :
  flow cfg = "RealNVP" ->
  noise_distribution cfg = "spherical_gaussian"
  \/ noise_distribution cfg = "exponential_MoG" ->
  positive_widths cfg ->
  exists hyper ep,
    _get_hyper_net cfg = Ok hyper
    /\ noise cfg = Some ep
    /\ (forall i, weights hyper i = get_output (h_net hyper) (ep i))
    /\ (forall i,
          logdets hyper i
          = py_sum (map (fun ld => get_output_logdet ld (ep i))
                        (logdets_layers hyper)))
    /\ ((1 <= coupling cfg)%Z ->
        pipeline (h_net hyper)
        = [Linear; Coupling]
            ++ concat (repeat [Permutation; Coupling]
                              (Z.to_nat (coupling cfg - 1))))
    /\ (coupling cfg = 0%Z -> pipeline (h_net hyper) = [Linear])
    /\ (perdatapoint cfg = false ->
        output_type cfg = "categorical" \/ output_type cfg = "real" ->
        opt cfg = "adam" \/ opt cfg = "momentum" \/ opt cfg = "sgd" ->
        exists m,
          MLPWeightNorm_BHN cfg = Ok m
          /\ bhn_hyper m = hyper
          /\ forall i, sample_weights m i
                       = get_output (h_net hyper) (ep i)).
Proof.
  intros Hflow Hnoise _.
  destruct (noise_supported cfg Hnoise) as [ep Hep].
  assert (Hh : exists hyper,
             _get_hyper_net cfg = Ok hyper
             /\ (forall i,
                   weights hyper i = get_output (h_net hyper) (ep i))
             /\ (forall i,
                   logdets hyper i
                   = py_sum (map (fun ld => get_output_logdet ld (ep i))
                                 (logdets_layers hyper)))
             /\ ((1 <= coupling cfg)%Z ->
                 pipeline (h_net hyper)
                 = [Linear; Coupling]
                     ++ concat (repeat [Permutation; Coupling]
                                       (Z.to_nat (coupling cfg - 1))))
             /\ (coupling cfg = 0%Z -> pipeline (h_net hyper) = [Linear])).
  { unfold _get_hyper_net, flow_layers. rewrite Hep, Hflow. simpl.
    destruct (Z.eqb_spec (coupling cfg) 0) as [Hc|Hc]; simpl.
    - eexists. split; [reflexivity|]. simpl.
      split; [reflexivity|]. split; [reflexivity|].
      split; [lia|reflexivity].
    - eexists. split; [reflexivity|]. simpl.
      split; [reflexivity|]. split; [reflexivity|].
      split; [|contradiction].
      intros _. rewrite pipeline_loop, length_range. reflexivity. }
  destruct Hh as (hyper & Hhyper & Hw & Hld & Hpos & Hzero).
  exists hyper, ep. repeat (split; [assumption|]).
  intros Hper Hout Hopt.
  destruct (supported_config_constructs cfg (or_introl Hflow) Hnoise Hout
              Hopt Hper) as [m Hm].
  exists m. split; [exact Hm|].
  destruct (@MLPWeightNorm_BHN_ok cfg m Hm)
    as (hyper' & _ & _ & Hh' & _ & _ & Hb & _ & _ & _ & Hsw & _).
  assert (Heq : hyper' = hyper) by congruence.
  rewrite Heq in Hb, Hsw.
  split; [exact Hb|]. intros i. rewrite Hsw. apply Hw.
Qed.


(** C9. For each of the three optimizers, [self.updates] is the update
    rule applied to [cgrads]: the gradients first rescaled by
    [total_norm_constraint] with [max_norm=10], so that (by the contract of
    that function) their global norm is at most 10, and then clipped
    elementwise to [[-5, 5]]. *)
Theorem gradients_rescaled_then_clipped (opt : string)
    (loss : sym floatX) (params : list shared) :
  opt = "adam" \/ opt = "momentum" \/ opt = "sgd" ->
  exists rule,
    (opt = "adam" /\ rule = adam
     \/ opt = "momentum" /\ rule = nesterov_momentum
     \/ opt = "sgd" /\ rule = sgd)
    /\ _get_grads opt loss params
       = Some (fun i =>
                 rule (cgrads (T_grad loss params i)) params
                      (learning_rate i))
    /\ forall grads,
         cgrads grads
         = map (fun g => vclip g (-5) 5) (total_norm_constraint grads 10)
         /\ ((forall gs m,
                0 <= m -> global_norm (total_norm_constraint gs m) <= m) ->
             global_norm (total_norm_constraint grads 10) <= 10)
         /\ Forall (Forall (fun x => -5 <= x <= 5)) (cgrads grads).
Proof.
  intros Hopt.
  assert (Hc : forall grads,
             cgrads grads
             = map (fun g => vclip g (-5) 5) (total_norm_constraint grads 10)
             /\ ((forall gs m,
                    0 <= m -> global_norm (total_norm_constraint gs m) <= m) ->
                 global_norm (total_norm_constraint grads 10) <= 10)
             /\ Forall (Forall (fun x => -5 <= x <= 5)) (cgrads grads)).
  { intros grads. split; [reflexivity|].
    split; [intros Hnorm; apply Hnorm; lra|].
    unfold cgrads, clip_grad. apply Forall_forall. intros g Hg.
    apply in_map_iff in Hg as (g0 & <- & _). apply vclip_bounds. lra. }
  destruct Hopt as [-> | [-> | ->]].
  - exists adam. split; [now left|]. split; [reflexivity|exact Hc].
  - exists nesterov_momentum. split; [right; now left|].
    split; [reflexivity|exact Hc].
  - exists sgd. split; [right; now right|]. split; [reflexivity|exact Hc].
Qed.

End ModelFacts.

(* ===================================================================== *)
(** * Properties of [save] and [load] *)
(* ===================================================================== *)

Section SaveLoadFacts.

Lemma length_save (params : list (ndarray R)) (notes : list pyobj) :
  length (save params notes) = (length params + length notes)%nat.
Proof. unfold save. now rewrite length_app, length_map. Qed.

Lemma length_removelast {X} (l : list X) :
  length (removelast l) = (length l - 1)%nat.
Proof.
  induction l as [|x [|y l] IH]; simpl in *; try reflexivity.
  rewrite IH. lia.
Qed.

(** A wrong number of values: [ValueError], and no parameter is set. *)
Lemma load_count_mismatch (params : list (ndarray R)) (archive : list pyobj) :
  archive <> [] ->
  length (removelast archive) <> length params ->
  load params archive
  = (params,
     Raise (ValueError
              ("mismatch: got " ++ str_of_nat (length (removelast archive))
                 ++ " values to set " ++ str_of_nat (length params)
                 ++ " parameters")%string)).
Proof.
  intros Hne Hlen. unfold load.
  destruct archive as [|first rest]; [contradiction|].
  destruct (Nat.eqb_spec (length params) (length (removelast (first :: rest))))
    as [Heq|Hneq]; [congruence|]. reflexivity.
Qed.

Lemma load_loop_shape_mismatch (params : list (ndarray R)) :
  forall (values : list pyobj) k p v,
    nth_error params k = Some p ->
    nth_error values k = Some v ->
    value_shape v <> Some (shape p) ->
    raises (snd (load_loop params values)).
Proof.
  induction params as [|p0 params IH]; intros values k p v Hp Hv Hs.
  - destruct k; discriminate.
  - destruct values as [|v0 values]; [destruct k; discriminate|].
    destruct k as [|k]; simpl in Hp, Hv.
    + inversion Hp; inversion Hv; subst. simpl.
      destruct v as [a|s]; [|eexists; reflexivity].
      unfold shape_eqb.
      destruct (list_eq_dec Nat.eq_dec (shape p) (shape a)) as [Heq|Hne];
        [|eexists; reflexivity].
      exfalso. apply Hs. simpl. now rewrite Heq.
    + simpl. destruct v0 as [a0|s]; [|eexists; reflexivity].
      destruct (shape_eqb (shape p0) (shape a0)); [|eexists; reflexivity].
      simpl. eapply IH; eauto.
Qed.

(** C8. [load] raises when the number of values left after the notes entry
    is removed differs from the number of parameters, and when the value at
    some position does not have the shape of the parameter at that
    position. On a wrong count no parameter is assigned, and the exception
    is a [ValueError] unless the archive is empty. *)
Theorem load_mismatch_raises (params : list (ndarray R))
    (archive : list pyobj) :
  length (removelast archive) <> length params
  \/ (exists k p v,
        nth_error params k = Some p
        /\ nth_error (removelast archive) k = Some v
        /\ value_shape v <> Some (shape p)) ->
  raises (snd (load params archive))
  /\ (length (removelast archive) <> length params ->
      fst (load params archive) = params
      /\ (archive <> [] ->
          exists msg, snd (load params archive) = Raise (ValueError msg))).
Proof.
  intros H.
  assert (Hcount : length (removelast archive) <> length params ->
                   fst (load params archive) = params
                   /\ (archive <> [] ->
                       exists msg,
                         snd (load params archive) = Raise (ValueError msg))).
  { intros Hlen. split.
    - destruct archive as [|first rest]; [reflexivity|].
      rewrite load_count_mismatch; [reflexivity|discriminate|exact Hlen].
    - intros Hne. rewrite load_count_mismatch by assumption.
      eexists; reflexivity. }
  split; [|exact Hcount].
  destruct archive as [|first rest]; [eexists; reflexivity|].
  destruct (Nat.eq_dec (length (removelast (first :: rest))) (length params))
    as [Heq|Hneq].
  - destruct H as [H|(k & p & v & Hp & Hv & Hs)]; [contradiction|].
    unfold load. rewrite Heq, Nat.eqb_refl. simpl negb. cbv iota.
    destruct (@load_loop_shape_mismatch params _ k p v Hp Hv Hs) as [e He].
    exists e. rewrite He. reflexivity.
  - rewrite load_count_mismatch; [eexists; reflexivity|discriminate|exact Hneq].
Qed.

(** C2, on the code. After [save] with the default empty notes, [load] into
    a model with as many parameters raises and leaves every parameter of
    that model as it was: the last saved parameter is taken for the notes,
    and one value is missing. *)
Theorem save_default_notes_then_load_raises
    (params fresh : list (ndarray R)) :
  length fresh = length params ->
  raises (snd (load fresh (save params [])))
  /\ fst (load fresh (save params [])) = fresh
  /\ (params <> [] ->
      snd (load fresh (save params []))
      = Raise (ValueError
                 ("mismatch: got " ++ str_of_nat (length params - 1)
                    ++ " values to set " ++ str_of_nat (length params)
                    ++ " parameters")%string)).
Proof.
  intros Hlen. destruct params as [|p params].
  - split; [eexists; reflexivity|]. split; [reflexivity|]. now intros [].
  - rewrite load_count_mismatch.
    + split; [eexists; reflexivity|]. split; [reflexivity|]. intros _.
      cbn [snd]. rewrite length_removelast, length_save, Hlen.
      simpl length. now rewrite Nat.add_0_r.
    + discriminate.
    + rewrite length_removelast, length_save, Hlen. simpl. lia.
Qed.

Lemma load_loop_restores (params : list (ndarray R)) :
  forall fresh,
    map shape fresh = map shape params ->
    load_loop fresh (map PyArray params) = (params, Ok tt).
Proof.
  induction params as [|p params IH]; intros [|f fresh] Hs;
    try discriminate; [reflexivity|].
  simpl in Hs. inversion Hs as [[Hf Hrest]]. simpl.
  unfold shape_eqb. rewrite Hf.
  destruct (list_eq_dec Nat.eq_dec (shape p) (shape p)); [|contradiction].
  rewrite (IH fresh Hrest). reflexivity.
Qed.

(** With exactly one notes entry the round trip does restore a model of
    the same architecture. *)
Lemma save_one_note_then_load (params fresh : list (ndarray R))
    (note : pyobj) :
  map shape fresh = map shape params ->
  load fresh (save params [note]) = (params, Ok note).
Proof.
  intros Hs. unfold load, save.
  assert (Hl : length fresh = length params).
  { rewrite <- (length_map shape fresh), Hs. apply length_map. }
  destruct (map PyArray params ++ [note]) as [|first rest] eqn:E.
  { destruct (map PyArray params); discriminate. }
  rewrite <- E, removelast_last, last_last.
  rewrite length_map, Hl, Nat.eqb_refl. simpl negb. cbv iota.
  rewrite (load_loop_restores params fresh Hs). reflexivity.
Qed.

End SaveLoadFacts.

(* ===================================================================== *)
(** * Closed examples *)
(* ===================================================================== *)

Section Examples.
Import BHNs.Reference.
Open Scope R_scope.

(** C1 as the data model states it, with [logdet - logprior] under the
    mean, fails on a one-row model whose log-determinant is 1: the loss is
    -1, the stated formula gives 1. *)
Lemma loss_as_specified_fails :
  ~ (forall (L : Lasagne) (self : elbo_self) (e : elbo) (i : inputs),
       _get_elbo self = Ok e -> loss e i = loss_as_specified self i).
Proof.
  intros H.
  specialize (H backend some_self _ some_inputs eq_refl).
  unfold loss_as_specified, loglik, logprior in H.
  cbn in H. unfold fdiv in H.
  destruct (Req_dec_T 1 0) as [H1|_]; [lra|].
  cbn in H. injection H as H.
  unfold mean, mmean, mean in H. cbn in H. lra.
Qed.



(** C10 as stated, with [len(v) == get_num_params(weight_shapes)] as its
    premise, fails when a size overflows: for one variable of shape
    [(16,) * 16] the product [16 ** 16] is 0 in [int64], so the empty
    vector has [get_num_params] entries, and [reshape] refuses the empty
    slice. *)
Lemma unpack_spec_fails_on_overflow :
  ~ (forall (weight_shapes : OrderedDict (list nat)) (v : list nat),
       NoDup (keys weight_shapes) ->
       Z.of_nat (length v) = mlp_hmc.get_num_params weight_shapes ->
       exists D, mlp_hmc.unpack v weight_shapes true = Ok D).
Proof.
  intros H.
  destruct (H mlp_hmc.overflowing_shapes []) as [D HD].
  - repeat constructor. simpl. tauto.
  - vm_compute. reflexivity.
  - vm_compute in HD. discriminate.
Qed.

End Examples.

Section Witnesses.
Import BHNs.Reference.
Open Scope R_scope.

Lemma unpack_spec_witness :
  NoDup (keys mlp_hmc.toy_weight_shapes)
  /\ mlp_hmc.array_shapes mlp_hmc.toy_weight_shapes
  /\ (Z.of_nat (length mlp_hmc.toy_vector) <= int64_max)%Z
  /\ length mlp_hmc.toy_vector
     = mlp_hmc.total_size mlp_hmc.toy_weight_shapes
  /\ mlp_hmc.get_num_params mlp_hmc.toy_weight_shapes = 7%Z
  /\ exists D,
       mlp_hmc.unpack mlp_hmc.toy_vector mlp_hmc.toy_weight_shapes false
       = Ok D
       /\ keys D = ["W_0"; "b_0"; "log_prec"]
       /\ concat (map (fun kv => data (snd kv)) D) = mlp_hmc.toy_vector.
Proof.
  assert (Hnd : NoDup (keys mlp_hmc.toy_weight_shapes)).
  { repeat constructor; simpl; intuition discriminate. }
  assert (Harr : mlp_hmc.array_shapes mlp_hmc.toy_weight_shapes).
  { repeat constructor. }
  assert (Hmax : (Z.of_nat (length mlp_hmc.toy_vector) <= int64_max)%Z).
  { unfold int64_max. simpl. lia. }
  split; [exact Hnd|]. split; [exact Harr|]. split; [exact Hmax|].
  split; [reflexivity|].
  destruct (@unpack_spec nat mlp_hmc.toy_weight_shapes mlp_hmc.toy_vector
              Hnd Harr Hmax) as [H _].
  destruct (H eq_refl) as (Hcount & Hun).
  split; [exact Hcount|].
  destruct (Hun false) as (D & HD & HK & _ & _ & HC).
  exists D. repeat split; assumption.
Defined.


Lemma realnvp_pipeline_witness :
  positive_widths (with_coupling default_config 3)
  /\ exists hyper,
    @_get_hyper_net backend (with_coupling default_config 3) = Ok hyper
    /\ pipeline (h_net hyper)
       = [Linear; Coupling; Permutation; Coupling; Permutation; Coupling]
    /\ (forall i, weights hyper i
                  = @get_output backend (h_net hyper) (srng_normal i))
    /\ exists m,
         @MLPWeightNorm_BHN backend (with_coupling default_config 3) = Ok m
         /\ bhn_hyper m = hyper.
Proof.
  assert (Hpos : positive_widths (with_coupling default_config 3)).
  { unfold positive_widths. simpl. lia. }
  split; [exact Hpos|].
  destruct (@realnvp_pipeline backend (with_coupling default_config 3)
              eq_refl (or_introl eq_refl) Hpos)
    as (hyper & ep & Hh & Hep & Hw & _ & Hp & _ & Hm).
  exists hyper. split; [exact Hh|].
  split; [apply Hp; simpl; lia|].
  split.
  - intros i. rewrite Hw. inversion Hep. reflexivity.
  - destruct (Hm eq_refl (or_introl eq_refl) (or_introl eq_refl))
      as (m & Hm1 & Hm2 & _).
    exists m. split; assumption.
Defined.

Lemma elbo_loss_formula_witness :
  exists e,
    @_get_elbo backend some_self = Ok e
    /\ loss e some_inputs = @loss_with_logq backend some_self some_inputs.
Proof.
  eexists. split; [reflexivity|].
  apply (@elbo_loss_formula backend some_self _ some_inputs). reflexivity.
Defined.


Lemma predicted_probabilities_clipped_witness :
  exists m,
    @MLPWeightNorm_BHN backend default_config = Ok m
    /\ Forall (Forall (fun p => 1 / 1000 <= p <= 999 / 1000))
              (predict_proba m some_inputs).
Proof.
  eexists. split; [reflexivity|].
  apply (proj1 (@predicted_probabilities_clipped backend default_config _
                  some_inputs eq_refl eq_refl)).
Defined.


Lemma gradients_rescaled_then_clipped_witness :
  global_norm (@BHNs.total_norm_constraint backend [[30; -40]] 10) <= 10
  /\ Forall (Forall (fun x => -5 <= x <= 5)) (@cgrads backend [[30; -40]]).
Proof.
  destruct (@gradients_rescaled_then_clipped backend "sgd"
              (fun _ => Some 0) []
              (or_intror (or_intror eq_refl)))
    as (rule & _ & _ & H).
  destruct (H [[30; -40]]) as (_ & Hn & Hc).
  split; [apply Hn; exact reference_total_norm_constraint_bound|exact Hc].
Defined.

Lemma load_mismatch_raises_witness :
  raises (snd (load fresh_params other_archive)).
Proof.
  apply (@load_mismatch_raises fresh_params other_archive).
  right. exists 0%nat. do 2 eexists.
  split; [reflexivity|]. split; [reflexivity|]. simpl. discriminate.
Defined.

Lemma save_default_notes_then_load_raises_witness :
  length fresh_params = length saved_params
  /\ raises (snd (load fresh_params (save saved_params [])))
  /\ fst (load fresh_params (save saved_params [])) = fresh_params.
Proof.
  split; [reflexivity|].
  destruct (@save_default_notes_then_load_raises saved_params fresh_params
              eq_refl) as (Hr & Hf & _).
  split; assumption.
Defined.

End Witnesses.

(* ===================================================================== *)
(** * More properties of [toy_examples/mlp_hmc.py] *)
(* ===================================================================== *)

Section UnpackMore.
Import mlp_hmc.
Context {A : Type}.
Implicit Types (v : list A) (items : OrderedDict (list nat)).

Lemma slice_prefix v (t m n : nat) :
  (t + m <= n)%nat -> slice (firstn n v) t (t + m) = slice v t (t + m).
Proof.
  intros H. unfold slice.
  rewrite skipn_firstn_comm, firstn_firstn. f_equal. lia.
Qed.

(** The layout only reads the entries of [v] that it covers. *)
Lemma layout_prefix v items : forall t n,
  (t + total_size items <= n)%nat ->
  layout (firstn n v) items t = layout v items t.
Proof.
  induction items as [|[k ws] items IH]; intros t n Hn; simpl;
    [reflexivity|].
  rewrite (@total_size_cons k ws items) in Hn.
  rewrite IH by lia. rewrite slice_prefix by lia. reflexivity.
Qed.

(** A vector that ends before the last slice does makes [reshape] fail. *)
Lemma unpack_loop_short v items : forall D t,
  array_shapes items ->
  (Z.of_nat (t + total_size items) <= int64_max)%Z ->
  (t <= length v < t + total_size items)%nat ->
  unpack_loop v items D (Z.of_nat t)
  = Raise (ValueError "total size of new array must be unchanged").
Proof.
  induction items as [|[k ws] items IH]; intros D t Harr Hmax Hlen.
  - unfold total_size in Hlen; simpl in Hlen. lia.
  - rewrite total_size_cons in Hlen, Hmax.
    apply array_shapes_cons in Harr as [Hb Harr].
    cbn [unpack_loop]. cbv zeta.
    destruct (@unpack_step A v ws t) as [Hp Hw]; [lia|].
    rewrite Hw.
    destruct (Nat.le_gt_cases (t + size ws) (length v)) as [Hle|Hgt].
    + rewrite slice_int_inside by exact Hle.
      rewrite reshape_ok; [|apply slice_length; exact Hle|exact Hb].
      cbn [bind]. apply IH; [exact Harr|lia|lia].
    + rewrite reshape_mismatch; [reflexivity| |exact Hb].
      rewrite length_slice_int_nat by lia. lia.
Qed.

(** X1. [unpack] on a vector of another length than the shapes take
    together, for shapes of arrays whose sizes add up without overflow
    (then [get_num_params] is their sum): a vector that is too short
    makes it raise [ValueError], whatever [skip_chk]; of a vector that is
    too long the default [skip_chk=True] silently unpacks the first
    [get_num_params] entries and ignores the rest, and [skip_chk=False]
    raises [AssertionError]. *)
Theorem unpack_wrong_length (weight_shapes : OrderedDict (list nat))
    (v : list A) :
  array_shapes weight_shapes ->
  (Z.of_nat (total_size weight_shapes) <= int64_max)%Z ->
  get_num_params weight_shapes = Z.of_nat (total_size weight_shapes)
  /\ ((length v < total_size weight_shapes)%nat ->
      forall skip_chk,
        unpack v weight_shapes skip_chk
        = Raise (ValueError "total size of new array must be unchanged"))
  /\ ((total_size weight_shapes < length v)%nat ->
      NoDup (keys weight_shapes) ->
      unpack v weight_shapes true
      = unpack (firstn (total_size weight_shapes) v) weight_shapes true
      /\ unpack v weight_shapes true = Ok (layout v weight_shapes 0)
      /\ unpack v weight_shapes false = Raise (AssertionError "")).
Proof.
  intros Harr Hmax.
  split; [now apply get_num_params_exact|]. split.
  - intros Hlt skip_chk. unfold unpack.
    pose proof (@unpack_loop_short v weight_shapes [] 0%nat Harr) as Hs.
    cbn [Z.of_nat Nat.add] in Hs. rewrite Hs by lia. reflexivity.
  - intros Hgt Hnd.
    assert (Hloop : unpack_loop v weight_shapes [] 0%Z
                    = Ok (layout v weight_shapes 0,
                          Z.of_nat (total_size weight_shapes))).
    { pose proof (@unpack_loop_ok A v weight_shapes [] 0%nat Hnd Harr)
        as Hl.
      cbn [Z.of_nat Nat.add app] in Hl. apply Hl; lia. }
    assert (Hkeys : keys_eqb (keys (layout v weight_shapes 0))
                             (keys weight_shapes) = true).
    { rewrite keys_layout. unfold keys_eqb.
      destruct (list_eq_dec string_dec _ _); congruence. }
    assert (Htrue : unpack v weight_shapes true
                    = Ok (layout v weight_shapes 0)).
    { unfold unpack. rewrite Hloop. simpl. now rewrite Hkeys. }
    split; [|split; [exact Htrue|]].
    + rewrite Htrue. rewrite unpack_ok_layout.
      * now rewrite layout_prefix by (simpl; lia).
      * exact Hnd.
      * exact Harr.
      * rewrite length_firstn. lia.
      * rewrite length_firstn. lia.
    + unfold unpack. rewrite Hloop. cbn [bind orb].
      destruct (Z.eqb_spec (Z.of_nat (total_size weight_shapes))
                           (Z.of_nat (length v))); [lia|reflexivity].
Qed.

End UnpackMore.

Section MlpFacts.
Import mlp_hmc mlp_hmc_net NpMore.
Open Scope R_scope.

Lemma check_returns (b : bool) (u : unit) : check b = Return u -> b = true.
Proof. destruct b; [reflexivity|discriminate]. Qed.

Lemma lookup_In {V} (D : OrderedDict V) (k : string) (x : V) :
  lookup D k = Some x -> In (k, x) D.
Proof.
  induction D as [|[k0 x0] D IH]; simpl; [discriminate|].
  destruct (String.eqb_spec k0 k) as [->|Hne].
  - intros H; inversion H; now left.
  - intros H; right; auto.
Qed.

Lemma get_n_layers_returns (V : Type) (theta_dict : OrderedDict V) (n : Z) :
  get_n_layers theta_dict = Return n
  <-> Z.of_nat (length theta_dict) = (2 * n + 1)%Z.
Proof.
  unfold get_n_layers. cbv zeta.
  set (len := Z.of_nat (length theta_dict)).
  pose proof (Z.div_mod (len - 1) 2 ltac:(lia)) as Hdm.
  pose proof (Z.mod_pos_bound (len - 1) 2 ltac:(lia)) as Hb.
  split.
  - intros H.
    destruct (Z.eqb_spec ((len - 1) mod 2) 0) as [Hr|Hr]; simpl in H;
      [|discriminate].
    inversion H; subst. lia.
  - intros Hlen.
    assert (Hr : ((len - 1) mod 2 = 0)%Z).
    { replace (len - 1)%Z with (n * 2)%Z by lia. apply Z.mod_mul. lia. }
    rewrite Hr. simpl. f_equal.
    replace (len - 1)%Z with (n * 2)%Z by lia. apply Z.div_mul. lia.
Qed.

(** X2. [get_n_layers] returns [n] exactly on the dictionaries of [2n + 1]
    entries; on a dictionary with an even number of entries, the empty one
    included, its assertion fails. *)
Theorem get_n_layers_parity (V : Type) (theta_dict : OrderedDict V) :
  (forall n, get_n_layers theta_dict = Return n
             <-> Z.of_nat (length theta_dict) = (2 * n + 1)%Z)
  /\ (Nat.even (length theta_dict) = true ->
      get_n_layers theta_dict = Throw (Builtin (AssertionError ""))).
Proof.
  split; [intros n; apply get_n_layers_returns|].
  intros Hev. apply Nat.even_spec in Hev as [k Hk].
  unfold get_n_layers. cbv zeta.
  set (len := Z.of_nat (length theta_dict)).
  assert (Hr : ((len - 1) mod 2 = 1)%Z).
  { symmetry. apply (Z.mod_unique_pos _ _ (Z.of_nat k - 1)%Z); lia. }
  rewrite Hr. reflexivity.
Qed.

(** The layers that ran looked up their weights. *)
Lemma mlp_layers_needs_keys (n_layers : Z) (theta : OrderedDict (ndarray R))
    (nns : list nat) : forall yp yp',
  mlp_layers n_layers theta nns yp = Return yp' ->
  forall nn, In nn nns ->
    lookup theta ("W_" ++ str_of_nat nn)%string <> None
    /\ lookup theta ("b_" ++ str_of_nat nn)%string <> None.
Proof.
  induction nns as [|n0 nns IH]; intros yp yp' H nn Hin; [contradiction|].
  cbn [mlp_layers] in H. unfold getitem in H.
  destruct (lookup theta ("W_" ++ str_of_nat n0)%string) as [W|] eqn:EW;
    [|discriminate].
  destruct (lookup theta ("b_" ++ str_of_nat n0)%string) as [b|] eqn:Eb;
    [|discriminate].
  cbn [obind] in H.
  destruct (dot yp W) as [d| |]; cbn [obind] in H; try discriminate.
  destruct (add_row d b) as [act| |]; cbn [obind] in H; try discriminate.
  destruct Hin as [<-|Hin].
  - rewrite EW, Eb. split; discriminate.
  - eapply IH; eauto.
Qed.

Lemma exp_arr_positive (a : ndarray R) :
  Forall (fun t => 0 < t) (data (exp_arr a)).
Proof.
  unfold exp_arr; simpl. apply Forall_forall. intros t Ht.
  apply in_map_iff in Ht as (x & <- & _). apply exp_pos.
Qed.

(** What a normal return of [mlp_pred] tells. *)
Lemma mlp_pred_inv (X : ndarray R) (theta : OrderedDict (ndarray R))
    (yp y_prec : ndarray R) :
  mlp_pred X theta = Return (yp, y_prec) ->
  exists n : nat,
    length theta = (2 * n + 1)%nat
    /\ (forall k, (k < n)%nat ->
          lookup theta ("W_" ++ str_of_nat k)%string <> None
          /\ lookup theta ("b_" ++ str_of_nat k)%string <> None)
    /\ exists log_prec,
         lookup theta "log_prec" = Some log_prec
         /\ shape log_prec = []
         /\ y_prec = exp_arr log_prec
         /\ Forall (fun t => 0 < t) (data y_prec).
Proof.
  unfold mlp_pred. intros H.
  destruct (get_n_layers theta) as [n_layers| |] eqn:En; simpl in H;
    try discriminate.
  apply get_n_layers_returns in En.
  destruct (mlp_layers n_layers theta (seq 0 (Z.to_nat n_layers)) X)
    as [yp0| |] eqn:El; simpl in H; try discriminate.
  unfold getitem in H.
  destruct (lookup theta "log_prec") as [lp|] eqn:Elp; [|discriminate].
  simpl in H.
  destruct (Nat.eqb_spec (ndim lp) 0) as [Hnd|Hnd]; simpl in H;
    [|discriminate].
  inversion H; subst. exists (Z.to_nat n_layers).
  split; [lia|]. split.
  - intros k Hk. eapply mlp_layers_needs_keys; [exact El|].
    apply in_seq. lia.
  - exists lp. split; [reflexivity|]. split.
    + unfold ndim in Hnd. now destruct (shape lp).
    + split; [reflexivity|apply exp_arr_positive].
Qed.

(** X3. When [mlp_pred] returns, the dictionary has [2n + 1] entries for
    some [n], holds [W_k] and [b_k] for every [k < n] and a 0-dimensional
    [log_prec], and the precision returned is [exp(log_prec)]: every entry
    of it is positive. *)
Theorem mlp_pred_needs_keys (X : ndarray R) (theta : OrderedDict (ndarray R))
    (yp y_prec : ndarray R) :
  mlp_pred X theta = Return (yp, y_prec) ->
  exists n : nat,
    length theta = (2 * n + 1)%nat
    /\ (forall k, (k < n)%nat ->
          In ("W_" ++ str_of_nat k)%string (keys theta)
          /\ In ("b_" ++ str_of_nat k)%string (keys theta))
    /\ exists log_prec,
         lookup theta "log_prec" = Some log_prec
         /\ shape log_prec = []
         /\ y_prec = exp_arr log_prec
         /\ Forall (fun t => 0 < t) (data y_prec).
Proof.
  intros H. destruct (mlp_pred_inv _ _ H) as (n & Hlen & Hk & Hlp).
  exists n. split; [exact Hlen|]. split; [|exact Hlp].
  intros k Hkn. destruct (Hk k Hkn) as [HW Hb]. split.
  - destruct (lookup theta ("W_" ++ str_of_nat k)%string) as [W|] eqn:E;
      [|contradiction].
    apply lookup_In in E. unfold keys. apply in_map_iff.
    eexists. split; [|exact E]. reflexivity.
  - destruct (lookup theta ("b_" ++ str_of_nat k)%string) as [b|] eqn:E;
      [|contradiction].
    apply lookup_In in E. unfold keys. apply in_map_iff.
    eexists. split; [|exact E]. reflexivity.
Qed.

Lemma length_flat_map_const {X Y} (f : X -> list Y) (l : list X) (m : nat) :
  (forall x, length (f x) = m) -> length (flat_map f l) = (length l * m)%nat.
Proof.
  intros Hf. induction l as [|x l IH]; simpl; [reflexivity|].
  rewrite length_app, Hf, IH. lia.
Qed.

Lemma dot_shapes (a b : ndarray R) (n k m : nat) :
  shape a = [n; k] -> shape b = [k; m] ->
  exists c, dot a b = Return c /\ shape c = [n; m]
            /\ length (data c) = (n * m)%nat.
Proof.
  intros Ha Hb. unfold dot. rewrite Ha, Hb, Nat.eqb_refl.
  eexists. split; [reflexivity|]. split; [reflexivity|]. simpl.
  unfold matmul. rewrite length_flat_map_const with (m := m).
  - now rewrite length_seq.
  - intros i. now rewrite length_map, length_seq.
Qed.

Lemma add_row_shapes (a b : ndarray R) (n m : nat) :
  shape a = [n; m] -> shape b = [m] ->
  exists c, add_row a b = Return c /\ shape c = [n; m]
            /\ length (data c) = (n * m)%nat.
Proof.
  intros Ha Hb. unfold add_row. rewrite Ha, Hb, Nat.eqb_refl.
  eexists. split; [reflexivity|]. split; [reflexivity|]. simpl.
  rewrite length_flat_map_const with (m := m).
  - now rewrite length_seq.
  - intros i. now rewrite length_map, length_seq.
Qed.

(** Layers [s, s + len) on an input of [d s] columns give [d (s + len)]
    columns. *)
Lemma mlp_layers_shapes (n_layers : Z) (theta : OrderedDict (ndarray R))
    (d : nat -> nat) (N : nat) : forall len s yp,
  shape yp = [N; d s] ->
  (forall k, (s <= k < s + len)%nat ->
     exists W b,
       lookup theta ("W_" ++ str_of_nat k)%string = Some W
       /\ shape W = [d k; d (S k)]
       /\ lookup theta ("b_" ++ str_of_nat k)%string = Some b
       /\ shape b = [d (S k)]) ->
  exists yp',
    mlp_layers n_layers theta (seq s len) yp = Return yp'
    /\ shape yp' = [N; d (s + len)%nat]
    /\ (len = 0%nat -> yp' = yp)
    /\ ((0 < len)%nat -> length (data yp') = (N * d (s + len)%nat)%nat).
Proof.
  induction len as [|len IH]; intros s yp Hyp Hk.
  - exists yp. simpl. rewrite Nat.add_0_r.
    split; [reflexivity|]. split; [exact Hyp|]. split; [reflexivity|lia].
  - destruct (Hk s ltac:(lia)) as (W & b & HW & HsW & Hb & Hsb).
    cbn [seq mlp_layers]. unfold getitem. rewrite HW, Hb. cbn [obind].
    destruct (dot_shapes yp W Hyp HsW) as (dd & Hd & Hsd & _).
    rewrite Hd. cbn [obind].
    destruct (add_row_shapes dd b Hsd Hsb) as (act & Hact & Hsact & Hlact).
    rewrite Hact. cbn [obind].
    set (yp1 := if (Z.of_nat s =? n_layers - 1)%Z then act
                else maximum0 act).
    assert (Hs1 : shape yp1 = [N; d (S s)]).
    { unfold yp1. destruct (Z.of_nat s =? n_layers - 1)%Z; [exact Hsact|].
      exact Hsact. }
    assert (Hl1 : length (data yp1) = (N * d (S s))%nat).
    { unfold yp1. destruct (Z.of_nat s =? n_layers - 1)%Z; [exact Hlact|].
      unfold maximum0; simpl. now rewrite length_map. }
    destruct (IH (S s) yp1 Hs1) as (yp' & Hr & Hs' & Hz & Hl').
    { intros k Hk'. apply Hk. lia. }
    exists yp'. split; [exact Hr|].
    replace (s + S len)%nat with (S s + len)%nat by lia.
    split; [exact Hs'|]. split; [lia|]. intros _.
    destruct len as [|len'].
    + rewrite (Hz eq_refl). now rewrite Nat.add_0_r.
    + apply Hl'. lia.
Qed.

(** When every layer has its two arrays and their shapes chain,
    [mlp_pred] returns. *)
Lemma mlp_pred_returns (X : ndarray R) (theta : OrderedDict (ndarray R))
    (d : nat -> nat) (N n : nat) (log_prec : ndarray R) :
  length theta = (2 * n + 1)%nat ->
  shape X = [N; d 0%nat] ->
  (forall k, (k < n)%nat ->
     exists W b,
       lookup theta ("W_" ++ str_of_nat k)%string = Some W
       /\ shape W = [d k; d (S k)]
       /\ lookup theta ("b_" ++ str_of_nat k)%string = Some b
       /\ shape b = [d (S k)]) ->
  lookup theta "log_prec" = Some log_prec ->
  shape log_prec = [] ->
  exists yp,
    mlp_pred X theta = Return (yp, exp_arr log_prec)
    /\ shape yp = [N; d n]
    /\ (n = 0%nat -> yp = X)
    /\ ((0 < n)%nat -> length (data yp) = (N * d n)%nat).
Proof.
  intros Hlen HX Hk Hlp Hslp.
  assert (Hn : get_n_layers theta = Return (Z.of_nat n)).
  { apply get_n_layers_returns. lia. }
  destruct (@mlp_layers_shapes (Z.of_nat n) theta d N n 0%nat X HX)
    as (yp & Hr & Hs & Hz & Hl).
  { intros k Hk'. apply Hk. lia. }
  exists yp. unfold mlp_pred. rewrite Hn. simpl.
  rewrite Nat2Z.id, Hr. simpl. unfold getitem. rewrite Hlp. simpl.
  unfold ndim. rewrite Hslp. simpl.
  split; [reflexivity|]. split; [exact Hs|]. split; assumption.
Qed.

(** X4. On an input of shape [(N, d0)] and a dictionary of [2n + 1] entries
    whose [W_k] has shape [(d_k, d_k+1)] and whose [b_k] has shape
    [(d_k+1,)] for every [k < n], with a 0-dimensional [log_prec],
    [mlp_pred] returns: the prediction has shape [(N, d_n)] (it is [X]
    itself when [n = 0]) and the precision is [exp(log_prec)]. *)
Theorem mlp_pred_shapes (X : ndarray R) (theta : OrderedDict (ndarray R))
    (d : nat -> nat) (N n : nat) (log_prec : ndarray R) :
  length theta = (2 * n + 1)%nat ->
  shape X = [N; d 0%nat] ->
  (forall k, (k < n)%nat ->
     exists W b,
       lookup theta ("W_" ++ str_of_nat k)%string = Some W
       /\ shape W = [d k; d (S k)]
       /\ lookup theta ("b_" ++ str_of_nat k)%string = Some b
       /\ shape b = [d (S k)]) ->
  lookup theta "log_prec" = Some log_prec ->
  shape log_prec = [] ->
  exists yp,
    mlp_pred X theta = Return (yp, exp_arr log_prec)
    /\ shape yp = [N; d n]
    /\ (n = 0%nat -> yp = X)
    /\ ((0 < n)%nat -> length (data yp) = (N * d n)%nat).
Proof.
  intros Hlen HX Hk Hlp Hslp.
  exact (@mlp_pred_returns X theta d N n log_prec Hlen HX Hk Hlp Hslp).
Qed.

End MlpFacts.

Section LikelihoodFacts.
Import mlp_hmc mlp_hmc_net NpMore.
Open Scope R_scope.

Lemma fold_left_Rplus (l : list R) (a : R) :
  fold_left Rplus l a = a + vsum l.
Proof.
  revert a; induction l as [|x l IH]; intros a; simpl; [lra|].
  rewrite IH. lra.
Qed.

Lemma vsum_app (l1 l2 : list R) : vsum (l1 ++ l2) = vsum l1 + vsum l2.
Proof. induction l1 as [|x l1 IH]; simpl; [lra|]. rewrite IH. lra. Qed.

Lemma vsum_squares_nonneg' (l : list R) : 0 <= vsum (map (fun x => x * x) l).
Proof. induction l as [|x l IH]; simpl; [lra|]. nra. Qed.

(** The standard normal log-density of every entry, summed. *)
Lemma vsum_standard_logpdf (l : list R) :
  vsum (map (fun x => norm_logpdf x 0 1) l)
  = mlp_logprior_flat_tt l - INR (length l) * ln (sqrt (2 * PI)).
Proof.
  unfold mlp_logprior_flat_tt.
  induction l as [|x l IH]; [simpl; lra|].
  cbn [map vsum fold_right length].
  change (fold_right Rplus 0 (map (fun x => norm_logpdf x 0 1) l))
    with (vsum (map (fun x => norm_logpdf x 0 1) l)).
  rewrite IH, S_INR. unfold norm_logpdf. rewrite ln_1.
  replace ((x - 0) / 1 * ((x - 0) / 1)) with (x * x) by field.
  unfold vsum. lra.
Qed.

Lemma logprior_np_concat (theta : OrderedDict (ndarray R)) :
  logprior_np theta
  = vsum (map (fun x => norm_logpdf x 0 1)
              (concat (map (fun kv => data (snd kv)) theta))).
Proof.
  unfold logprior_np, itervalues. rewrite fold_left_Rplus, Rplus_0_l.
  induction theta as [|[k th] theta IH]; simpl; [reflexivity|].
  rewrite map_app, vsum_app, <- IH. reflexivity.
Qed.

(** X5. For shapes of arrays and a flat parameter vector [v] (an array)
    of as many entries as the shapes take together, counted without
    overflow, [unpack] returns, and the numpy log-prior of the unpacked
    dictionary is the flat Theano log-prior of [v] minus the normalising
    constant [len(v) * log(sqrt(2 pi))] that the flat version leaves out;
    the flat log-prior is never positive. *)
Theorem logprior_np_vs_flat (weight_shapes : OrderedDict (list nat))
    (v : list R) :
  NoDup (keys weight_shapes) ->
  array_shapes weight_shapes ->
  (Z.of_nat (length v) <= int64_max)%Z ->
  length v = total_size weight_shapes ->
  exists theta,
    unpack v weight_shapes true = Ok theta
    /\ get_num_params weight_shapes = Z.of_nat (length v)
    /\ logprior_np theta
       = mlp_logprior_flat_tt v - INR (length v) * ln (sqrt (2 * PI))
    /\ mlp_logprior_flat_tt v <= 0.
Proof.
  intros Hnd Harr Hmax Hlen. exists (layout v weight_shapes 0).
  split; [now apply unpack_ok_layout|].
  split; [rewrite Hlen; apply get_num_params_exact; now rewrite <- Hlen|].
  split.
  - rewrite logprior_np_concat, concat_layout, <- Hlen, slice_all.
    apply vsum_standard_logpdf.
  - unfold mlp_logprior_flat_tt.
    pose proof (vsum_squares_nonneg' v). lra.
Qed.

Lemma ln_sqrt_half (x : R) : 0 < x -> ln (sqrt x) = ln x / 2.
Proof.
  intros Hx. rewrite <- (Rpower_sqrt x Hx), ln_Rpower. lra.
Qed.

(** One example: the Theano term and scipy's log-density agree. *)
Lemma loglik_term (a b t : R) :
  0 < t ->
  - 0.5 * ln (2 * PI) + 0.5 * ln t + - 0.5 * t * ((a - b) * (a - b) + 0)
  = norm_logpdf b a (sqrt (1 / t)).
Proof.
  intros Ht. unfold norm_logpdf.
  replace (1 / t) with (/ t) by (unfold Rdiv; ring).
  assert (Hit : 0 < / t) by (now apply Rinv_0_lt_compat).
  assert (Hs : 0 < sqrt (/ t)) by (now apply sqrt_lt_R0).
  assert (Hss : sqrt (/ t) * sqrt (/ t) = / t) by (apply sqrt_sqrt; lra).
  assert (H2pi : 0 < 2 * PI) by (pose proof PI_RGT_0; lra).
  rewrite (ln_sqrt_half H2pi), (ln_sqrt_half Hit), (ln_Rinv _ Ht).
  set (s := sqrt (/ t)) in *.
  assert (Hsq : (b - a) / s * ((b - a) / s) = (b - a) * (b - a) * t).
  { replace ((b - a) / s * ((b - a) / s))
      with ((b - a) * (b - a) * / (s * s)) by (field; lra).
    rewrite Hss, Rinv_inv. reflexivity. }
  rewrite Hsq. lra.
Qed.

Lemma rows_one_column (l1 l2 : list R) (t : R) : forall N,
  length l1 = N -> length l2 = N ->
  0 < t ->
  vsum (map (fun f => - 0.5 * ln (2 * PI) + 0.5 * ln t + f)
            (map (fun s => - 0.5 * t * s)
                 (map (fun row => vsum (map (fun x => x * x) row))
                      (rows N 1 (vzip Rminus l1 l2)))))
  = vsum (vzip (fun yi ypi => norm_logpdf yi ypi (sqrt (1 / t))) l2 l1).
Proof.
  revert l2. induction l1 as [|a l1 IH]; intros [|b l2] N H1 H2 Ht;
    simpl in H1, H2; subst N; try discriminate; [reflexivity|].
  injection H2 as H2.
  unfold vzip. cbn [combine map rows firstn skipn vsum fold_right fst snd].
  fold (vzip Rminus l1 l2).
  fold (vzip (fun yi ypi => norm_logpdf yi ypi (sqrt (1 / t))) l2 l1).
  fold (vsum (vzip (fun yi ypi => norm_logpdf yi ypi (sqrt (1 / t))) l2 l1)).
  rewrite <- (IH l2 (length l1) eq_refl H2 Ht).
  rewrite <- (loglik_term a b Ht). unfold vsum. lra.
Qed.

(** Every array that [unpack] stores has as many entries as its shape
    says. *)
Lemma setitem_In {V} (D : OrderedDict V) (k : string) (x : V) :
  forall k' x', In (k', x') (setitem D k x) ->
                In (k', x') D \/ x' = x.
Proof.
  induction D as [|[k0 x0] D IH]; simpl; intros k' x' Hin.
  - destruct Hin as [Heq|[]]. inversion Heq. now right.
  - destruct (String.eqb k0 k).
    + destruct Hin as [Heq|Hin]; [inversion Heq; now right|]. left; now right.
    + destruct Hin as [Heq|Hin]; [left; now left|].
      destruct (IH _ _ Hin) as [H|H]; [left; now right|now right].
Qed.

Lemma unpack_loop_sized (v : list R) (items : OrderedDict (list nat)) :
  forall D t D' t',
    (forall k x, In (k, x) D -> length (data x) = size (shape x)) ->
    unpack_loop v items D t = Ok (D', t') ->
    forall k x, In (k, x) D' -> length (data x) = size (shape x).
Proof.
  induction items as [|[k0 ws] items IH]; intros D t D' t' HD H k x Hin.
  - inversion H; subst. eauto.
  - cbn [unpack_loop] in H. cbv zeta in H.
    destruct (reshape (slice_int v t (wrap64 (t + prod ws))) ws)
      as [x0|e] eqn:E; cbn [bind] in H; [|discriminate].
    apply reshape_inv in E as (Hx & Hl & _).
    eapply IH; [|exact H|exact Hin].
    intros k1 x1 Hin1. apply setitem_In in Hin1 as [Hin1| ->]; eauto.
    subst x0. exact Hl.
Qed.

Lemma unpack_sized (v : list R) (weight_shapes : OrderedDict (list nat))
    (skip_chk : bool) (theta : OrderedDict (ndarray R)) :
  unpack v weight_shapes skip_chk = Ok theta ->
  forall k x, In (k, x) theta -> length (data x) = size (shape x).
Proof.
  unfold unpack. intros H.
  destruct (unpack_loop v weight_shapes [] 0%Z) as [[D t]|] eqn:E;
    simpl in H; [|discriminate].
  destruct (assert (skip_chk || (t =? Z.of_nat (length v))%Z)); simpl in H;
    [|discriminate].
  destruct (assert (keys_eqb (keys D) (keys weight_shapes))); simpl in H;
    [|discriminate].
  inversion H; subst.
  eapply unpack_loop_sized; [|exact E]. intros k x [].
Qed.

Lemma length_rows (m : nat) : forall n l, length (rows n m l) = n.
Proof. induction n as [|n IH]; intros l; simpl; [reflexivity|]. now rewrite IH. Qed.

(** X6. For a flat parameter vector that [unpack] turns into [theta], and
    a prediction and targets of one column ([(N, 1)], as
    [primary_net_pm] asserts), the per-example values of
    [mlp_loglik_flat_tt] sum to the value of [mlp_loglik_np] on
    [theta]. *)
Theorem loglik_flat_sums_to_np (X y : ndarray R) (v : list R)
    (weight_shapes : OrderedDict (list nat))
    (theta : OrderedDict (ndarray R)) (yp y_prec : ndarray R) (N : nat) :
  unpack v weight_shapes true = Ok theta ->
  mlp_pred X theta = Return (yp, y_prec) ->
  shape yp = [N; 1%nat] -> length (data yp) = N ->
  shape y = [N; 1%nat] -> length (data y) = N ->
  exists ll,
    mlp_loglik_flat_tt X y v weight_shapes = Return ll
    /\ length ll = N
    /\ mlp_loglik_np X y theta = Return (vsum ll).
Proof.
  intros Hun Hpred Hsyp Hlyp Hsy Hly.
  destruct (mlp_pred_inv _ _ Hpred)
    as (n & _ & _ & lp & Hlp & Hslp & Hyprec & _).
  assert (Hdata : exists s, data lp = [s]).
  { pose proof (unpack_sized _ _ _ Hun _ _ (lookup_In _ _ Hlp)) as Hl.
    rewrite Hslp in Hl. simpl in Hl.
    destruct (data lp) as [|s [|? ?]]; try discriminate. now exists s. }
  destruct Hdata as [s Hs].
  assert (Hitem : item y_prec = Return (exp s)).
  { subst y_prec. unfold item, exp_arr. simpl. now rewrite Hslp, Hs. }
  assert (Hshape : shape_eqb (shape yp) (shape y) = true).
  { rewrite Hsyp, Hsy. unfold shape_eqb.
    now destruct (list_eq_dec Nat.eq_dec [N; 1%nat] [N; 1%nat]). }
  eexists. split; [|split].
  - unfold mlp_loglik_flat_tt, mlp_pred_flat_tt. rewrite Hun. cbn [lift obind].
    rewrite Hpred. cbn [obind].
    unfold sub2. rewrite Hsyp. rewrite Hsyp in Hshape. rewrite Hshape.
    cbn [obind]. rewrite Hitem. cbn [obind].
    unfold sum_sq_axis1. cbn [shape obind]. reflexivity.
  - rewrite !length_map. apply length_rows.
  - unfold mlp_loglik_np. rewrite Hpred. cbn [obind].
    assert (Hnd : (ndim {| shape := shape y_prec;
                           data := map (fun t => sqrt (1 / t)) (data y_prec) |}
                   =? 0)%nat = true).
    { subst y_prec. unfold ndim, exp_arr. simpl. now rewrite Hslp. }
    rewrite Hnd. cbn [check assert lift obind]. rewrite Hshape.
    cbn [check assert lift obind].
    assert (Hit : item {| shape := shape y_prec;
                          data := map (fun t => sqrt (1 / t)) (data y_prec) |}
                  = Return (sqrt (1 / exp s))).
    { subst y_prec. unfold item, exp_arr. simpl. now rewrite Hslp, Hs. }
    rewrite Hit. cbn [obind shape].
    assert (Hyy : shape_eqb (shape y) (shape y) = true).
    { unfold shape_eqb. now destruct (list_eq_dec Nat.eq_dec (shape y) (shape y)). }
    rewrite Hyy. cbn [check assert lift obind data]. f_equal.
    symmetry. apply rows_one_column; auto. apply exp_pos.
Qed.

End LikelihoodFacts.

Section ProdNetFacts.
Import mlp_hmc mlp_hmc_net NpMore.
Variables (tensor model : Type).
Variable pm_Normal : string -> R -> R -> list nat -> tensor.
Variable shared_tensor : ndarray R -> tensor.
Variables (mul : tensor -> tensor -> tensor) (neg texp : tensor -> tensor).
Variable tensor_ndim : tensor -> nat.
Variable pm_observe :
  OrderedDict tensor -> tensor -> tensor -> tensor -> model.

(** The dictionaries equal to [{'a': (), 'b': ()}]. *)
Lemma is_a_b_cases (weight_shapes : OrderedDict (list nat)) :
  is_a_b weight_shapes = true ->
  weight_shapes = [("a", []); ("b", [])]
  \/ weight_shapes = [("b", []); ("a", [])].
Proof.
  unfold is_a_b. intros H. apply andb_true_iff in H as [Hlen H].
  apply Nat.eqb_eq in Hlen.
  destruct weight_shapes as [|[k1 s1] [|[k2 s2] [|? ?]]]; try discriminate.
  simpl in H.
  destruct (String.eqb_spec k1 "a") as [->|Ha1].
  - simpl in H. destruct s1; [|discriminate].
    destruct (String.eqb_spec k2 "b") as [->|Hb2]; [|discriminate].
    destruct s2; [|discriminate]. now left.
  - destruct (String.eqb_spec k2 "a") as [->|Ha2]; [|discriminate].
    destruct s2; [|discriminate].
    destruct (String.eqb_spec k1 "b") as [->|Hb1].
    + destruct s1; [|discriminate]. now right.
    + simpl in H. discriminate.
Qed.

(** X7. [prod_net_pm] with its default priors never returns a model: it
    asserts that the weight shapes are exactly [{'a': (), 'b': ()}], and
    [prod_net_pred] then looks up [theta_dict['c']], so every call that
    passes the assertions ends in [KeyError: 'c']. *)
Theorem prod_net_pm_never_returns (X_train Y_train : ndarray R)
    (weight_shapes : OrderedDict (list nat)) :
  throws (prod_net_pm pm_Normal shared_tensor mul neg texp tensor_ndim
                      pm_observe X_train Y_train weight_shapes)
  /\ (forall N D,
        shape X_train = [N; D] -> shape Y_train = [N; D] ->
        is_a_b weight_shapes = true ->
        prod_net_pm pm_Normal shared_tensor mul neg texp tensor_ndim
                    pm_observe X_train Y_train weight_shapes
        = Throw (KeyError "c")).
Proof.
  assert (Hkey : forall N D,
             shape X_train = [N; D] -> shape Y_train = [N; D] ->
             is_a_b weight_shapes = true ->
             prod_net_pm pm_Normal shared_tensor mul neg texp tensor_ndim
                         pm_observe X_train Y_train weight_shapes
             = Throw (KeyError "c")).
  { intros N D HX HY Hab. unfold prod_net_pm. rewrite HX. cbn [unpack2 obind].
    rewrite HY, Hab. unfold shape_eqb.
    destruct (list_eq_dec Nat.eq_dec [N; D] [N; D]); [|contradiction].
    cbn [check assert lift obind].
    destruct (is_a_b_cases _ Hab) as [-> | ->]; reflexivity. }
  split; [|exact Hkey].
  destruct (shape X_train) as [|N [|D [|? ?]]] eqn:HX;
    try (unfold prod_net_pm; rewrite HX; eexists; reflexivity).
  destruct (shape_eqb (shape Y_train) [N; D]) eqn:HY.
  - destruct (is_a_b weight_shapes) eqn:Hab.
    + exists (KeyError "c"). apply (Hkey N D); [reflexivity| |reflexivity].
      unfold shape_eqb in HY.
      destruct (list_eq_dec Nat.eq_dec (shape Y_train) [N; D]);
        [assumption|discriminate].
    + unfold prod_net_pm. rewrite HX. cbn [unpack2 obind].
      rewrite HY, Hab. eexists; reflexivity.
  - unfold prod_net_pm. rewrite HX. cbn [unpack2 obind]. rewrite HY.
    eexists; reflexivity.
Qed.

End ProdNetFacts.

Section SummarizeFacts.
Import mlp_hmc_net NpMore.
Open Scope R_scope.
Variable percentile : ndarray R -> list R -> ndarray R.

Lemma forallb_Rle_0 (p : list R) :
  forallb (fun x => if Rle_dec 0 x then true else false) p = true
  <-> Forall (fun x => 0 <= x) p.
Proof.
  rewrite forallb_forall, Forall_forall. split; intros H x Hx.
  - specialize (H x Hx). now destruct (Rle_dec 0 x).
  - specialize (H x Hx). now destruct (Rle_dec 0 x).
Qed.

Lemma forallb_Rle_1 (p : list R) :
  forallb (fun x => if Rle_dec x 1 then true else false) p = true
  <-> Forall (fun x => x <= 1) p.
Proof.
  rewrite forallb_forall, Forall_forall. split; intros H x Hx.
  - specialize (H x Hx). now destruct (Rle_dec x 1).
  - specialize (H x Hx). now destruct (Rle_dec x 1).
Qed.

(** X8. [summarize] returns exactly when [X] has at least two dimensions
    and every coverage in [p] lies in [[0, 1]] (otherwise an assertion
    fails). For a coverage [x] it then asks numpy for the percentiles
    [50 (1 - x)] and [50 (1 + x)]: the first in [[0, 50]], the second in
    [[50, 100]], and the two add up to 100. *)
Theorem summarize_percentiles (X : ndarray R) (p : list R) :
  ((2 <= ndim X)%nat /\ Forall (fun x => 0 <= x <= 1) p ->
   summarize percentile X p
   = Return (percentile X (map (fun q => 100 * q)
                               (map (fun x => 0.5 * (1 - x)) p)),
             percentile X (map (fun q => 100 * q)
                               (map (fun x => 0.5 * (1 + x)) p)))
   /\ Forall (fun x =>
                100 * (0.5 * (1 - x)) = 50 * (1 - x)
                /\ 100 * (0.5 * (1 + x)) = 50 * (1 + x)
                /\ 0 <= 50 * (1 - x) <= 50
                /\ 50 <= 50 * (1 + x) <= 100
                /\ 50 * (1 - x) + 50 * (1 + x) = 100) p)
  /\ (~ ((2 <= ndim X)%nat /\ Forall (fun x => 0 <= x <= 1) p) ->
      summarize percentile X p = Throw (Builtin (AssertionError ""))).
Proof.
  unfold summarize. split.
  - intros [Hnd Hp].
    assert (H0 : Forall (fun x => 0 <= x) p)
      by (eapply Forall_impl; [|exact Hp]; simpl; intros; lra).
    assert (H1 : Forall (fun x => x <= 1) p)
      by (eapply Forall_impl; [|exact Hp]; simpl; intros; lra).
    apply Nat.leb_le in Hnd. rewrite Hnd.
    apply forallb_Rle_0 in H0. apply forallb_Rle_1 in H1.
    rewrite H0, H1. split; [reflexivity|].
    eapply Forall_impl; [|exact Hp]. simpl. intros x Hx. lra.
  - intros Hnot.
    destruct (2 <=? ndim X)%nat eqn:Hnd; [|reflexivity].
    cbn [check assert lift obind].
    destruct (forallb (fun x => if Rle_dec 0 x then true else false) p)
      eqn:H0; [|reflexivity].
    destruct (forallb (fun x => if Rle_dec x 1 then true else false) p)
      eqn:H1; [|reflexivity].
    exfalso. apply Hnot. split; [now apply Nat.leb_le|].
    apply forallb_Rle_0 in H0. apply forallb_Rle_1 in H1.
    rewrite Forall_forall in *. intros x Hx.
    specialize (H0 x Hx). specialize (H1 x Hx). lra.
Qed.

End SummarizeFacts.

(* ===================================================================== *)
(** * More properties of [BHNs.py] *)
(* ===================================================================== *)

Section SaveLoadMore.

Lemma shape_eqb_refl (s : list nat) : shape_eqb s s = true.
Proof. unfold shape_eqb. now destruct (list_eq_dec Nat.eq_dec s s). Qed.

Lemma shape_eqb_neq (s1 s2 : list nat) : s1 <> s2 -> shape_eqb s1 s2 = false.
Proof.
  intros H. unfold shape_eqb.
  now destruct (list_eq_dec Nat.eq_dec s1 s2).
Qed.

Lemma load_loop_first_mismatch (good : list (ndarray R)) :
  forall (ps1 : list (ndarray R)) p ps2 bad (rest : list pyobj),
    map shape ps1 = map shape good ->
    shape p <> shape bad ->
    load_loop (ps1 ++ p :: ps2) (map PyArray good ++ PyArray bad :: rest)
    = (good ++ p :: ps2,
       Raise (ValueError
                ("mismatch: parameter has shape " ++ repr_shape (shape p)
                   ++ " but value to set has shape "
                   ++ repr_shape (shape bad))%string)).
Proof.
  induction good as [|g good IH]; intros [|q ps1] p ps2 bad rest Hs Hne;
    try discriminate.
  - simpl. now rewrite shape_eqb_neq.
  - simpl in Hs. injection Hs as Hq Hs.
    cbn [app map load_loop]. rewrite Hq, shape_eqb_refl.
    rewrite (IH ps1 p ps2 bad rest Hs Hne). reflexivity.
Qed.

(** X9. [load] is not atomic. When the count of values is right and the
    first value of another shape than its parameter is at position [k],
    [load] raises [ValueError] naming the two shapes, after it has
    overwritten the [k] parameters before that position; the parameters
    from position [k] on keep their values. *)
Theorem load_stops_at_first_mismatch
    (good ps1 ps2 : list (ndarray R)) (p bad : ndarray R)
    (rest : list pyobj) (note : pyobj) :
  map shape ps1 = map shape good ->
  shape p <> shape bad ->
  length rest = length ps2 ->
  load (ps1 ++ p :: ps2)
       (map PyArray good ++ PyArray bad :: rest ++ [note])
  = (good ++ p :: ps2,
     Raise (ValueError
              ("mismatch: parameter has shape " ++ repr_shape (shape p)
                 ++ " but value to set has shape "
                 ++ repr_shape (shape bad))%string)).
Proof.
  intros Hs Hne Hlen. unfold load.
  set (archive := map PyArray good ++ PyArray bad :: rest ++ [note]).
  assert (Hrl : removelast archive = map PyArray good ++ PyArray bad :: rest).
  { unfold archive.
    replace (map PyArray good ++ PyArray bad :: rest ++ [note])
      with ((map PyArray good ++ PyArray bad :: rest) ++ [note])
      by (now rewrite <- app_assoc).
    apply removelast_last. }
  destruct archive as [|first tl] eqn:E.
  { unfold archive in E. destruct (map PyArray good); discriminate. }
  rewrite Hrl.
  assert (Hcount : length (ps1 ++ p :: ps2)
                   = length (map PyArray good ++ PyArray bad :: rest)).
  { rewrite !length_app, length_map. simpl.
    rewrite <- (length_map shape ps1), Hs, length_map. lia. }
  rewrite Hcount, Nat.eqb_refl. cbn [negb].
  rewrite (load_loop_first_mismatch good ps1 p ps2 bad rest Hs Hne).
  reflexivity.
Qed.

(** X10. A round trip through [save] and [load] into a model of the same
    parameter shapes restores every parameter and returns the note when
    [save] was given exactly one note, and only then: with no note or with
    several, [load] raises and leaves the model as it was. *)
Theorem round_trip_needs_one_note (params fresh : list (ndarray R)) :
  map shape fresh = map shape params ->
  (forall note, load fresh (save params [note]) = (params, Ok note))
  /\ (forall notes,
        length notes <> 1%nat ->
        raises (snd (load fresh (save params notes)))
        /\ fst (load fresh (save params notes)) = fresh).
Proof.
  intros Hs. split; [intros note; now apply save_one_note_then_load|].
  intros notes Hn.
  assert (Hl : length fresh = length params).
  { rewrite <- (length_map shape fresh), Hs. apply length_map. }
  destruct (save params notes) as [|first tl] eqn:E.
  - split; [eexists|]; reflexivity.
  - rewrite <- E. rewrite load_count_mismatch.
    + split; [eexists|]; reflexivity.
    + rewrite E. discriminate.
    + rewrite length_removelast, length_save, Hl.
      assert (Hpos : (0 < length params + length notes)%nat).
      { rewrite <- length_save, E. simpl. lia. }
      lia.
Qed.

End SaveLoadMore.

Section FlowMore.
Import BHNsMore.
Context {L : Lasagne}.

Lemma stage_nodes_couple (st : layer * list layer) :
  stage_nodes (fst (couple st))
  = stage_nodes (fst st) ++ [CoupledDenseLayer (fst st) 200].
Proof. reflexivity. Qed.

(** One more permutation and coupling stage keeps the log-determinant
    layers in step with the stages. *)
Lemma logdets_loop (np : Z) (cs : list Z) : forall st,
  snd st = map (fun node => IndexLayer node 1) (stage_nodes (fst st)) ->
  let st' := fold_left
               (fun st _ => couple (PermuteLayer (fst st) np, snd st)) cs st in
  snd st' = map (fun node => IndexLayer node 1) (stage_nodes (fst st')).
Proof.
  induction cs as [|c cs IH]; intros st Hst; simpl; [exact Hst|].
  apply IH. simpl. rewrite map_app, <- Hst. reflexivity.
Qed.

Lemma count_stage_nodes (l : layer) :
  length (stage_nodes l)
  = length (filter (fun s => negb (is_permutation s)) (pipeline l)).
Proof.
  induction l; simpl; try assumption; try reflexivity;
    rewrite filter_app, !length_app; simpl; lia.
Qed.

Lemma ends_in_stage_loop (np : Z) (cs : list Z) : forall st,
  ends_in_stage (fst st) ->
  ends_in_stage
    (fst (fold_left (fun st _ => couple (PermuteLayer (fst st) np, snd st))
                    cs st)).
Proof.
  induction cs as [|c cs IH]; intros st Hst; simpl; [exact Hst|].
  apply IH. simpl. do 2 eexists. split; reflexivity.
Qed.

(** X11. In every flow that [_get_hyper_net] builds, whatever the flow kind
    and the coupling value, the list [logdets_layers] holds the
    log-determinant output [IndexLayer(layer, 1)] of each linear, coupling
    and IAF layer on the chain of [h_net], once and in the order of the
    chain, and [h_net] is the output [IndexLayer(layer, 0)] of the last of
    these layers: a permutation adds no term to the sum of
    log-determinants, and no permutation comes last. *)
Theorem logdets_collected (cfg : config) (st : layer * list layer) :
  flow_layers cfg = Ok st ->
  snd st = map (fun node => IndexLayer node 1) (stage_nodes (fst st))
  /\ length (snd st)
     = length (filter (fun s => negb (is_permutation s)) (pipeline (fst st)))
  /\ exists nodes node,
       stage_nodes (fst st) = nodes ++ [node]
       /\ fst st = IndexLayer node 0
       /\ last (snd st) (fst st) = IndexLayer node 1.
Proof.
  intros H.
  assert (Hnodes : snd st
                   = map (fun node => IndexLayer node 1)
                         (stage_nodes (fst st))
                   /\ ends_in_stage (fst st)).
  { unfold flow_layers in H.
    destruct (flow cfg =? "RealNVP").
    - destruct (negb (coupling cfg =? 0)%Z).
      + inversion H; subst. split.
        * apply logdets_loop. reflexivity.
        * apply ends_in_stage_loop. simpl.
          do 2 eexists. split; reflexivity.
      + inversion H; subst. split; [reflexivity|]. simpl.
        exists [], (LinearFlowLayer
                      (InputLayer [None; Some (num_params cfg)])).
        split; reflexivity.
    - destruct (flow cfg =? "IAF"); [|discriminate].
      inversion H; subst. split; [reflexivity|]. simpl.
      do 2 eexists. split; reflexivity. }
  destruct Hnodes as [Hs (nodes & node & Hn1 & Hn2)].
  split; [exact Hs|]. split.
  - rewrite Hs, length_map. apply count_stage_nodes.
  - exists nodes, node. split; [exact Hn1|]. split; [exact Hn2|].
    rewrite Hs, Hn1, map_app. simpl. apply last_last.
Qed.

(** X12. The flow for every flow kind and coupling value: ['IAF'] gives the
    linear stage and one IAF stage whose [L] is the coupling value; with
    ['RealNVP'] a negative coupling value is taken as true and gives the
    flow of [coupling = 1], the linear stage and one coupling stage; any
    other flow kind fails its assertion. *)
Theorem flow_of_every_kind (cfg : config) :
  (flow cfg = "IAF" ->
   exists st,
     flow_layers cfg = Ok st
     /\ pipeline (fst st) = [Linear; IAF]
     /\ exists l, fst st
                  = IndexLayer (IAFDenseLayer l 200 1 (coupling cfg) false) 0)
  /\ (flow cfg = "RealNVP" -> (coupling cfg < 0)%Z ->
      exists st,
        flow_layers cfg = Ok st
        /\ pipeline (fst st) = [Linear; Coupling]
        /\ length (snd st) = 2%nat)
  /\ (flow cfg <> "RealNVP" -> flow cfg <> "IAF" ->
      flow_layers cfg = Raise (AssertionError "")).
Proof.
  unfold flow_layers. split; [|split].
  - intros ->. simpl. eexists. split; [reflexivity|].
    split; [reflexivity|]. eexists; reflexivity.
  - intros -> Hc. simpl.
    destruct (Z.eqb_spec (coupling cfg) 0) as [H0|H0]; [lia|]. simpl.
    assert (Hr : range (coupling cfg - 1) = []).
    { unfold range, range2.
      replace (Z.to_nat (coupling cfg - 1 - 0)) with 0%nat by lia.
      reflexivity. }
    rewrite Hr. eexists. split; [reflexivity|]. split; reflexivity.
  - intros H1 H2. apply String.eqb_neq in H1, H2. now rewrite H1, H2.
Qed.

(** X13. A noise distribution other than the two known ones is not
    rejected where it is read: [self.ep] stays unset, the flow layers are
    built, and the construction then fails with an [AttributeError] on
    ['ep'] (when the flow kind is supported). *)
Theorem unknown_noise_fails_late (cfg : config) :
  noise_distribution cfg <> "spherical_gaussian" ->
  noise_distribution cfg <> "exponential_MoG" ->
  flow cfg = "RealNVP" \/ flow cfg = "IAF" ->
  (exists st, flow_layers cfg = Ok st)
  /\ MLPWeightNorm_BHN cfg
     = Raise (AttributeError
                "'MLPWeightNorm_BHN' object has no attribute 'ep'").
Proof.
  intros H1 H2 Hflow. apply String.eqb_neq in H1, H2.
  assert (Hfl : exists st, flow_layers cfg = Ok st).
  { unfold flow_layers.
    destruct Hflow as [-> | ->]; simpl;
      [destruct (negb (coupling cfg =? 0)%Z)|]; eexists; reflexivity. }
  split; [exact Hfl|]. destruct Hfl as [st Hst].
  unfold MLPWeightNorm_BHN, _get_hyper_net, noise.
  rewrite H1, H2, Hst. reflexivity.
Qed.

End FlowMore.

Section ShapesMore.
Open Scope Z_scope.

(** X14. The weight shapes of the MLP for every [n_hiddens]: an input
    layer, [n_hiddens - 1] hidden-to-hidden layers and an output layer, so
    that [n_hiddens <= 1] (zero and negative values included) gives the
    two-layer net of one hidden layer, and the flow has
    [n_units * max(1, n_hiddens) + n_classes] dimensions. *)
Theorem weight_shapes_of_n_hiddens (cfg : config) :
  weight_shapes cfg
  = (n_inputs cfg, n_units cfg)
      :: repeat (n_units cfg, n_units cfg) (Z.to_nat (n_hiddens cfg - 1))
      ++ [(n_units cfg, n_classes cfg)]
  /\ (n_hiddens cfg <= 1 ->
      weight_shapes cfg
      = [(n_inputs cfg, n_units cfg); (n_units cfg, n_classes cfg)])
  /\ num_params cfg = n_units cfg * Z.max 1 (n_hiddens cfg) + n_classes cfg.
Proof.
  assert (Hws : weight_shapes cfg
                = (n_inputs cfg, n_units cfg)
                    :: repeat (n_units cfg, n_units cfg)
                              (Z.to_nat (n_hiddens cfg - 1))
                    ++ [(n_units cfg, n_classes cfg)]).
  { unfold weight_shapes. rewrite fold_left_append.
    unfold range2. now rewrite length_map, length_seq. }
  split; [exact Hws|]. split.
  - intros Hle. rewrite Hws.
    replace (Z.to_nat (n_hiddens cfg - 1)) with 0%nat by lia. reflexivity.
  - unfold num_params. rewrite fold_left_Zadd, weight_shapes_widths.
    assert (Hrep : forall n x, zsum (repeat x n ++ [n_classes cfg])
                               = Z.of_nat n * x + n_classes cfg).
    { induction n as [|n IH]; intros x; [simpl; lia|].
      change (repeat x (S n) ++ [n_classes cfg])
        with (x :: (repeat x n ++ [n_classes cfg])).
      cbn [zsum fold_right]. fold (zsum (repeat x n ++ [n_classes cfg])).
      rewrite IH. lia. }
    cbn [zsum fold_right].
    fold (zsum (repeat (n_units cfg) (Z.to_nat (n_hiddens cfg - 1))
                  ++ [n_classes cfg])).
    rewrite Hrep. nia.
Qed.

End ShapesMore.

Section UsefulFuncs.
Context {L : Lasagne}.

(** X20. With [perdatapoint=True] an [MLPWeightNorm_BHN] does not
    construct, whatever the other arguments: when every build step before
    it has passed (supported values, positive layer widths),
    [_get_useful_funcs] raises Theano's [MissingInputError], since
    [sample_weights] is compiled without inputs and the noise has
    [input_var.shape[0]] rows. Without [perdatapoint], such a
    configuration constructs. *)
Theorem perdatapoint_never_constructs (cfg : config) :
  (perdatapoint cfg = true -> raises (MLPWeightNorm_BHN cfg))
  /\ (supported_flow cfg -> supported_noise cfg ->
      supported_output_type cfg ->
      opt cfg = "adam" \/ opt cfg = "momentum" \/ opt cfg = "sgd" ->
      positive_widths cfg ->
      (perdatapoint cfg = true ->
       MLPWeightNorm_BHN cfg = Raise (MissingInputError missing_input))
      /\ (perdatapoint cfg = false ->
          exists m, MLPWeightNorm_BHN cfg = Ok m)).
Proof.
  split.
  - intros Hper.
    destruct (MLPWeightNorm_BHN cfg) as [m|e] eqn:E; [|now exists e].
    destruct (@MLPWeightNorm_BHN_ok L cfg m E)
      as (_ & _ & _ & _ & _ & _ & _ & _ & _ & _ & _ & Hfalse).
    congruence.
  - intros Hflow Hnoise Hout Hopt _. split.
    + intros Hper.
      destruct (noise_supported cfg Hnoise) as [ep Hep].
      unfold MLPWeightNorm_BHN, _get_hyper_net, flow_layers,
        _get_primary_net, _get_elbo, _get_grads, _get_useful_funcs.
      rewrite Hep, Hper. cbn [self_output_type].
      destruct Hflow as [-> | ->], Hout as [-> | ->],
               Hopt as [-> | [-> | ->]];
        cbn [String.eqb Ascii.eqb Bool.eqb bind];
        destruct (negb (coupling cfg =? 0)%Z); cbn [bind]; reflexivity.
    + intros Hper. now apply supported_config_constructs.
Qed.

End UsefulFuncs.

(* ===================================================================== *)
(** * [MNF_MLP_BHN] *)
(* ===================================================================== *)

Section MNFFacts.
Import BHNsMore.
Open Scope Z_scope.

Lemma weight_shapes_inputs (cfg : config) :
  map fst (weight_shapes cfg)
  = n_inputs cfg :: repeat (n_units cfg) (Z.to_nat (n_hiddens cfg - 1))
      ++ [n_units cfg].
Proof.
  unfold weight_shapes. rewrite fold_left_append.
  unfold range2. rewrite length_map, length_seq.
  rewrite !map_app. simpl. f_equal. f_equal.
  induction (Z.to_nat (n_hiddens cfg - 1)); simpl; congruence.
Qed.

Lemma zsum_repeat_snoc (n : nat) (x y : Z) :
  zsum (repeat x n ++ [y]) = Z.of_nat n * x + y.
Proof.
  induction n as [|n IH]; [simpl; lia|].
  change (repeat x (S n) ++ [y]) with (x :: (repeat x n ++ [y])).
  cbn [zsum fold_right]. fold (zsum (repeat x n ++ [y])).
  rewrite IH. lia.
Qed.

Lemma slices_from_app (ds1 ds2 : list Z) : forall t,
  slices_from t (ds1 ++ ds2)
  = slices_from t ds1 ++ slices_from (t + zsum ds1) ds2.
Proof.
  induction ds1 as [|d ds1 IH]; intros t; simpl.
  - now rewrite Z.add_0_r.
  - rewrite IH. do 3 f_equal. lia.
Qed.

Lemma mnf_z_T_bs_loop (wss : list (Z * Z)) : forall st : Z * list (Z * Z),
  fold_left
    (fun st ws => (fst st + fst ws, snd st ++ [(fst st, fst st + fst ws)]))
    wss st
  = (fst st + zsum (map fst wss),
     snd st ++ slices_from (fst st) (map fst wss)).
Proof.
  induction wss as [|ws wss IH]; intros [t l]; simpl.
  - now rewrite Z.add_0_r, app_nil_r.
  - rewrite IH. simpl. rewrite <- app_assoc. f_equal. lia.
Qed.

Lemma mnf_primary_loop (cfg : config) (wss : list (Z * Z)) :
  forall st,
    let st' := fold_left (MNF_MLP_BHN.primary_step cfg) wss st in
    MNF_MLP_BHN.st_t st' = MNF_MLP_BHN.st_t st + zsum (map fst wss)
    /\ map MNF_MLP_BHN.range_of (MNF_MLP_BHN.st_z_T_fs st')
       = map MNF_MLP_BHN.range_of (MNF_MLP_BHN.st_z_T_fs st)
           ++ slices_from (MNF_MLP_BHN.st_t st) (map fst wss)
    /\ MNF_MLP_BHN.st_cs st' = MNF_MLP_BHN.st_cs st ++ map fst wss
    /\ MNF_MLP_BHN.st_b_mus st' = MNF_MLP_BHN.st_b_mus st ++ map fst wss
    /\ MNF_MLP_BHN.st_b_logsigs st'
       = MNF_MLP_BHN.st_b_logsigs st ++ map fst wss.
Proof.
  induction wss as [|ws wss IH]; intros st; simpl.
  - rewrite Z.add_0_r, !app_nil_r. repeat split; reflexivity.
  - destruct (IH (MNF_MLP_BHN.primary_step cfg st ws))
      as (Ht & Hf & Hc & Hm & Hs).
    rewrite Ht, Hf, Hc, Hm, Hs. simpl.
    rewrite map_app, <- !app_assoc. simpl.
    repeat split; try reflexivity. lia.
Qed.

(** X15. In [MNF_MLP_BHN] the flow has one dimension per input unit of
    each layer, [n_inputs + n_units * max(1, n_hiddens)] in all. The loop
    of [_get_flow_r] that splits [z_T_b] and the loop of
    [_get_primary_net] that splits [self.weights] take the same column
    ranges: of the widths [ws[0]], contiguous from 0 and ending at
    [num_params]; with non-negative widths every column lies in exactly
    one of them. The vectors [cs], [b_mus] and [b_logsigs] of a layer
    have the length of its range. *)
Theorem mnf_splits_agree (cfg : config) :
  let st := MNF_MLP_BHN.primary_layers cfg in
  let widths := map fst (weight_shapes cfg) in
  let ranges := map MNF_MLP_BHN.range_of (MNF_MLP_BHN.st_z_T_fs st) in
  ranges = snd (MNF_MLP_BHN.z_T_bs cfg)
  /\ ranges = slices_from 0 widths
  /\ contiguous 0 ranges
  /\ map (fun s => snd s - fst s) ranges = widths
  /\ MNF_MLP_BHN.st_t st = MNF_MLP_BHN.num_params cfg
  /\ fst (MNF_MLP_BHN.z_T_bs cfg) = MNF_MLP_BHN.num_params cfg
  /\ MNF_MLP_BHN.num_params cfg
     = n_inputs cfg + n_units cfg * Z.max 1 (n_hiddens cfg)
  /\ MNF_MLP_BHN.st_cs st = widths
  /\ MNF_MLP_BHN.st_b_mus st = widths
  /\ MNF_MLP_BHN.st_b_logsigs st = widths
  /\ (0 <= n_inputs cfg -> 0 <= n_units cfg ->
      forall j, 0 <= j < MNF_MLP_BHN.num_params cfg ->
        exists k s,
          nth_error ranges k = Some s /\ in_slice s j
          /\ forall k' s', nth_error ranges k' = Some s' ->
                           in_slice s' j -> k' = k).
Proof.
  intros st widths ranges.
  destruct (mnf_primary_loop cfg (weight_shapes cfg)
              {| MNF_MLP_BHN.st_t := 0;
                 MNF_MLP_BHN.st_p_net :=
                   MNF_MLP_BHN.MNFInputLayer [None; Some (n_inputs cfg)];
                 MNF_MLP_BHN.st_z_T_fs := [];
                 MNF_MLP_BHN.st_cs := [];
                 MNF_MLP_BHN.st_b_mus := [];
                 MNF_MLP_BHN.st_b_logsigs := [] |})
    as (Ht & Hf & Hc & Hm & Hs).
  fold (MNF_MLP_BHN.primary_layers cfg) in Ht, Hf, Hc, Hm, Hs.
  simpl in Ht, Hf, Hc, Hm, Hs. fold st in Ht, Hf, Hc, Hm, Hs.
  fold widths in Ht, Hf, Hc, Hm, Hs. fold ranges in Hf.
  assert (Hb : MNF_MLP_BHN.z_T_bs cfg
               = (zsum widths, slices_from 0 widths)).
  { unfold MNF_MLP_BHN.z_T_bs.
    rewrite (mnf_z_T_bs_loop (weight_shapes cfg) (0, [])). reflexivity. }
  assert (Hnp : MNF_MLP_BHN.num_params cfg = zsum widths).
  { unfold MNF_MLP_BHN.num_params. now rewrite fold_left_Zadd. }
  assert (Hsum : zsum widths
                 = n_inputs cfg + n_units cfg * Z.max 1 (n_hiddens cfg)).
  { unfold widths. rewrite weight_shapes_inputs.
    cbn [zsum fold_right].
    fold (zsum (repeat (n_units cfg) (Z.to_nat (n_hiddens cfg - 1))
                  ++ [n_units cfg])).
    rewrite zsum_repeat_snoc. nia. }
  rewrite Hb, Hnp. simpl.
  split; [exact Hf|]. split; [exact Hf|].
  split; [rewrite Hf; apply slices_from_contiguous|].
  split; [rewrite Hf; apply slices_from_widths|].
  split; [exact Ht|]. split; [reflexivity|]. split; [exact Hsum|].
  split; [exact Hc|]. split; [exact Hm|]. split; [exact Hs|].
  intros Hi Hu j Hj.
  assert (Hpos : Forall (fun d => 0 <= d) widths).
  { unfold widths. rewrite weight_shapes_inputs.
    constructor; [exact Hi|]. apply Forall_app. split.
    - apply Forall_forall. intros x Hx. apply repeat_spec in Hx. lia.
    - constructor; [exact Hu|constructor]. }
  rewrite Hf.
  destruct (@slices_from_cover widths 0 j Hpos) as (k & s & Hk & Hin);
    [lia|].
  exists k, s. split; [exact Hk|]. split; [exact Hin|].
  intros k' s' Hk' Hin'.
  exact (@slices_from_unique widths 0 j k' k s' s Hpos Hk' Hk Hin' Hin).
Qed.

(** X16. The flow [flow_r] of [_get_flow_r] has no linear stage and no
    IAF stage, whatever [self.flow] is: it is one coupling stage followed
    by [coupling - 1] times a permutation and a coupling stage (for a
    negative [coupling], the one coupling stage), and for [coupling = 0]
    it is the input layer alone with no log-determinant layer. Its
    log-determinant layers are those of its coupling layers, in order. *)
Theorem mnf_flow_r_pipeline (cfg : config) :
  let st := MNF_MLP_BHN.flow_r_layers cfg in
  pipeline (fst st)
  = (if (coupling cfg =? 0)%Z then []
     else Coupling
            :: concat (repeat [Permutation; Coupling]
                              (Z.to_nat (coupling cfg - 1))))
  /\ snd st = map (fun node => IndexLayer node 1) (stage_nodes (fst st))
  /\ length (snd st)
     = (if (coupling cfg =? 0)%Z then 0%nat
        else S (Z.to_nat (coupling cfg - 1)))
  /\ ~ In Linear (pipeline (fst st))
  /\ ~ In IAF (pipeline (fst st)).
Proof.
  intros st.
  assert (Hp : pipeline (fst st)
               = (if (coupling cfg =? 0)%Z then []
                  else Coupling
                         :: concat (repeat [Permutation; Coupling]
                                           (Z.to_nat (coupling cfg - 1))))).
  { unfold st, MNF_MLP_BHN.flow_r_layers.
    destruct (coupling cfg =? 0)%Z; simpl; [reflexivity|].
    rewrite pipeline_loop, length_range. reflexivity. }
  assert (Hs : snd st
               = map (fun node => IndexLayer node 1) (stage_nodes (fst st))).
  { unfold st, MNF_MLP_BHN.flow_r_layers.
    destruct (coupling cfg =? 0)%Z; simpl; [reflexivity|].
    apply logdets_loop. reflexivity. }
  assert (Hno : forall n s,
             In s (concat (repeat [Permutation; Coupling] n)) ->
             s = Permutation \/ s = Coupling).
  { induction n as [|n IH]; intros s Hin; simpl in Hin; [tauto|].
    destruct Hin as [<-|[<-|Hin]]; auto. }
  split; [exact Hp|]. split; [exact Hs|]. split.
  - rewrite Hs, length_map, count_stage_nodes, Hp.
    destruct (coupling cfg =? 0)%Z; [reflexivity|].
    generalize (Z.to_nat (coupling cfg - 1)). intros n.
    cbn [filter is_permutation negb length]. f_equal.
    induction n as [|n IH]; [reflexivity|].
    cbn [repeat concat app filter is_permutation negb length].
    now rewrite IH.
  - rewrite Hp. destruct (coupling cfg =? 0)%Z; simpl.
    + tauto.
    + split; intros [H|H]; try discriminate;
        apply Hno in H; destruct H; discriminate.
Qed.

End MNFFacts.

(* ===================================================================== *)
(** * [HyperWN_CNN] *)
(* ===================================================================== *)

Section CNNFacts.
Import HyperWN_CNN.
Open Scope Z_scope.

Lemma skipn_cons_inv {A} (l : list A) : forall (k : nat) c r,
  skipn k l = c :: r -> nth_error l k = Some c /\ skipn (S k) l = r.
Proof.
  induction l as [|x l IH]; intros [|k] c r H; simpl in *;
    try discriminate.
  - inversion H; subst. split; [reflexivity|]. now destruct r.
  - apply IH in H. exact H.
Qed.

Lemma skipn_nil_inv {A} (l : list A) : forall (k : nat),
  skipn k l = [] -> nth_error l k = None.
Proof.
  induction l as [|x l IH]; intros [|k] H; simpl in *;
    try discriminate; auto.
Qed.

(** The loop of [__init__] from index [k] on, when [pool_per] is not zero
    and the channel list is long enough. *)
Lemma conv_loop_returns (a : cnn_args) (channels : list Z) :
  pool_per a <> 0 ->
  forall (n k : nat) rest ic ws ags,
    skipn k channels = rest ->
    (n <= length rest)%nat ->
    exists ic' ws' ags',
      conv_loop a channels (map (fun i => 0 + Z.of_nat i) (seq k n))
                (ic, ws, ags)
      = Return (ic', ws', ags')
      /\ map out_chan ws' = map out_chan ws ++ firstn n rest
      /\ map in_chan ws' = map in_chan ws ++ firstn n (ic :: rest)
      /\ map num_filters ags' = map num_filters ags ++ firstn n rest
      /\ map pool ags'
         = map pool ags
             ++ map (fun i => (0 + Z.of_nat i + 1) mod pool_per a =? 0)
                    (seq k n)
      /\ (Forall (fun w => kernel_h w = kernel_size a
                           /\ kernel_w w = kernel_size a) ws ->
          Forall (fun w => kernel_h w = kernel_size a
                           /\ kernel_w w = kernel_size a) ws')
      /\ (Forall (fun g => filter_size g = kernel_size a
                           /\ arg_stride g = stride a
                           /\ arg_pad g = pad a) ags ->
          Forall (fun g => filter_size g = kernel_size a
                           /\ arg_stride g = stride a
                           /\ arg_pad g = pad a) ags').
Proof.
  intros Hpp. apply Z.eqb_neq in Hpp.
  induction n as [|n IH]; intros k rest ic ws ags Hrest Hn.
  - exists ic, ws, ags. simpl. rewrite !app_nil_r.
    repeat split; auto.
  - destruct rest as [|c rest]; [simpl in Hn; lia|].
    apply skipn_cons_inv in Hrest as [Hnth Hrest].
    cbn [seq map conv_loop].
    replace (Z.to_nat (0 + Z.of_nat k)) with k by lia.
    rewrite Hnth, Hpp.
    destruct (IH (S k) rest c
                 (ws ++ [mk_filter c ic (kernel_size a) (kernel_size a)])
                 (ags ++ [mk_conv_arg c (kernel_size a) (stride a) (pad a)
                            ((0 + Z.of_nat k + 1) mod pool_per a =? 0)])
                 Hrest)
      as (ic' & ws' & ags' & Hrun & Ho & Hi & Hf & Hp & Hk & Hg);
      [simpl in Hn; lia|].
    exists ic', ws', ags'. split; [exact Hrun|].
    rewrite Ho, Hi, Hf, Hp, !map_app. cbn [map out_chan in_chan num_filters
                                           pool firstn app].
    rewrite <- !app_assoc. cbn [app].
    repeat split; try reflexivity.
    + intros Hall. apply Hk. apply Forall_app. split; [exact Hall|].
      constructor; [split; reflexivity|constructor].
    + intros Hall. apply Hg. apply Forall_app. split; [exact Hall|].
      constructor; [repeat split; reflexivity|constructor].
Qed.

(** The loop stops at the first index past the end of the channel list. *)
Lemma conv_loop_short (a : cnn_args) (channels : list Z) :
  pool_per a <> 0 ->
  forall (n k : nat) rest st,
    skipn k channels = rest ->
    (length rest < n)%nat ->
    conv_loop a channels (map (fun i => 0 + Z.of_nat i) (seq k n)) st
    = Throw (Builtin (IndexError "list index out of range")).
Proof.
  intros Hpp. apply Z.eqb_neq in Hpp.
  induction n as [|n IH]; intros k rest [[ic ws] ags] Hrest Hn; [lia|].
  cbn [seq map conv_loop].
  replace (Z.to_nat (0 + Z.of_nat k)) with k by lia.
  destruct rest as [|c rest].
  - now rewrite (skipn_nil_inv _ _ Hrest).
  - apply skipn_cons_inv in Hrest as [Hnth Hrest].
    rewrite Hnth, Hpp. apply (IH (S k) rest); [exact Hrest|].
    simpl in Hn. lia.
Qed.

Lemma range_pos (n : Z) :
  1 <= n ->
  range n = 0 :: map (fun i => 0 + Z.of_nat i) (seq 1 (Z.to_nat n - 1)).
Proof.
  intros Hn. unfold range, range2. rewrite Z.sub_0_r.
  destruct (Z.to_nat n) as [|m] eqn:E; [lia|].
  simpl. now rewrite Nat.sub_0_r.
Qed.

(** What [__init__] has stored when it returns. *)
Lemma init_shapes_inv (a : cnn_args) (s : cnn_shapes) :
  init_shapes a = Return s ->
  let n := Z.to_nat (n_convlayers a) in
  let channels := channel_list a in
  (1 <= n_convlayers a /\ pool_per a <> 0 /\ (n <= length channels)%nat)
  /\ map out_chan (weight_shapes s) = firstn n channels
  /\ map in_chan (weight_shapes s) = firstn n (input_channels a :: channels)
  /\ map num_filters (args s) = firstn n channels
  /\ map pool (args s)
     = map (fun i => (i + 1) mod pool_per a =? 0) (range (n_convlayers a))
  /\ Forall (fun w => kernel_h w = kernel_size a
                      /\ kernel_w w = kernel_size a) (weight_shapes s)
  /\ Forall (fun g => filter_size g = kernel_size a
                      /\ arg_stride g = stride a
                      /\ arg_pad g = pad a) (args s)
  /\ n_kernels s
     = (if int64_array (weight_shapes s)
        then Some (wrap64 (zsum (map in_chan (weight_shapes s))))
        else None)
  /\ num_cnn_params s
     = (if int64_array (weight_shapes s)
        then Some (wrap64 (zsum (map out_chan (weight_shapes s))))
        else None)
  /\ num_mlp_params s = n_classes a + n_units a * n_mlplayers a
  /\ num_params s
     = match num_cnn_params s with
       | Some cnn =>
           if fits64 (num_mlp_params s)
           then Some (wrap64 (num_mlp_params s + cnn)) else None
       | None => None
       end.
Proof.
  intros H n channels.
  assert (Hcond : 1 <= n_convlayers a /\ pool_per a <> 0
                  /\ (n <= length channels)%nat).
  { unfold init_shapes in H. fold channels in H.
    destruct (Z_le_dec 1 (n_convlayers a)) as [Hn|Hn].
    - split; [exact Hn|].
      destruct (Z.eq_dec (pool_per a) 0) as [Hpp|Hpp].
      + exfalso. rewrite (range_pos Hn) in H. cbn [conv_loop] in H.
        apply Z.eqb_eq in Hpp.
        destruct (nth_error channels (Z.to_nat 0)); [|discriminate].
        rewrite Hpp in H. discriminate.
      + split; [exact Hpp|].
        destruct (le_dec n (length channels)) as [Hl|Hl]; [exact Hl|].
        exfalso. unfold range, range2 in H. rewrite Z.sub_0_r in H.
        rewrite (@conv_loop_short a channels Hpp (Z.to_nat (n_convlayers a))
                   0%nat channels) in H;
          [discriminate|reflexivity|fold n; lia].
    - exfalso. unfold range, range2 in H.
      replace (Z.to_nat (n_convlayers a - 0)) with 0%nat in H by lia.
      simpl in H. discriminate. }
  split; [exact Hcond|]. destruct Hcond as (Hn & Hpp & Hlen).
  unfold init_shapes in H. fold channels in H.
  unfold range, range2 in H. rewrite Z.sub_0_r in H. fold n in H.
  destruct (@conv_loop_returns a channels Hpp n 0%nat channels
              (input_channels a) [] [] eq_refl Hlen)
    as (ic' & ws' & ags' & Hrun & Ho & Hi & Hf & Hp & Hk & Hg).
  rewrite Hrun in H. cbn [obind] in H.
  destruct ws' as [|ws0 ws']; [discriminate|].
  inversion H; subst s; clear H. cbn [weight_shapes args n_kernels
    num_cnn_params num_mlp_params num_params].
  unfold sum64. rewrite !fold_left_Zadd, !Z.add_0_l.
  unfold range, range2. rewrite Z.sub_0_r. fold n.
  repeat split; auto.
  rewrite Hp. simpl. rewrite map_map. reflexivity.
Qed.

Lemma fits64_spec (z : Z) :
  fits64 z = true <-> - 9223372036854775808 <= z <= int64_max.
Proof.
  unfold fits64. rewrite andb_true_iff, !Z.leb_le. reflexivity.
Qed.

(** X17. [HyperWN_CNN.__init__] stores its shapes exactly when there is a
    convolution layer, [pool_per] is not zero and a list given as
    [n_channels] has an entry for each layer. Otherwise it raises: an
    [IndexError] of numpy for [n_convlayers <= 0], where the array of no
    weight shapes is indexed with two indices; a [ZeroDivisionError] for
    [pool_per = 0]; an [IndexError] for a list [n_channels] that is too
    short, raised before the [ZeroDivisionError] when the list is empty. *)
Theorem cnn_init_returns_iff (a : cnn_args) :
  let n := Z.to_nat (n_convlayers a) in
  ((exists s, init_shapes a = Return s)
   <-> 1 <= n_convlayers a /\ pool_per a <> 0
       /\ (n <= length (channel_list a))%nat)
  /\ (n_convlayers a <= 0 ->
      exists msg, init_shapes a = Throw (Builtin (IndexError msg)))
  /\ (1 <= n_convlayers a -> channel_list a <> [] -> pool_per a = 0 ->
      init_shapes a
      = Throw (ZeroDivisionError "integer division or modulo by zero"))
  /\ (1 <= n_convlayers a ->
      (length (channel_list a) < n)%nat ->
      pool_per a <> 0 \/ channel_list a = [] ->
      init_shapes a
      = Throw (Builtin (IndexError "list index out of range"))).
Proof.
  intros n. split; [split|split; [|split]].
  - intros [s Hs]. apply (@init_shapes_inv a s Hs).
  - intros (Hn & Hpp & Hlen). unfold init_shapes.
    unfold range, range2. rewrite Z.sub_0_r. fold n.
    destruct (@conv_loop_returns a (channel_list a) Hpp n 0%nat
                (channel_list a) (input_channels a) [] [] eq_refl Hlen)
      as (ic' & ws' & ags' & Hrun & Ho & _).
    rewrite Hrun. cbn [obind].
    destruct ws' as [|ws0 ws'].
    + exfalso. simpl in Ho.
      destruct (channel_list a) as [|c cl]; [simpl in Hlen; lia|].
      destruct n as [|n'] eqn:E; [lia|]. discriminate.
    + eexists; reflexivity.
  - intros Hn. unfold init_shapes, range, range2.
    replace (Z.to_nat (n_convlayers a - 0)) with 0%nat by lia.
    simpl. eexists; reflexivity.
  - intros Hn Hcl Hpp. unfold init_shapes. rewrite (range_pos Hn).
    cbn [conv_loop]. destruct (channel_list a) as [|c cl]; [congruence|].
    simpl. apply Z.eqb_eq in Hpp. rewrite Hpp. reflexivity.
  - intros Hn Hlen [Hpp|Hnil].
    + unfold init_shapes, range, range2. rewrite Z.sub_0_r.
      rewrite (@conv_loop_short a (channel_list a) Hpp
                 (Z.to_nat (n_convlayers a)) 0%nat (channel_list a));
        [reflexivity|reflexivity|exact Hlen].
    + unfold init_shapes. rewrite (range_pos Hn), Hnil. reflexivity.
Qed.

(** X18. The shapes that [HyperWN_CNN.__init__] stores: one filter shape
    and one argument tuple per convolution layer; the output channels are
    the first [n_convlayers] entries of the channel list, the input
    channels of the first layer are [input_channels] and those of every
    later layer are the output channels of the layer before it; each
    layer is followed by a max-pooling exactly when its 1-based index is
    a multiple of [pool_per]. When every entry of the filter shapes is
    an [int64] value, [n_kernels] is the sum of the input channels and
    [num_cnn_params] the sum of the output channels, both wrapped around
    in [int64]; when [n_units * n_mlplayers + n_classes] is one too,
    [num_params] is the sum of the output channels plus it, wrapped
    around, which is the sum itself when that is an [int64] value. *)
Theorem cnn_init_shapes (a : cnn_args) (s : cnn_shapes) :
  init_shapes a = Return s ->
  let n := Z.to_nat (n_convlayers a) in
  let channels := channel_list a in
  length (weight_shapes s) = n
  /\ length (args s) = n
  /\ map out_chan (weight_shapes s) = firstn n channels
  /\ map in_chan (weight_shapes s) = firstn n (input_channels a :: channels)
  /\ map num_filters (args s) = map out_chan (weight_shapes s)
  /\ map pool (args s)
     = map (fun i => (i + 1) mod pool_per a =? 0) (range (n_convlayers a))
  /\ Forall (fun w => kernel_h w = kernel_size a
                      /\ kernel_w w = kernel_size a) (weight_shapes s)
  /\ Forall (fun g => filter_size g = kernel_size a
                      /\ arg_stride g = stride a
                      /\ arg_pad g = pad a) (args s)
  /\ (int64_array (weight_shapes s) = true ->
      n_kernels s
      = Some (wrap64 (zsum (firstn n (input_channels a :: channels))))
      /\ num_cnn_params s = Some (wrap64 (zsum (firstn n channels))))
  /\ (int64_array (weight_shapes s) = true ->
      fits64 (n_classes a + n_units a * n_mlplayers a) = true ->
      num_params s
      = Some (wrap64 (zsum (firstn n channels)
                      + n_units a * n_mlplayers a + n_classes a)))
  /\ (int64_array (weight_shapes s) = true ->
      fits64 (n_classes a + n_units a * n_mlplayers a) = true ->
      fits64 (zsum (firstn n channels)
              + n_units a * n_mlplayers a + n_classes a) = true ->
      num_params s
      = Some (zsum (firstn n channels)
              + n_units a * n_mlplayers a + n_classes a)).
Proof.
  intros H n channels.
  destruct (@init_shapes_inv a s H)
    as ((Hn & Hpp & Hlen) & Ho & Hi & Hf & Hp & Hk & Hg & Hnk & Hnc & Hnm
        & Hnp).
  fold n in Hlen, Ho, Hi, Hf. fold channels in Hlen, Ho, Hi, Hf.
  assert (Hl1 : length (weight_shapes s) = n).
  { rewrite <- (length_map out_chan), Ho, length_firstn. lia. }
  assert (Hl2 : length (args s) = n).
  { rewrite <- (length_map num_filters), Hf, length_firstn. lia. }
  assert (Hwrapped : int64_array (weight_shapes s) = true ->
                     fits64 (n_classes a + n_units a * n_mlplayers a) = true ->
                     num_params s
                     = Some (wrap64 (zsum (firstn n channels)
                                     + n_units a * n_mlplayers a
                                     + n_classes a))).
  { intros Harr Hmlp. rewrite Hnp, Hnc, Harr, Hnm, Hmlp, Ho.
    rewrite wrap64_add_r. do 2 f_equal. lia. }
  split; [exact Hl1|]. split; [exact Hl2|]. split; [exact Ho|].
  split; [exact Hi|]. split; [congruence|]. split; [exact Hp|].
  split; [exact Hk|]. split; [exact Hg|].
  split; [|split; [exact Hwrapped|]].
  - intros Harr. split.
    + rewrite Hnk, Harr, Hi. reflexivity.
    + rewrite Hnc, Harr, Ho. reflexivity.
  - intros Harr Hmlp Hfit. rewrite (Hwrapped Harr Hmlp). f_equal.
    apply wrap64_small. now apply fits64_spec.
Qed.

Lemma conv_steps (wss : list filter_shape) : forall (ags : list conv_arg) st,
  map num_filters ags = map out_chan wss ->
  let st' := fold_left conv_step (combine wss ags) st in
  fst st' = fst st + zsum (map out_chan wss)
  /\ weights_of (snd st')
     = weights_of (snd st)
         ++ map (fun r => FirstRow (fst r) (snd r))
                (slices_from (fst st) (map out_chan wss)).
Proof.
  induction wss as [|ws wss IH]; intros [|g ags] st Hf; simpl in *;
    try discriminate.
  - rewrite Z.add_0_r, app_nil_r. split; reflexivity.
  - injection Hf as Hg Hf.
    destruct (IH ags (conv_step st (ws, g)) Hf) as [Ht Hw].
    assert (Hfst : fst (conv_step st (ws, g)) = fst st + out_chan ws).
    { unfold conv_step. cbn [fst snd]. now rewrite Hg. }
    assert (Hsnd : weights_of (snd (conv_step st (ws, g)))
                   = weights_of (snd st)
                       ++ [FirstRow (fst st) (fst st + out_chan ws)]).
    { unfold conv_step. cbn [fst snd]. now destruct (pool g). }
    rewrite Ht, Hw, Hfst, Hsnd, <- app_assoc. split; [lia|reflexivity].
Qed.

Lemma mlp_steps (a : cnn_args) (layers : list Z) : forall st,
  let st' := fold_left (mlp_step a) layers st in
  let widths := repeat (n_units a) (length layers) in
  fst st' = fst st + zsum widths
  /\ weights_of (snd st')
     = weights_of (snd st)
         ++ map (fun r => AllRows (fst r) (snd r) (wd1 a, n_units a))
                (slices_from (fst st) widths).
Proof.
  induction layers as [|l layers IH]; intros st; simpl.
  - rewrite Z.add_0_r, app_nil_r. split; reflexivity.
  - destruct (IH (mlp_step a st l)) as [Ht Hw].
    rewrite Ht, Hw. simpl. rewrite <- app_assoc. split; [lia|reflexivity].
Qed.

Lemma map_pair_id {A B} (l : list (A * B)) :
  map (fun r => (fst r, snd r)) l = l.
Proof.
  induction l as [|[x y] l IH]; simpl; [reflexivity|]. now rewrite IH.
Qed.

Lemma map_const_slices {B} (b : B) (ds : list Z) : forall t,
  map (fun _ => b) (slices_from t ds) = repeat b (length ds).
Proof.
  induction ds as [|d ds IH]; intros t; simpl; [reflexivity|].
  now rewrite IH.
Qed.

Lemma zsum_app (l1 l2 : list Z) : zsum (l1 ++ l2) = zsum l1 + zsum l2.
Proof. induction l1 as [|x l1 IH]; simpl; [reflexivity|]. rewrite IH. lia. Qed.

Lemma zsum_repeat (x : Z) (n : nat) : zsum (repeat x n) = Z.of_nat n * x.
Proof. induction n as [|n IH]; [reflexivity|]. simpl repeat. simpl zsum.
  fold (zsum (repeat x n)). rewrite IH. lia. Qed.

(** X19. The column ranges that [HyperWN_CNN._get_primary_net] takes from
    [self.weights], for shapes stored by [__init__]: one range per
    convolution layer, of the width of its output channels, then one of
    width [n_units] per hidden dense layer and one of width [n_classes];
    they are contiguous from 0. A convolution layer always takes its range
    from row 0 of [self.weights], the dense layers take all rows. The
    last range stops at the sum [t] of the widths, and with non-negative
    widths every column of [[0, t)] lies in exactly one range. When the
    counts of [__init__] are [int64] values that do not wrap around, [t]
    is [num_params] for [n_mlplayers >= 0]; for a negative [n_mlplayers]
    and [n_units <> 0] it is not. *)
Theorem cnn_weight_slices (a : cnn_args) (s : cnn_shapes) :
  init_shapes a = Return s ->
  let net := snd (primary_layers a s) in
  let t := fst (primary_layers a s) in
  let widths := map out_chan (weight_shapes s)
                  ++ repeat (n_units a) (Z.to_nat (n_mlplayers a))
                  ++ [n_classes a] in
  let ranges := map range_of (weights_of net) in
  ranges = slices_from 0 widths
  /\ contiguous 0 ranges
  /\ map is_first_row (weights_of net)
     = repeat true (Z.to_nat (n_convlayers a))
         ++ repeat false (S (Z.to_nat (n_mlplayers a)))
  /\ t = zsum widths
  /\ t = zsum (map out_chan (weight_shapes s))
         + n_units a * Z.max 0 (n_mlplayers a) + n_classes a
  /\ (int64_array (weight_shapes s) = true ->
      fits64 (num_mlp_params s) = true ->
      fits64 (num_mlp_params s + zsum (map out_chan (weight_shapes s)))
      = true ->
      (0 <= n_mlplayers a -> num_params s = Some t)
      /\ (n_mlplayers a < 0 -> n_units a <> 0 -> num_params s <> Some t))
  /\ (0 <= n_units a -> 0 <= n_classes a ->
      Forall (fun c => 0 <= c) (channel_list a) ->
      forall j, 0 <= j < t ->
        exists k r,
          nth_error ranges k = Some r /\ in_slice r j
          /\ forall k' r', nth_error ranges k' = Some r' ->
                           in_slice r' j -> k' = k).
Proof.
  intros H net t widths ranges.
  destruct (@init_shapes_inv a s H)
    as ((Hn & Hpp & Hlen) & Ho & Hi & Hf & Hp & Hk & Hg & Hnk & Hnc & Hnm
        & Hnp).
  assert (Hfo : map num_filters (args s) = map out_chan (weight_shapes s))
    by congruence.
  assert (Hl1 : length (weight_shapes s) = Z.to_nat (n_convlayers a)).
  { rewrite <- (length_map out_chan), Ho, length_firstn. lia. }
  set (st0 := (0, InputLayer (None :: map (@Some Z) (input_shape a)))).
  destruct (@conv_steps (weight_shapes s) (args s) st0 Hfo) as [Ht1 Hw1].
  set (st1 := fold_left conv_step (combine (weight_shapes s) (args s)) st0)
    in Ht1, Hw1.
  destruct (mlp_steps a (range (n_mlplayers a)) st1) as [Ht2 Hw2].
  set (st2 := fold_left (mlp_step a) (range (n_mlplayers a)) st1)
    in Ht2, Hw2.
  rewrite length_range in Ht2, Hw2.
  assert (Hweights : weights_of net
                     = weights_of (snd st2)
                         ++ [AllRows (fst st2) (fst st2 + n_classes a)
                                     (wd1 a, n_classes a)])
    by reflexivity.
  assert (Ht : t = fst st2 + n_classes a) by reflexivity.
  simpl in Ht1, Hw1. rewrite Ht1 in Ht2, Hw2. rewrite Hw1 in Hw2.
  assert (Hranges : ranges = slices_from 0 widths).
  { unfold ranges, widths. rewrite Hweights, Hw2, Ht2.
    rewrite !map_app, !map_map. cbn [range_of map fst snd].
    rewrite !map_pair_id, !slices_from_app. simpl.
    rewrite zsum_repeat, <- app_assoc. reflexivity. }
  assert (Hsum : t = zsum (map out_chan (weight_shapes s))
                     + n_units a * Z.max 0 (n_mlplayers a) + n_classes a).
  { rewrite Ht, Ht2, zsum_repeat.
    replace (Z.of_nat (Z.to_nat (n_mlplayers a)))
      with (Z.max 0 (n_mlplayers a)) by lia.
    lia. }
  assert (Hz : zsum widths = t).
  { unfold widths. rewrite !zsum_app, zsum_repeat. simpl.
    rewrite Hsum. lia. }
  split; [exact Hranges|].
  split; [rewrite Hranges; apply slices_from_contiguous|].
  split.
  { rewrite Hweights, Hw2, !map_app, !map_map. cbn [is_first_row map].
    rewrite <- Hl1.
    replace (repeat false (S (Z.to_nat (n_mlplayers a))))
      with (repeat false (Z.to_nat (n_mlplayers a)) ++ [false])
      by (now rewrite <- repeat_cons).
    rewrite !map_const_slices, length_map, repeat_length, <- app_assoc.
    reflexivity. }
  split; [now rewrite Hz|]. split; [exact Hsum|].
  split.
  { intros Harr Hmlp Hfit.
    assert (Hnum : num_params s
                   = Some (num_mlp_params s
                           + zsum (map out_chan (weight_shapes s)))).
    { rewrite Hnp, Hnc, Harr, Hmlp, wrap64_add_r. f_equal.
      apply wrap64_small. now apply fits64_spec. }
    rewrite Hnum, Hnm, Hsum. split.
    - intros Hm. rewrite Z.max_r by lia. f_equal. lia.
    - intros Hm Hu Heq. injection Heq as Heq.
      rewrite Z.max_l in Heq by lia. nia. }
  intros Hu Hc Hch j Hj.
  assert (Hpos : Forall (fun d => 0 <= d) widths).
  { unfold widths. apply Forall_app. split; [|apply Forall_app; split].
    - rewrite Ho. apply Forall_forall. intros x Hx.
      apply (proj1 (Forall_forall _ _) Hch).
      rewrite <- (firstn_skipn (Z.to_nat (n_convlayers a)) (channel_list a)).
      apply in_or_app. now left.
    - apply Forall_forall. intros x Hx. apply repeat_spec in Hx. lia.
    - constructor; [exact Hc|constructor]. }
  rewrite Hranges.
  destruct (@slices_from_cover widths 0 j Hpos) as (k & r & Hkr & Hin);
    [lia|].
  exists k, r. split; [exact Hkr|]. split; [exact Hin|].
  intros k' r' Hk' Hin'.
  exact (@slices_from_unique widths 0 j k' k r' r Hpos Hk' Hkr Hin' Hin).
Qed.

End CNNFacts.

(* ===================================================================== *)
(** * The further properties on concrete inputs *)
(* ===================================================================== *)

Section MoreWitnesses.
Import BHNs.Reference Examples.
Import mlp_hmc mlp_hmc_net NpMore.
Open Scope R_scope.

Lemma toy_array_shapes : array_shapes toy_weight_shapes.
Proof. repeat constructor. Qed.

Lemma toy_total_size :
  (Z.of_nat (total_size toy_weight_shapes) <= int64_max)%Z.
Proof. unfold int64_max. simpl. lia. Qed.

Lemma unpack_wrong_length_witness :
  array_shapes toy_weight_shapes
  /\ (Z.of_nat (total_size toy_weight_shapes) <= int64_max)%Z
  /\ (length short_vector < total_size toy_weight_shapes)%nat
  /\ (total_size toy_weight_shapes < length long_vector)%nat
  /\ get_num_params toy_weight_shapes = 7%Z
  /\ unpack short_vector toy_weight_shapes true
     = Raise (ValueError "total size of new array must be unchanged")
  /\ unpack long_vector toy_weight_shapes true
     = Ok (layout long_vector toy_weight_shapes 0)
  /\ unpack long_vector toy_weight_shapes false = Raise (AssertionError "").
Proof.
  assert (Hs : (length short_vector < total_size toy_weight_shapes)%nat)
    by (vm_compute; lia).
  assert (Hl : (total_size toy_weight_shapes < length long_vector)%nat)
    by (vm_compute; lia).
  assert (Hnd : NoDup (keys toy_weight_shapes)).
  { repeat constructor; simpl; intuition discriminate. }
  split; [exact toy_array_shapes|]. split; [exact toy_total_size|].
  split; [exact Hs|]. split; [exact Hl|].
  destruct (@unpack_wrong_length nat toy_weight_shapes short_vector
              toy_array_shapes toy_total_size) as (Hcount & Hshort & _).
  destruct (@unpack_wrong_length nat toy_weight_shapes long_vector
              toy_array_shapes toy_total_size) as (_ & _ & Hlong).
  split; [exact Hcount|]. split; [exact (Hshort Hs true)|].
  destruct (Hlong Hl Hnd) as (_ & Hok & Hraise).
  split; [exact Hok|exact Hraise].
Defined.

Lemma get_n_layers_parity_witness :
  get_n_layers toy_weight_shapes = Return 1%Z
  /\ get_n_layers a_b_shapes = Throw (Builtin (AssertionError "")).
Proof.
  split.
  - apply (proj1 (@get_n_layers_parity (list nat) toy_weight_shapes)).
    reflexivity.
  - apply (proj2 (@get_n_layers_parity (list nat) a_b_shapes)).
    reflexivity.
Defined.

(** The example net has what [mlp_pred_returns] asks for. *)
Lemma net_layers :
  forall k, (k < 1)%nat ->
    exists W b,
      lookup (layout net_vector net_shapes 0) ("W_" ++ str_of_nat k)%string
      = Some W
      /\ shape W = [net_widths k; net_widths (S k)]
      /\ lookup (layout net_vector net_shapes 0)
                ("b_" ++ str_of_nat k)%string = Some b
      /\ shape b = [net_widths (S k)].
Proof.
  intros k Hk. assert (k = 0%nat) as -> by lia.
  do 2 eexists. repeat split; reflexivity.
Qed.

Lemma net_pred :
  exists yp,
    mlp_pred batch_X (layout net_vector net_shapes 0)
    = Return (yp, exp_arr {| shape := []; data := [0] |})
    /\ shape yp = [2; 1]%nat
    /\ length (data yp) = 2%nat.
Proof.
  destruct (@mlp_pred_returns batch_X (layout net_vector net_shapes 0)
              net_widths 2 1 {| shape := []; data := [0] |}
              eq_refl eq_refl net_layers eq_refl eq_refl)
    as (yp & Hr & Hs & _ & Hl).
  exists yp. split; [exact Hr|]. split; [exact Hs|]. apply Hl. lia.
Qed.

Lemma mlp_pred_needs_keys_witness :
  exists yp y_prec,
    mlp_pred batch_X (layout net_vector net_shapes 0) = Return (yp, y_prec)
    /\ In "W_0" (keys (layout net_vector net_shapes 0))
    /\ In "b_0" (keys (layout net_vector net_shapes 0))
    /\ Forall (fun t => 0 < t) (data y_prec).
Proof.
  destruct net_pred as (yp & Hr & _).
  exists yp, (exp_arr {| shape := []; data := [0] |}).
  split; [exact Hr|].
  destruct (@mlp_pred_needs_keys batch_X (layout net_vector net_shapes 0)
              yp _ Hr) as (n & Hn & Hkeys & lp & _ & _ & Hy & Hpos).
  assert (n = 1%nat) as -> by (simpl in Hn; lia).
  destruct (Hkeys 0%nat ltac:(lia)) as [HW Hb].
  split; [exact HW|]. split; [exact Hb|exact Hpos].
Defined.

Lemma mlp_pred_shapes_witness :
  exists yp,
    mlp_pred batch_X (layout net_vector net_shapes 0)
    = Return (yp, exp_arr {| shape := []; data := [0] |})
    /\ shape yp = [2; 1]%nat.
Proof.
  destruct (@mlp_pred_shapes batch_X (layout net_vector net_shapes 0)
              net_widths 2 1 {| shape := []; data := [0] |}
              eq_refl eq_refl net_layers eq_refl eq_refl)
    as (yp & Hr & Hs & _).
  exists yp. split; [exact Hr|exact Hs].
Defined.

Lemma net_shapes_NoDup : NoDup (keys net_shapes).
Proof. repeat constructor; simpl; intuition discriminate. Qed.

Lemma net_array_shapes : array_shapes net_shapes.
Proof. repeat constructor. Qed.

Lemma net_vector_array : (Z.of_nat (length net_vector) <= int64_max)%Z.
Proof. unfold int64_max. simpl. lia. Qed.

Lemma logprior_np_vs_flat_witness :
  exists theta,
    unpack net_vector net_shapes true = Ok theta
    /\ logprior_np theta
       = mlp_logprior_flat_tt net_vector - 4 * ln (sqrt (2 * PI)).
Proof.
  destruct (@logprior_np_vs_flat net_shapes net_vector net_shapes_NoDup
              net_array_shapes net_vector_array eq_refl)
    as (theta & Hu & _ & Hp & _).
  exists theta. split; [exact Hu|]. rewrite Hp. simpl. f_equal. lra.
Defined.

Lemma loglik_flat_sums_to_np_witness :
  exists theta ll,
    unpack net_vector net_shapes true = Ok theta
    /\ mlp_loglik_flat_tt batch_X batch_y net_vector net_shapes = Return ll
    /\ length ll = 2%nat
    /\ mlp_loglik_np batch_X batch_y theta = Return (vsum ll).
Proof.
  destruct net_pred as (yp & Hr & Hs & Hl).
  pose proof (@unpack_ok_layout R net_vector net_shapes true
                net_shapes_NoDup net_array_shapes net_vector_array eq_refl)
    as Hu.
  destruct (@loglik_flat_sums_to_np batch_X batch_y net_vector net_shapes
              (layout net_vector net_shapes 0) yp
              (exp_arr {| shape := []; data := [0] |}) 2
              Hu Hr Hs Hl eq_refl eq_refl) as (ll & Hll & Hlen & Hnp).
  exists (layout net_vector net_shapes 0), ll.
  repeat split; assumption.
Defined.

Lemma prod_net_pm_never_returns_witness :
  is_a_b a_b_shapes = true
  /\ prod_net_pm (fun _ _ _ _ => tt) (fun _ => tt) (fun _ _ => tt)
                 (fun _ => tt) (fun _ => tt) (fun _ => 0%nat)
                 (fun _ _ _ _ => tt) batch_X batch_X a_b_shapes
     = Throw (KeyError "c").
Proof.
  split; [reflexivity|].
  exact (proj2 (@prod_net_pm_never_returns unit unit
                  (fun _ _ _ _ => tt) (fun _ => tt) (fun _ _ => tt)
                  (fun _ => tt) (fun _ => tt) (fun _ => 0%nat)
                  (fun _ _ _ _ => tt) batch_X batch_X a_b_shapes)
               2%nat 2%nat eq_refl eq_refl eq_refl).
Defined.

Lemma summarize_percentiles_witness :
  ((2 <= ndim batch_X)%nat /\ Forall (fun x => 0 <= x <= 1) coverages)
  /\ exists r, summarize (fun X _ => X) batch_X coverages = Return r.
Proof.
  assert (H : (2 <= ndim batch_X)%nat
              /\ Forall (fun x => 0 <= x <= 1) coverages).
  { split; [unfold ndim, batch_X; simpl; lia|]. unfold coverages.
    constructor; [cbv beta; split; lra|].
    constructor; [cbv beta; split; lra|]. constructor. }
  split; [exact H|].
  destruct (proj1 (@summarize_percentiles (fun X _ => X) batch_X coverages)
                  H) as [Hr _].
  eexists. exact Hr.
Defined.

Lemma load_stops_at_first_mismatch_witness :
  load fresh_params second_value_off
  = ([ {| shape := [2%nat]; data := [1; 2] |};
       {| shape := [1%nat; 1%nat]; data := [0] |} ],
     Raise (ValueError
              "mismatch: parameter has shape (1, 1) but value to set has shape (3,)")).
Proof.
  apply (@load_stops_at_first_mismatch
           [ {| shape := [2%nat]; data := [1; 2] |} ]
           [ {| shape := [2%nat]; data := [0; 0] |} ] []
           {| shape := [1%nat; 1%nat]; data := [0] |}
           {| shape := [3%nat]; data := [1; 2; 3] |}
           [] (PyStr "notes")).
  - reflexivity.
  - simpl. discriminate.
  - reflexivity.
Defined.

Lemma round_trip_needs_one_note_witness :
  load fresh_params (save saved_params [PyStr "notes"])
  = (saved_params, Ok (PyStr "notes"))
  /\ raises (snd (load fresh_params
                       (save saved_params [PyStr "a"; PyStr "b"])))
  /\ fst (load fresh_params (save saved_params [PyStr "a"; PyStr "b"]))
     = fresh_params.
Proof.
  destruct (@round_trip_needs_one_note saved_params fresh_params eq_refl)
    as [H1 H2].
  split; [apply H1|]. apply H2. simpl. lia.
Defined.

Lemma logdets_collected_witness :
  exists st,
    flow_layers (with_coupling default_config 3) = Ok st
    /\ length (snd st) = 4%nat
    /\ pipeline (fst st)
       = [Linear; Coupling; Permutation; Coupling; Permutation; Coupling]
    /\ exists node,
         fst st = IndexLayer node 0
         /\ last (snd st) (fst st) = IndexLayer node 1.
Proof.
  eexists. split; [reflexivity|].
  destruct (@logdets_collected (with_coupling default_config 3) _ eq_refl)
    as (_ & Hlen & _ & node & _ & Hh & Hl).
  split; [rewrite Hlen; reflexivity|]. split; [reflexivity|].
  exists node. split; assumption.
Defined.

Lemma flow_of_every_kind_witness :
  (exists st,
     flow_layers (with_flow default_config "IAF") = Ok st
     /\ pipeline (fst st) = [Linear; IAF])
  /\ (exists st,
        flow_layers (with_coupling default_config (-2)) = Ok st
        /\ pipeline (fst st) = [Linear; Coupling])
  /\ flow_layers (with_flow default_config "MAF")
     = Raise (AssertionError "").
Proof.
  split; [|split].
  - destruct (proj1 (@flow_of_every_kind (with_flow default_config "IAF"))
                    eq_refl) as (st & Hst & Hp & _).
    exists st. split; assumption.
  - destruct (proj1 (proj2 (@flow_of_every_kind
                              (with_coupling default_config (-2))))
                    eq_refl) as (st & Hst & Hp & _); [simpl; lia|].
    exists st. split; assumption.
  - apply (proj2 (proj2 (@flow_of_every_kind
                           (with_flow default_config "MAF"))));
      simpl; discriminate.
Defined.

Lemma unknown_noise_fails_late_witness :
  @MLPWeightNorm_BHN backend (with_noise default_config "uniform")
  = Raise (AttributeError
             "'MLPWeightNorm_BHN' object has no attribute 'ep'").
Proof.
  apply (@unknown_noise_fails_late backend
           (with_noise default_config "uniform")).
  - simpl. discriminate.
  - simpl. discriminate.
  - left. reflexivity.
Defined.

Lemma weight_shapes_of_n_hiddens_witness :
  (n_hiddens default_config <= 1)%Z
  /\ weight_shapes default_config = [(784, 200); (200, 10)]%Z
  /\ num_params default_config = 210%Z.
Proof.
  assert (H : (n_hiddens default_config <= 1)%Z) by (simpl; lia).
  split; [exact H|].
  destruct (@weight_shapes_of_n_hiddens default_config) as (_ & Hw & Hn).
  split; [exact (Hw H)|]. rewrite Hn. reflexivity.
Defined.

Lemma mnf_splits_agree_witness :
  snd (MNF_MLP_BHN.z_T_bs default_config) = [(0, 784); (784, 984)]%Z
  /\ MNF_MLP_BHN.num_params default_config = 984%Z
  /\ exists k s,
       nth_error (map MNF_MLP_BHN.range_of
                      (MNF_MLP_BHN.st_z_T_fs
                         (MNF_MLP_BHN.primary_layers default_config))) k
       = Some s
       /\ in_slice s 800%Z.
Proof.
  pose proof (@mnf_splits_agree default_config) as H. cbv zeta in H.
  destruct H as (Hb & Hr & _ & _ & _ & _ & Hn & _ & _ & _ & Hcov).
  split; [rewrite <- Hb, Hr; reflexivity|].
  split; [rewrite Hn; reflexivity|].
  destruct (Hcov ltac:(simpl; lia) ltac:(simpl; lia) 800%Z)
    as (k & s & Hk & Hin & _).
  - rewrite Hn. simpl. lia.
  - exists k, s. split; assumption.
Defined.

Lemma cnn_init_returns_iff_witness :
  (exists s, HyperWN_CNN.init_shapes default_cnn_args = Return s)
  /\ HyperWN_CNN.init_shapes (with_pool_per default_cnn_args 0)
     = Throw (ZeroDivisionError "integer division or modulo by zero")
  /\ HyperWN_CNN.init_shapes (with_channels default_cnn_args [32%Z])
     = Throw (Builtin (IndexError "list index out of range"))
  /\ exists msg,
       HyperWN_CNN.init_shapes (with_convlayers default_cnn_args 0)
       = Throw (Builtin (IndexError msg)).
Proof.
  split; [|split; [|split]].
  - apply (proj1 (@cnn_init_returns_iff default_cnn_args)).
    split; [simpl; lia|]. split; [simpl; lia|]. simpl. lia.
  - apply (proj1 (proj2 (proj2 (@cnn_init_returns_iff
                                  (with_pool_per default_cnn_args 0))))).
    + simpl. lia.
    + simpl. discriminate.
    + reflexivity.
  - apply (proj2 (proj2 (proj2 (@cnn_init_returns_iff
                                  (with_channels default_cnn_args
                                                 [32%Z]))))).
    + simpl. lia.
    + simpl. lia.
    + left. simpl. lia.
  - apply (proj1 (proj2 (@cnn_init_returns_iff
                           (with_convlayers default_cnn_args 0)))).
    simpl. lia.
Defined.

Lemma cnn_init_shapes_witness :
  exists s,
    HyperWN_CNN.init_shapes default_cnn_args = Return s
    /\ map HyperWN_CNN.in_chan (HyperWN_CNN.weight_shapes s) = [3; 128]%Z
    /\ map HyperWN_CNN.out_chan (HyperWN_CNN.weight_shapes s)
       = [128; 128]%Z
    /\ map HyperWN_CNN.pool (HyperWN_CNN.args s) = [true; true]
    /\ HyperWN_CNN.int64_array (HyperWN_CNN.weight_shapes s) = true
    /\ HyperWN_CNN.n_kernels s = Some 131%Z
    /\ HyperWN_CNN.num_params s = Some 1261%Z.
Proof.
  eexists. split; [reflexivity|].
  pose proof (@cnn_init_shapes default_cnn_args _ eq_refl) as H.
  cbv zeta in H.
  destruct H as (_ & _ & Ho & Hi & _ & Hp & _ & _ & Hk & _ & Hn).
  split; [rewrite Hi; reflexivity|]. split; [rewrite Ho; reflexivity|].
  split; [rewrite Hp; reflexivity|]. split; [reflexivity|].
  split.
  - rewrite (proj1 (Hk eq_refl)). reflexivity.
  - rewrite (Hn eq_refl eq_refl eq_refl). reflexivity.
Defined.

Lemma cnn_weight_slices_witness :
  exists s,
    HyperWN_CNN.init_shapes default_cnn_args = Return s
    /\ map HyperWN_CNN.range_of
           (HyperWN_CNN.weights_of
              (snd (HyperWN_CNN.primary_layers default_cnn_args s)))
       = [(0, 128); (128, 256); (256, 1256); (1256, 1261)]%Z
    /\ HyperWN_CNN.num_params s
       = Some (fst (HyperWN_CNN.primary_layers default_cnn_args s)).
Proof.
  eexists. split; [reflexivity|].
  pose proof (@cnn_weight_slices default_cnn_args _ eq_refl) as H.
  cbv zeta in H. destruct H as (Hr & _ & _ & _ & _ & Ht & _).
  split; [rewrite Hr; reflexivity|].
  apply (Ht eq_refl eq_refl eq_refl). simpl. lia.
Defined.

Lemma perdatapoint_never_constructs_witness :
  @MLPWeightNorm_BHN backend (with_perdatapoint default_config true)
  = Raise (MissingInputError (@missing_input backend))
  /\ exists m, @MLPWeightNorm_BHN backend default_config = Ok m.
Proof.
  destruct (@perdatapoint_never_constructs backend
              (with_perdatapoint default_config true)) as (_ & Hraise).
  destruct (@perdatapoint_never_constructs backend default_config)
    as (_ & Hok).
  split.
  - apply Hraise; try reflexivity; try (left; reflexivity).
    unfold positive_widths. simpl. lia.
  - apply Hok; try reflexivity; try (left; reflexivity).
    unfold positive_widths. simpl. lia.
Defined.

End MoreWitnesses.
